(** * jungo-cli: extrinsic flows and read views, embedded and verified

    A shallow embedding of the decision logic of the command-line client:
    - [src/utils.py]: the destination-address validator, the hotkey wallets
      of a wallet and the u16 normalization;
    - [bittensor_cli/src/bittensor/extrinsics/transfer.py]: the transfer flow;
    - [src/commands/root.py]: senate vote, burned registration, set-take,
      delegation and nomination with their commands, the root weight view,
      boosting and slashing of root weights, the proposals view and the
      stake-change cell of the delegate list.

    Python's [async]/[await] is sequential inside one flow, so a flow is a
    computation in a writer-with-exceptions monad: it records the calls it
    makes on the wallet, the chain session and the console as a trace of
    [event]s and ends either by returning a value or by raising.  What the
    chain, the wallet and the user answer is an explicit argument of every
    flow. Calls on the chain session and on the wallet are taken to answer:
    a transport error or a wrong passphrase leaves the flow as an exception
    before any later step, and such runs are not described here. The
    failures the code handles, or runs into through a missing value, are
    modelled. Python floats are embedded by their exact rational value
    ([Q]); where the flow truncates a float product to an integer, the
    product is rounded to binary64 first, as the interpreter does. *)

From Stdlib Require Import ZArith QArith Qround Qabs Qpower Lia Bool.
From Stdlib Require SpecFloat.
From stdpp Require Import base option list strings gmap.

Local Open Scope Z_scope.

(** ** Exceptions and results *)

(** The subclasses of Python's [Exception] that the modelled code raises or
    catches by name; [OtherError] stands for any further subclass raised by
    a library. *)
Inductive pyexn : Type :=
  | ValueError
  | IndexError
  | TypeError
  | AttributeError
  | KeyError
  | OtherError.

Global Instance pyexn_eq_dec : EqDecision pyexn.
Proof. solve_decision. Defined.

Inductive result (A : Type) : Type :=
  | Ok (a : A)
  | Raise (e : pyexn).
Global Arguments Ok {A} a.
Global Arguments Raise {A} e.

Global Instance result_ret : MRet result := fun A a => Ok a.
Global Instance result_bind : MBind result := fun A B f m =>
  match m with
  | Ok a => f a
  | Raise e => Raise e
  end.

(** [try: body except (classes): handler] *)
Definition try_except {A} (body : result A) (classes : list pyexn)
    (handler : result A) : result A :=
  match body with
  | Ok a => Ok a
  | Raise e => if bool_decide (e ∈ classes) then handler else Raise e
  end.

(** ** Python objects handed to the validator *)

Inductive pyobj : Type :=
  | PyStr (s : string)
  | PyBytes (b : list Byte.byte)
  | PyNone
  | PyInt (z : Z).

(** ** [src/utils.py] *)

Definition U16_MAX : Z := 65535.
Definition U64_MAX : Z := 18446744073709551615.

(** The third-party libraries the validator calls ([bittensor_wallet] and
    [scalecodec]); they are not part of this repository. *)
Class KeyLibrary : Type := {
  (** [bittensor_wallet.utils.SS58_FORMAT] *)
  SS58_FORMAT : Z;
  (** [ss58.is_valid_ss58_address(address, valid_ss58_format=fmt)] *)
  ss58_is_valid_ss58_address : string → Z → result bool;
  (** [Keypair(public_key=pk, ss58_format=fmt).ss58_address], [None] or an
      address *)
  Keypair_ss58_address : pyobj → Z → result (option string);
}.

Section Validator.
Context `{KeyLibrary}.

Definition is_valid_ss58_address (address : string) : result bool :=
  try_except
    (a ← ss58_is_valid_ss58_address address SS58_FORMAT;
     if a : bool then mret true
     else ss58_is_valid_ss58_address address 42)
    [IndexError]
    (mret false).

Definition is_valid_ed25519_pubkey (public_key : pyobj) : result bool :=
  try_except
    (match public_key with
     | PyStr s =>
         if negb (String.length s =? 64)%nat && negb (String.length s =? 66)%nat
         then Raise ValueError else mret ()
     | PyBytes b =>
         if negb (length b =? 32)%nat then Raise ValueError else mret ()
     | _ => Raise ValueError
     end;;
     ss58_addr ← Keypair_ss58_address public_key SS58_FORMAT;
     mret (bool_decide (ss58_addr ≠ None)))
    [ValueError; IndexError]
    (mret false).

Definition is_valid_bittensor_address_or_public_key (address : pyobj)
    : result bool :=
  match address with
  | PyStr s =>
      if String.prefix "0x" s then is_valid_ed25519_pubkey address
      else is_valid_ss58_address s
  | PyBytes _ => is_valid_ed25519_pubkey address
  | _ => mret false
  end.

(** The library check rejects the address for this format: it answers
    [False], or fails the way [is_valid_ss58_address] expects. *)
Definition ss58_rejects (address : string) (fmt : Z) : Prop :=
  ss58_is_valid_ss58_address address fmt = Ok false
  ∨ ss58_is_valid_ss58_address address fmt = Raise IndexError.

End Validator.

(** ** Numbers *)

(** Python's [int(x)] on a float: truncation toward zero. *)
Definition py_int (x : Q) : Z := Z.quot (Qnum x) (Z.pos (Qden x)).

(** Python's [round(x)] on a float: to the nearest integer, ties to the
    even one. *)
Definition py_round (x : Q) : Z :=
  let f := Qfloor x in
  match (x - inject_Z f ?= 1 # 2)%Q with
  | Lt => f
  | Gt => f + 1
  | Eq => if Z.even f then f else f + 1
  end.

(** ** Binary64 arithmetic

    A Python float is an IEEE 754 binary64 value, and the product of two
    floats is their exact product rounded to the nearest binary64 value,
    ties to the one with an even significand. Rounding is given here for
    results in the finite range; beyond [b64_max] the product of the
    interpreter is infinite, which a rational does not express. *)

Definition pow2 (e : Z) : Q := (2 ^ e)%Q.

(** The integer part of the binary logarithm of a positive rational. *)
Definition Qlog2 (x : Q) : Z :=
  let l := Z.log2 (Qnum x) - Z.log2 (Z.pos (Qden x)) in
  if Qle_bool (pow2 l) x then l else l - 1.

(** The exponent of the smallest positive binary64 value, 2⁻¹⁰⁷⁴. *)
Definition b64_emin : Z := -1074.

(** The largest finite binary64 value, (2⁵³ - 1) × 2⁹⁷¹. *)
Definition b64_max : Q := inject_Z ((2 ^ 53 - 1) * 2 ^ 971).

(** The exponent of the unit in the last place at [x]: a significand of 53
    bits, and the fixed exponent of the subnormal values below 2⁻¹⁰²². *)
Definition b64_exponent (x : Q) : Z := Z.max (Qlog2 (Qabs x) - 52) b64_emin.

(** Rounding to the nearest binary64 value, ties to even. *)
Definition b64 (x : Q) : Q :=
  if Qeq_bool x 0 then 0%Q
  else
    let e := b64_exponent x in
    (inject_Z (py_round (x / pow2 e)) * pow2 e)%Q.

(** [x * y] on floats. *)
Definition float_mul (x y : Q) : Q := b64 (x * y).

(** The rational value of a finite float of the Standard Library's
    specification of IEEE 754 arithmetic, against which [float_mul] is
    compared below. *)
Definition SF2Q (f : SpecFloat.spec_float) : Q :=
  match f with
  | SpecFloat.S754_finite s m e =>
      (inject_Z (if s then Z.neg m else Z.pos m) * pow2 e)%Q
  | _ => 0%Q
  end.

(** ** Balance *)

(** Modelled from the spec: the Balance value type. Its module
    ([src/bittensor/balances.py]) is not among the sources; the spec gives
    it as an integer amount of rao, built from rao or from a decimal token
    amount (amount × 10⁹, rounded), with exact [+], [-] and ordering on the
    rao amount, and no other operation. *)
Record Balance : Type := from_rao { rao : Z }.

Global Instance Balance_eq_dec : EqDecision Balance.
Proof. solve_decision. Defined.

Definition RAO_PER_TAO : Z := 1000000000.

Definition tao (b : Balance) : Q := inject_Z (rao b) / inject_Z RAO_PER_TAO.
Definition from_tao (a : Q) : Balance :=
  from_rao (py_round (a * inject_Z RAO_PER_TAO)).

Definition Balance_add (a b : Balance) : Balance := from_rao (rao a + rao b).
Definition Balance_sub (a b : Balance) : Balance := from_rao (rao a - rao b).
Definition Balance_lt (a b : Balance) : bool := rao a <? rao b.
Definition Balance_gt (a b : Balance) : bool := rao b <? rao a.

Declare Scope balance_scope.
Delimit Scope balance_scope with bal.
Infix "+" := Balance_add : balance_scope.
Infix "-" := Balance_sub : balance_scope.
Infix "<?" := Balance_lt : balance_scope.
Infix ">?" := Balance_gt : balance_scope.

(** Modelled from the spec: [Balance.from_tao] applied to an amount that
    is already a Balance. The class is not among the sources; the spec
    gives [from_tao] as the amount × 10⁹, which for a Balance of [r] rao is
    read here as [r] × 10⁹ rao. *)
Definition from_tao_of_rao_amount (b : Balance) : Balance :=
  from_rao (rao b * RAO_PER_TAO).

(** ** Calls, events and flows *)

Inductive param : Type :=
  | PInt (z : Z)
  | PFloat (q : Q)
  | PString (s : string)
  | PBool (b : bool).

(** [substrate.compose_call(call_module, call_function, call_params)]: the
    unsigned description of a state transition, a module name, a function
    name and named parameters. *)
Record Call : Type := compose_call {
  call_module : string;
  call_function : string;
  call_params : list (string * param);
}.

Inductive keyrole : Type := Coldkey | Coldkeypub | Hotkey.

(** What a flow does to the outside world, in order. Printed messages keep
    their fixed text and the balances interpolated in them. *)
Inductive event : Type :=
  | Print (text : string) (shown : list Balance)     (* console.print *)
  | PrintErr (text : string) (shown : list Balance)  (* err_console.print *)
  | ConfirmAsk (text : string) (shown : list Balance) (* Confirm.ask *)
  | UnlockColdkey
  | UnlockHotkey
  | ChainRead (what : string)         (* storage query or read-only RPC *)
  | Composed (c : Call)               (* substrate.compose_call *)
  | PaymentInfo (c : Call) (k : keyrole) (* substrate.get_payment_info *)
  | Signed (c : Call) (k : keyrole)   (* substrate.create_signed_extrinsic *)
  | Submitted (c : Call)              (* substrate.submit_extrinsic *)
  | SignedAndSent (c : Call)          (* subtensor.sign_and_send_extrinsic *)
  | Sleep.

Definition is_submission (e : event) : bool :=
  match e with
  | Submitted _ | SignedAndSent _ => true
  | _ => false
  end.

Definition is_composition (e : event) : bool :=
  match e with
  | Composed _ => true
  | _ => false
  end.

Definition is_prompt (e : event) : bool :=
  match e with
  | ConfirmAsk _ _ => true
  | _ => false
  end.

(** Unlocking a key asks the user for its passphrase. *)
Definition is_unlock (e : event) : bool :=
  match e with
  | UnlockColdkey | UnlockHotkey => true
  | _ => false
  end.

Definition submits (trace : list event) : bool := existsb is_submission trace.
Definition composes (trace : list event) : bool := existsb is_composition trace.
Definition prompts (trace : list event) : bool := existsb is_prompt trace.
Definition unlocks (trace : list event) : bool := existsb is_unlock trace.

(** A flow: the trace it leaves and how it ends. *)
Definition Flow (A : Type) : Type := list event * result A.

Global Instance Flow_ret : MRet Flow := fun A a => ([], Ok a).
Global Instance Flow_bind : MBind Flow := fun A B f m =>
  match m with
  | (t, Ok a) => let '(t', r) := f a in (t ++ t', r)
  | (t, Raise e) => (t, Raise e)
  end.

Definition emit (e : event) : Flow unit := ([e], Ok ()).
Definition lift {A} (r : result A) : Flow A := ([], r).
Definition skip : Flow unit := mret ().

(** [try: body except Exception as e: handler e] *)
Definition try_except_Exception {A} (body : Flow A) (handler : pyexn → Flow A)
    : Flow A :=
  match body with
  | (t, Ok a) => (t, Ok a)
  | (t, Raise e) => let '(t', r) := handler e in (t ++ t', r)
  end.

Definition trace {A} (m : Flow A) : list event := fst m.
Definition outcome {A} (m : Flow A) : result A := snd m.

(** ** [bittensor_cli/src/bittensor/extrinsics/transfer.py] *)

Module Transfer.

Record Args : Type := {
  destination : string;
  amount : Balance;
  wait_for_inclusion : bool;
  wait_for_finalization : bool;
  keep_alive : bool;
  prompt : bool;
}.

(** What the chain and the user answer during one run. *)
Record World : Type := {
  (** [get_balance(...)[wallet.coldkey.ss58_address]] at the chain head *)
  chain_balance : Balance;
  (** [get_existential_deposit(...)] *)
  chain_existential_deposit : Balance;
  (** [get_payment_info(...)["partialFee"]], or the exception it raises *)
  payment_info : result Z;
  (** the user's answer to [Confirm.ask] *)
  confirmed : bool;
  (** the response to [submit_extrinsic], after [process_events] *)
  response_is_success : bool;
  response_block_hash : string;
  response_error_message : string;
  (** [get_explorer_url_for_network(...)] is non-empty *)
  has_explorer_urls : bool;
}.

Definition DEFAULT_FEE : Z := 20000000.  (* int(2e7) *)

(** The same run with another answer of the payment-info query. *)
Definition with_payment_info (w : World) (answer : result Z) : World := {|
  chain_balance := chain_balance w;
  chain_existential_deposit := chain_existential_deposit w;
  payment_info := answer;
  confirmed := confirmed w;
  response_is_success := response_is_success w;
  response_block_hash := response_block_hash w;
  response_error_message := response_error_message w;
  has_explorer_urls := has_explorer_urls w;
|}.

Section Flow.
Context `{KeyLibrary} (a : Args) (w : World).

Definition transfer_call : Call :=
  compose_call "Balances" "transfer_allow_death"
    [("dest", PString (destination a)); ("value", PInt (rao (amount a)))].

Definition get_transfer_fee : Flow Balance :=
  let call := transfer_call in
  emit (Composed call);;
  partialFee ← try_except_Exception
    (emit (PaymentInfo call Coldkeypub);; lift (payment_info w))
    (fun e =>
       let partialFee := DEFAULT_FEE in  (* assume 0.02 Tao *)
       emit (PrintErr "Failed to get payment info. Defaulting to default transfer fee"
               [from_rao partialFee]);;
       mret partialFee);
  mret (from_rao partialFee).

Definition do_transfer : Flow (bool * string * string) :=
  let call := transfer_call in
  emit (Composed call);;
  emit (Signed call Coldkey);;
  emit (Submitted call);;
  if negb (wait_for_finalization a) && negb (wait_for_inclusion a)
  then mret (true, "", "")
  else if response_is_success w
  then mret (true, response_block_hash w, "")
  else mret (false, "", response_error_message w).

(** After a successful submission the flow subscripts [account_balance],
    which is already the [Balance] taken out of the balance mapping;
    a [Balance] has no item access, so the final report raises
    [TypeError] instead of returning [True]. *)
Definition transfer_extrinsic : Flow bool :=
  valid ← lift (is_valid_bittensor_address_or_public_key
                  (PyStr (destination a)));
  if negb valid then
    emit (PrintErr "Invalid destination address" []);;
    mret false
  else
    emit UnlockColdkey;;
    emit (ChainRead "chain_head");;
    emit (ChainRead "balance");;
    emit (ChainRead "existential_deposit");;
    let account_balance := chain_balance w in
    let existential_deposit := chain_existential_deposit w in
    fee ← get_transfer_fee;
    let existential_deposit :=
      if negb (keep_alive a) then from_rao 0 else existential_deposit in
    if (account_balance <? (amount a + fee + existential_deposit))%bal then
      emit (PrintErr "Not enough balance" [account_balance; amount a; fee]);;
      mret false
    else
      go ← (if prompt a
            then emit (ConfirmAsk "Do you want to transfer" [amount a; fee]);;
                 mret (confirmed w)
            else mret true);
      if negb go then mret false
      else
        r ← do_transfer;
        let '(success, block_hash, err_msg) := r : bool * string * string in
        (if success then
           emit (Print "Finalized" []);;
           emit (Print "Block Hash" []);;
           if has_explorer_urls w then
             emit (Print "Opentensor Explorer Link" []);;
             emit (Print "Taostats Explorer Link" [])
           else skip
         else emit (Print "Failed" []));;
        if success then
          emit (ChainRead "balance");;
          lift (Raise TypeError)
        else mret false.

End Flow.

End Transfer.

(** ** [src/commands/root.py] *)

(** A coroutine function called without [await] yields a coroutine object:
    it is truthy whatever the call would have answered, it cannot be
    unpacked, and the call itself never runs. *)
Definition unawaited_is_truthy : bool := true.
Definition unpack_unawaited {A} : Flow A := lift (Raise TypeError).

Module Senate.

Record ProposalVoteData : Type := {
  index : Z;
  threshold : Z;
  ayes : list string;
  nays : list string;
  end_ : Z;
}.

Record World : Type := {
  (** [SenateMembers.Members], serialized; [None] when the query result
      has no [serialize] *)
  members : option (list string);
  (** [Triumvirate.Voting] of the proposal before the vote *)
  voting_before : option ProposalVoteData;
  (** the answer to "Desired vote for proposal" *)
  desired_vote : bool;
  (** the answer to "Cast a vote of ...?" *)
  cast_confirmed : bool;
  (** what [sign_and_send_extrinsic] reports *)
  send_success : bool;
  send_err_msg : string;
  (** [Triumvirate.Voting] of the proposal, queried again after the vote *)
  voting_after : option ProposalVoteData;
}.

Section Flow.
Context (hotkey_ss58 : string) (proposal_hash : string) (w : World).

Definition _get_senate_members : Flow (list string) :=
  emit (ChainRead "SenateMembers.Members");;
  match members w with
  | None => lift (Raise TypeError)
  | Some l => mret l
  end.

Definition count (x : string) (l : list string) : nat :=
  length (filter (fun y => y = x) l).

(** The serialized members are a list, which has [count]; the [hasattr]
    guard never fires. *)
Definition _is_senate_member : Flow bool :=
  senate_members ← _get_senate_members;
  mret (bool_decide (0 < count hotkey_ss58 senate_members)%nat).

Definition _get_vote_data (answer : option ProposalVoteData)
    : Flow (option ProposalVoteData) :=
  emit (ChainRead "Triumvirate.Voting");;
  mret answer.

Definition vote_call (proposal_idx : Z) (vote : bool) : Call :=
  compose_call "SubtensorModule" "vote"
    [("hotkey", PString hotkey_ss58); ("proposal", PString proposal_hash);
     ("index", PInt proposal_idx); ("approve", PBool vote)].

Definition vote_senate_extrinsic (proposal_idx : Z) (vote : bool)
    (wait_for_inclusion wait_for_finalization prompt : bool) : Flow bool :=
  go ← (if prompt
        then emit (ConfirmAsk "Cast a vote?" []);; mret (cast_confirmed w)
        else mret true);
  if negb go then mret false
  else
    let call := vote_call proposal_idx vote in
    emit (Composed call);;
    emit (SignedAndSent call);;
    if negb (send_success w) then
      emit (PrintErr "Failed" []);;
      emit Sleep;;
      mret false
    else
      vote_data ← _get_vote_data (voting_after w);
      match vote_data with
      | None => lift (Raise TypeError)   (* None["ayes"] *)
      | Some vote_data =>
          let has_voted :=
            bool_decide (0 < count hotkey_ss58 (ayes vote_data))%nat
            || bool_decide (0 < count hotkey_ss58 (nays vote_data))%nat in
          if has_voted then
            emit (Print "Vote cast." []);;
            mret true
          else
            emit (PrintErr "Unknown error. Couldn't find vote." []);;
            mret false
      end.

Definition senate_vote : Flow bool :=
  if bool_decide (proposal_hash = "") then
    emit (Print "Aborting: Proposal hash not specified." []);;
    mret false
  else
    is_member ← _is_senate_member;
    if negb is_member then
      emit (PrintErr "Aborting: Hotkey isn't a senate member." []);;
      mret false
    else
      emit UnlockHotkey;;
      emit UnlockColdkey;;
      vote_data ← _get_vote_data (voting_before w);
      match vote_data with
      | None =>
          emit (PrintErr "Failed: Proposal not found." []);;
          mret false
      | Some vote_data =>
          emit (ConfirmAsk "Desired vote for proposal" []);;
          let vote := desired_vote w in
          vote_senate_extrinsic (index vote_data) vote true false true
      end.

End Flow.

End Senate.

Module Register.

Record Args : Type := {
  hotkey_ss58 : string;
  netuid : Z;
  recycle_amount : Balance;
  old_balance : Balance;
  wait_for_inclusion : bool;
  wait_for_finalization : bool;
  prompt : bool;
}.

Record World : Type := {
  (** [neuron_for_uid(...).is_null] for the uid stored for the hotkey *)
  neuron_is_null : bool;
  (** the answer to "Recycle ... to register on subnet:...?" *)
  confirmed : bool;
  new_balance : Balance;
  netuids_for_hotkey : list Z;
}.

Section Flow.
Context (a : Args) (w : World).

Definition register_call : Call :=
  compose_call "SubtensorModule" "burned_register"
    [("netuid", PInt (netuid a)); ("hotkey", PString (hotkey_ss58 a))].

(** [subnet_exists] and [sign_and_send_extrinsic] are called without
    [await] here: the first guard never fires, and unpacking the second
    raises before anything is sent. *)
Definition burned_register_extrinsic : Flow bool :=
  if negb unawaited_is_truthy then
    emit (PrintErr "Failed: subnet does not exist." []);;
    mret false
  else
    emit UnlockColdkey;;
    emit (ChainRead "SubtensorModule.Uids");;
    emit (ChainRead "neuron_for_uid");;
    if negb (neuron_is_null w) then
      emit (Print "Already Registered" []);;
      mret true
    else
      go ← (if prompt a
            then emit (ConfirmAsk "Recycle to register on subnet?"
                         [recycle_amount a]);;
                 mret (confirmed w)
            else mret true);
      if negb go then mret false
      else
        emit (Composed register_call);;
        r ← unpack_unawaited;
        let '(success, err_msg) := r : bool * string in
        if negb success then
          emit (PrintErr "Failed" []);;
          emit Sleep;;
          mret false
        else
          emit (ChainRead "chain_head");;
          emit (ChainRead "balance");;
          emit (ChainRead "netuids_for_hotkey");;
          emit (Print "Balance" [old_balance a; new_balance w]);;
          if (0 <? length (netuids_for_hotkey w))%nat then
            emit (Print "Registered" []);;
            mret true
          else
            emit (PrintErr "Unknown error. Neuron not found." []);;
            mret false.

End Flow.

End Register.

Module Take.

Record Args : Type := {
  delegate_ss58 : string;
  take : Q;
  wait_for_inclusion : bool;
  wait_for_finalization : bool;
}.

Record World : Type := {
  (** [DelegateInfo.take] of the delegate the custom RPC
      [delegateInfo_getDelegate] returns, [None] when it returns none *)
  delegate_take : option Q;
  response_is_success : bool;
  response_error_message : string;
}.

(** [int(take * 0xFFFF)]: the float product, then truncated. *)
Definition take_u16_of (take : Q) : Z :=
  py_int (float_mul take (inject_Z 0xFFFF)).

(** [int(float(delegate.take) * 65535.0)] *)
Definition current_take_of (delegate_take : Q) : Z :=
  py_int (float_mul delegate_take (65535 # 1)).

Section Flow.
Context (a : Args) (w : World).

Definition take_call (function : string) : Call :=
  compose_call "SubtensorModule" function
    [("hotkey", PString (delegate_ss58 a)); ("take", PFloat (take a))].

Definition _get_delegate_by_hotkey : Flow (option Q) :=
  emit (ChainRead "delegateInfo_getDelegate");;
  mret (delegate_take w).

Definition _take_extrinsic (call_ : Call) : Flow (bool * string) :=
  emit (Signed call_ Coldkey);;
  emit (Submitted call_);;
  if negb (wait_for_finalization a) && negb (wait_for_inclusion a)
  then mret (true, "")
  else if response_is_success w
  then mret (true, "")
  else mret (false, response_error_message w).

Definition set_take_extrinsic : Flow bool :=
  let take_u16 := take_u16_of (take a) in
  delegate ← _get_delegate_by_hotkey;
  let current_take := current_take_of <$> delegate in
  if bool_decide (Some take_u16 = current_take) then
    emit (Print "Nothing to do, take hasn't changed" []);;
    mret true
  else
    r ← (if match current_take with
            | None => true
            | Some c => c <? take_u16
            end
         then
           emit (Print "Current take is either not set or is lower than the new one. Will use increase_take" []);;
           let call := take_call "increase_take" in
           emit (Composed call);;
           _take_extrinsic call
         else
           emit (Print "Current take is higher than the new one. Will use decrease_take" []);;
           let call := take_call "decrease_take" in
           emit (Composed call);;
           _take_extrinsic call);
    let '(success, err) := r : bool * string in
    (if negb success then emit (PrintErr err [])
     else emit (Print "Finalized" []));;
    mret success.

End Flow.

End Take.

Module Delegate.

Record Args : Type := {
  delegate_ss58 : string;
  amount : option Balance;
  wait_for_inclusion : bool;
  wait_for_finalization : bool;
  prompt : bool;
  delegate : bool;
}.

Record World : Type := {
  (** [get_balance(...)[wallet.coldkey.ss58_address]] at the first block *)
  my_prev_coldkey_balance : Balance;
  confirmed : bool;
  send_success : bool;
  send_err_msg : string;
  new_balance : Balance;
}.

Definition b1k : Balance := from_rao 1000.

Section Flow.
(** [Balance.from_tao(amount)] when [amount] is a [Balance], the declared
    type of the argument and what both commands pass: the result is
    whatever the arithmetic of the Balance class makes of
    [amount * 10**9]; the spec gives [from_tao] on decimal amounts only,
    so this conversion is a parameter of the flow. *)
Context (from_tao_of_Balance : Balance → Balance).
Context (a : Args) (w : World).

(** Lines 601-605: the requested amount as a Balance. *)
Definition requested_balance : Balance :=
  match amount a with
  | None => from_tao (tao (my_prev_coldkey_balance w))  (* Stake it all. *)
  | Some amount => from_tao_of_Balance amount
  end.

(** Lines 607-612: remove existential balance to keep key alive. *)
Definition withhold (staking_balance : Balance) : Balance :=
  if delegate a then
    if (staking_balance >? b1k)%bal then (staking_balance - b1k)%bal
    else staking_balance
  else staking_balance.

Definition staking_balance : Balance := withhold requested_balance.

(** The call is built from [amount.rao], the argument as passed, not
    from the staking balance computed above. *)
Definition _do_delegation : Flow (bool * string) :=
  match amount a with
  | None => lift (Raise AttributeError)   (* None.rao *)
  | Some amount =>
      let call :=
        if delegate a then
          compose_call "SubtensorModule" "add_stake"
            [("hotkey", PString (delegate_ss58 a));
             ("amount_staked", PInt (rao amount))]
        else
          compose_call "SubtensorModule" "remove_stake"
            [("hotkey", PString (delegate_ss58 a));
             ("amount_unstaked", PInt (rao amount))] in
      emit (Composed call);;
      emit (SignedAndSent call);;
      mret (send_success w, send_err_msg w)
  end.

(** [is_hotkey_delegate] is called without [await]: the guard never
    fires. The stake query inside [get_stake_for_coldkey_and_hotkey] is
    not awaited either, so it reads nothing. *)
Definition delegate_extrinsic : Flow bool :=
  emit UnlockColdkey;;
  if negb unawaited_is_truthy then
    emit (PrintErr "Hotkey is not a delegate." []);;
    mret false
  else
    emit (ChainRead "chain_head");;
    emit (ChainRead "balance");;
    emit (ChainRead "hotkey_owner");;
    let staking_balance := staking_balance in
    if (staking_balance >? my_prev_coldkey_balance w)%bal then
      emit (PrintErr "Not enough balance"
              [my_prev_coldkey_balance w; staking_balance]);;
      mret false
    else
      go ← (if prompt a
            then emit (ConfirmAsk "Do you want to delegate/undelegate"
                         [staking_balance]);;
                 mret (confirmed w)
            else mret true);
      if negb go then mret false
      else
        r ← _do_delegation;
        let '(staking_response, err_msg) := r : bool * string in
        if staking_response then
          if negb (wait_for_finalization a) && negb (wait_for_inclusion a)
          then mret true
          else
            emit (Print "Finalized" []);;
            emit (ChainRead "chain_head");;
            emit (ChainRead "balance");;
            emit (Print "Balance" [my_prev_coldkey_balance w; new_balance w]);;
            mret true
        else
          emit (PrintErr "Failed" []);;
          mret false.

End Flow.

End Delegate.

Module Weights.

(** One entry of [subtensor.weights(0)]: a uid and its (netuid, value)
    tuples. *)
Definition matrix : Type := Z * list (Z * Z).

(** The two accumulators of [get_weights]; [divisions] counts how many
    times the array division of the [else] branch was evaluated. *)
Record state : Type := {
  uid_to_weights : gmap Z (gmap Z Q);
  netuids : gset Z;
  divisions : nat;
}.

Definition initial : state :=
  {| uid_to_weights := ∅; netuids := ∅; divisions := 0 |}.

(** [np.sum(weights_data, axis=0)[1]] *)
Definition sum_values (weights_data : list (Z * Z)) : Z :=
  foldr (fun wd acc => snd wd + acc) 0 weights_data.

(** [np.array(weights_data)[:, 1] / max(np.sum(weights_data, axis=0)[1], 1)] *)
Definition normalize (weights_data : list (Z * Z)) : list Q :=
  let denominator := Z.max (sum_values weights_data) 1 in
  map (fun wd => (inject_Z (snd wd) / inject_Z denominator)%Q) weights_data.

(** The body of the inner [for] loop. *)
Definition record_weight (uid : Z) (st : state) (p : (Z * Z) * Q) : state :=
  let '((netuid, _), normalized_weight) := p in
  let u2w :=
    match uid_to_weights st !! uid with
    | None => <[uid := ∅]> (uid_to_weights st)
    | Some _ => uid_to_weights st
    end in
  {| uid_to_weights :=
       <[uid := <[netuid := normalized_weight]> (default ∅ (u2w !! uid))]> u2w;
     netuids := {[netuid]} ∪ netuids st;
     divisions := divisions st |}.

(** The body of the outer [for] loop. *)
Definition step (st : state) (m : matrix) : state :=
  let '(uid, weights_data) := m in
  let '(st, normalized_weights) :=
    if (length weights_data =? 0)%nat then
      ({| uid_to_weights := <[uid := ∅]> (uid_to_weights st);
          netuids := netuids st;
          divisions := divisions st |}, [])
    else
      ({| uid_to_weights := uid_to_weights st;
          netuids := netuids st;
          divisions := S (divisions st) |}, normalize weights_data) in
  foldl (record_weight uid) st (zip weights_data normalized_weights).

(** [get_weights], up to the table it prints. *)
Definition get_weights (weights : list matrix) : state :=
  foldl step initial weights.

(** The inner mapping after the item assignments of the inner loop, from
    the mapping [m] the uid had before. *)
Definition assigned (m : gmap Z Q) (entries : list ((Z * Z) * Q)) : gmap Z Q :=
  foldl (fun m p => <[p.1.1 := p.2]> m) m entries.

(** A row with at least one tuple. *)
Definition nonempty (m : matrix) : bool := negb (length m.2 =? 0)%nat.

End Weights.

(** ** Reading traces *)

Definition is_chain_read (e : event) : bool :=
  match e with
  | ChainRead _ => true
  | _ => false
  end.

(** The events that follow the first submission of a trace. *)
Fixpoint after_submission (t : list event) : list event :=
  match t with
  | [] => []
  | e :: t' => if is_submission e then t' else after_submission t'
  end.

(** ** More of [src/utils.py] *)

(** [u16_normalized_float] *)
Definition u16_normalized_float (x : Z) : Q := inject_Z x / inject_Z U16_MAX.

Module Wallets.

(** What looking at one entry of the [hotkeys] directory gives: the value of
    [exists_on_device() and not is_encrypted() and hotkey.ss58_address], or
    the exception one of the three raises. [UnicodeDecodeError] and
    [AttributeError] are the two the loop catches. *)
Inductive probe : Type :=
  | Usable
  | Unusable
  | UnicodeDecodeError
  | Fails (e : pyexn).

Definition usable (p : probe) : bool :=
  match p with
  | Usable => true
  | _ => false
  end.

Definition unusable (p : probe) : bool :=
  match p with
  | Unusable => true
  | _ => false
  end.

(** The body of the [for] loop of [get_hotkey_wallets_for_wallet], over the
    names the directory lists; a wallet is given by its hotkey name, and
    [None] is the placeholder [show_nulls] asks for. *)
Fixpoint collect (show_nulls : bool) (hotkeys : list (string * probe))
    : result (list (option string)) :=
  match hotkeys with
  | [] => mret []
  | (h_name, p) :: rest =>
      match p with
      | Usable =>
          hotkey_wallets ← collect show_nulls rest;
          mret (Some h_name :: hotkey_wallets)
      | Unusable =>
          hotkey_wallets ← collect show_nulls rest;
          mret (if show_nulls then None :: hotkey_wallets else hotkey_wallets)
      | UnicodeDecodeError => collect show_nulls rest
      | Fails e =>
          if bool_decide (e = AttributeError) then collect show_nulls rest
          else Raise e
      end
  end.

(** [get_hotkey_wallets_for_wallet]; the listing is [None] when the
    directory is not there ([FileNotFoundError]). *)
Definition get_hotkey_wallets_for_wallet
    (listing : option (list (string * probe))) (show_nulls : bool)
    : result (list (option string)) :=
  let hotkeys := default [] listing in
  collect show_nulls hotkeys.

End Wallets.

(** ** More of [src/commands/root.py] *)

Module TakeCommand.

Record World : Type := {
  (** [is_hotkey_delegate] before the take is set *)
  is_delegate : bool;
  (** [is_hotkey_delegate] at the final check *)
  is_delegate_afterwards : bool;
}.

(** The float [0.18]. *)
Definition TAKE_CEILING : Q := 3242591731706757 # 18014398509481984.

Section Flow.
Context (take : Q) (w : World).

(** [set_take_extrinsic] is called without [await]: [result] is the
    coroutine object, and the extrinsic flow does not run. *)
Definition _do_set_take : Flow bool :=
  emit (ChainRead "is_hotkey_delegate");;
  if negb (is_delegate w) then
    emit (PrintErr "Aborting: Hotkey is NOT a delegate." []);;
    mret false
  else if negb (Qle_bool take TAKE_CEILING) then
    emit (PrintErr "ERROR: Take value should not exceed 18%" []);;
    mret false
  else
    let result := unawaited_is_truthy in
    if negb result then
      emit (PrintErr "Could not set the take" []);;
      mret false
    else
      emit (ChainRead "is_hotkey_delegate");;
      if negb (is_delegate_afterwards w) then
        emit (PrintErr "Could not set the take" []);;
        mret false
      else
        emit (Print "Successfully set the take" []);;
        mret true.

Definition set_take : Flow bool :=
  emit UnlockHotkey;;
  emit UnlockColdkey;;
  _do_set_take.

End Flow.

End TakeCommand.

Module RegisterCommand.

Record World : Type := {
  subnet_exists : bool;
  (** [get_hyperparameter("Burn", ...)], [None] when there is none *)
  recycle_call : option Z;
  (** [balance_[wallet.coldkeypub.ss58_address]], [None] when the key is
      missing from the mapping *)
  balance_of_coldkey : option Balance;
  (** the answer to "Do you want to continue?" *)
  confirmed : bool;
  (** the answers during [burned_register_extrinsic] *)
  extrinsic_world : Register.World;
}.

Section Flow.
Context (hotkey_ss58 : string) (netuid : Z) (w : World).

(** [register] returns False where it gives up and nothing ([None]) where
    it runs to its end. *)
Definition register : Flow (option bool) :=
  emit (ChainRead "subnet_exists");;
  if negb (subnet_exists w) then
    emit (PrintErr "Subnet does not exist" []);;
    mret (Some false)
  else
    emit (ChainRead "Burn");;
    emit (ChainRead "balance");;
    match recycle_call w with
    | None =>   (* int(None): TypeError *)
        emit (PrintErr "Unable to retrieve current recycle." []);;
        mret (Some false)
    | Some recycle =>
        let current_recycle := from_rao recycle in
        match balance_of_coldkey w with
        | None =>   (* KeyError *)
            emit (PrintErr "Unable to retrieve current balance." []);;
            mret (Some false)
        | Some balance =>
            if (balance <? current_recycle)%bal then
              emit (PrintErr "Insufficient balance to register neuron."
                      [balance; current_recycle]);;
              mret (Some false)
            else
              emit (ConfirmAsk "The cost to register by recycle. Do you want to continue?"
                      [balance; current_recycle]);;
              if negb (confirmed w) then mret (Some false)
              else
                Register.burned_register_extrinsic
                  {| Register.hotkey_ss58 := hotkey_ss58;
                     Register.netuid := netuid;
                     Register.recycle_amount := current_recycle;
                     Register.old_balance := balance;
                     Register.wait_for_inclusion := false;
                     Register.wait_for_finalization := true;
                     Register.prompt := true |}
                  (extrinsic_world w);;
                mret None
        end
    end.

End Flow.

End RegisterCommand.

Module Nominate.

Record World : Type := {
  (** [is_hotkey_delegate] before nominating *)
  already_delegate : bool;
  send_success : bool;
  send_err_msg : string;
  (** the answer to "Would you like to set your identity?" *)
  do_set_identity : bool;
}.

Section Flow.
(** [set_id_prompts] and [set_id] are defined in [src/commands/wallets.py],
    which is not among the sources: what they ask, read and send, and how
    they end, are parameters of the flow. *)
Context {Prompts Identity : Type}.
Context (set_id_prompts : Flow Prompts) (set_id : Prompts → Flow Identity).
Context (hotkey_ss58 : string) (w : World).

Definition nominate_call : Call :=
  compose_call "SubtensorModule" "become_delegate"
    [("hotkey", PString hotkey_ss58)].

Definition nominate_extrinsic
    (wait_for_finalization wait_for_inclusion : bool) : Flow bool :=
  let call := nominate_call in
  emit (Composed call);;
  emit (SignedAndSent call);;
  let success := send_success w in
  (if success then emit (Print "Finalized" [])
   else emit (PrintErr "Failed" []));;
  mret success.

(** The second [is_hotkey_delegate] is not awaited, so its guard never
    fires. The function has no return value. *)
Definition nominate : Flow unit :=
  emit UnlockHotkey;;
  emit UnlockColdkey;;
  emit (ChainRead "is_hotkey_delegate");;
  if already_delegate w then
    emit (PrintErr "Aborting: Hotkey is already a delegate." []);;
    mret ()
  else
    result ← nominate_extrinsic false true;
    if negb result then
      emit (PrintErr "Could not became a delegate" []);;
      mret ()
    else
      let is_delegate := unawaited_is_truthy in
      if negb is_delegate then
        emit (PrintErr "Could not became a delegate" []);;
        mret ()
      else
        emit (Print "Successfully became a delegate" []);;
        emit (ConfirmAsk "Subnetwork registered successfully. Would you like to set your identity? [y/n]" []);;
        if do_set_identity w then
          id_prompts ← set_id_prompts;
          set_id id_prompts;;
          mret ()
        else mret ().

End Flow.

End Nominate.

Module DelegateList.

(** The CHANGE/(4h) cell of [list_delegates]. *)
Inductive rate_change : Type :=
  | NA                    (* "[grey0]NA[/grey0]" *)
  | Hundred               (* "[green]100%[/green]" *)
  | Up (rate : Q)         (* green, the rate with two decimals *)
  | Down (rate : Q)       (* red, the rate with two decimals *)
  | Unchanged.            (* "[grey0]0%[/grey0]" *)

(** Lines 1546-1567; [prev_stake] is [None] for a hotkey that is not in
    [prev_delegates_dict]. A Balance compares to 0 by its rao amount and
    [float(balance)] is its amount in tokens. *)
Definition rate_change_in_stake (total_stake : Balance)
    (prev_stake : option Balance) : rate_change :=
  match prev_stake with
  | None => NA
  | Some prev_stake =>
      if rao prev_stake =? 0 then Hundred
      else
        let rate_change_in_stake :=
          (inject_Z 100 * (tao total_stake - tao prev_stake)
           / tao prev_stake)%Q in
        if negb (Qle_bool rate_change_in_stake 0) then Up rate_change_in_stake
        else if negb (Qle_bool 0 rate_change_in_stake)
        then Down rate_change_in_stake
        else Unchanged
  end.

(** [prev_delegates_dict]: the previous delegates by hotkey, a later entry
    for the same hotkey replacing an earlier one; empty when the history
    could not be fetched. *)
Definition prev_delegates_dict (prev_delegates : option (list (string * Balance)))
    : gmap string Balance :=
  match prev_delegates with
  | None => ∅
  | Some prev_delegates =>
      foldl (fun d p => <[p.1 := p.2]> d) ∅ prev_delegates
  end.

(** The cell for one delegate of the current list. *)
Definition change_cell (prev_delegates : option (list (string * Balance)))
    (hotkey_ss58 : string) (total_stake : Balance) : rate_change :=
  rate_change_in_stake total_stake
    (prev_delegates_dict prev_delegates !! hotkey_ss58).

End DelegateList.

Module RootWeights.

(** Item access [my_weights[netuid]] on a one-dimensional array: an index
    below zero counts from the end, one outside the array is an
    [IndexError]. *)
Definition position (len : nat) (netuid : Z) : option nat :=
  if (0 <=? netuid) && (netuid <? Z.of_nat len) then Some (Z.to_nat netuid)
  else if (- Z.of_nat len <=? netuid) && (netuid <? 0)
  then Some (Z.to_nat (Z.of_nat len + netuid))
  else None.

(** [np.arange(len(my_weights))] *)
Definition arange (len : nat) : list Z := Z.of_nat <$> seq 0 len.

(** What [set_slash] hands to [set_root_weights_extrinsic]: all netuids and
    the weights after the slash. *)
Definition set_slash (my_weights : list Q) (netuid : Z) (amount : Q)
    : result (list Z * list Q) :=
  match position (length my_weights) netuid with
  | None => Raise IndexError
  | Some i =>
      (* my_weights[netuid] -= amount *)
      let my_weights := alter (fun x => (x - amount)%Q) i my_weights in
      (* my_weights[my_weights < 0] = 0 *)
      let my_weights :=
        (fun x : Q => if Qle_bool 0 x then x else 0%Q) <$> my_weights in
      let all_netuids := arange (length my_weights) in
      Ok (all_netuids, my_weights)
  end.


End RootWeights.

Module Proposals.

(** The value of a call argument: a nested call, or anything else by its
    [str]. *)
#[local] Set Warnings "-register-all".
Inductive arg_value : Type :=
  | NestedCall (call_function : string) (call_args : list (string * arg_value))
  | Plain (str : string).
#[local] Set Warnings "register-all".

(** A Python dict built by assigning the items in order: a key that is
    already there keeps its place and takes the new value. *)
Fixpoint dict_set {V} (k : string) (v : V) (d : list (string * V))
    : list (string * V) :=
  match d with
  | [] => [(k, v)]
  | (k', v') :: d' =>
      if decide (k = k') then (k, v) :: d' else (k', v') :: dict_set k v d'
  end.

Definition dict_of {V} (items : list (string * V)) : list (string * V) :=
  foldl (fun d p => dict_set p.1 p.2 d) [] items.

(** The text [format_call_data] gives for one argument value: the formatted
    nested call, or the [str] of the value. *)
Fixpoint func_args (arg_value : arg_value) : string :=
  match arg_value with
  | NestedCall call_function call_args =>
      let human_call_data :=
        map (fun arg : string * Proposals.arg_value =>
               let '(name, arg_value) := arg in
               name +:+ ": " +:+ func_args arg_value)
          call_args in
      call_function +:+ "(" +:+ String.concat ", " human_call_data +:+ ")"
  | Plain str => str
  end.

(** [format_call_data], on the function name and the arguments of the
    call. *)
Definition format_call_data (call_function : string)
    (call_args : list (string * arg_value)) : string :=
  let human_call_data :=
    map (fun arg : string * arg_value =>
           let '(name, arg_value) := arg in
           name +:+ ": " +:+ func_args arg_value)
      call_args in
  call_function +:+ "(" +:+ String.concat ", " human_call_data +:+ ")".

(** [display_votes] *)
Definition display_votes (vote_data : Senate.ProposalVoteData)
    (delegate_info : gmap string string) : string :=
  let label address := default address (delegate_info !! address) in
  let vote_list :=
    map (fun address => label address +:+ ": " +:+ "[bold green]Aye[/bold green]")
      (Senate.ayes vote_data)
    ++ map (fun address => label address +:+ ": " +:+ "[bold red]Nay[/bold red]")
         (Senate.nays vote_data) in
  String.concat "
" vote_list.

Record World : Type := {
  (** [SenateMembers.Members], [None] when it cannot be serialized *)
  members : option (list string);
  (** [Triumvirate.Proposals], [None] when it has no value to serialize *)
  proposal_hashes : option (list string);
  (** [Triumvirate.ProposalOf] of a hash: function name and arguments *)
  call_data_of : string → option (string * list (string * arg_value));
  (** [Triumvirate.Voting] of a hash *)
  vote_data_of : string → option Senate.ProposalVoteData;
  (** the names of the delegates registered in the remote directory *)
  registered_delegate_info : gmap string string;
}.

(** One row of the table: HASH, THRESHOLD, AYES, NAYS, VOTES, END,
    CALLDATA. *)
Record row : Type := {
  hash_ : string;
  threshold_cell : Z;
  ayes_cell : nat;
  nays_cell : nat;
  votes_cell : string;
  end_cell : Z;
  calldata_cell : string;
}.

Record table : Type := {
  active_proposals : nat;   (* in the title *)
  senate_size : nat;        (* in the title *)
  rows : list row;
}.

Section View.
Context (w : World).

Definition _get_senate_members : result (list string) :=
  match members w with
  | None => Raise TypeError
  | Some l => mret l
  end.

Definition _get_proposals
    : option (list (string * (option (string * list (string * arg_value))
                              * option Senate.ProposalVoteData))) :=
  match proposal_hashes w with
  | None => None
  | Some proposal_hashes =>
      Some (dict_of
              ((fun h => (h, (call_data_of w h, vote_data_of w h)))
               <$> proposal_hashes))
  end.

Definition add_row
    (p : string * (option (string * list (string * arg_value))
                   * option Senate.ProposalVoteData)) : result row :=
  let '(hash_, (call_data, vote_data)) := p in
  match vote_data with
  | None => Raise TypeError   (* None["threshold"] *)
  | Some vote_data =>
      match call_data with
      | None => Raise TypeError   (* None["call_args"] *)
      | Some (call_function, call_args) =>
          mret {| hash_ := hash_;
                  threshold_cell := Senate.threshold vote_data;
                  ayes_cell := length (Senate.ayes vote_data);
                  nays_cell := length (Senate.nays vote_data);
                  votes_cell :=
                    display_votes vote_data (registered_delegate_info w);
                  end_cell := Senate.end_ vote_data;
                  calldata_cell := format_call_data call_function call_args |}
      end
  end.

Fixpoint add_rows
    (ps : list (string * (option (string * list (string * arg_value))
                          * option Senate.ProposalVoteData)))
    : result (list row) :=
  match ps with
  | [] => mret []
  | p :: ps =>
      r ← add_row p;
      rs ← add_rows ps;
      mret (r :: rs)
  end.

(** [proposals]: the table it prints, or the exception it ends with. *)
Definition proposals : result table :=
  senate_members ← _get_senate_members;
  match _get_proposals with
  | None => Raise TypeError   (* len(None) *)
  | Some all_proposals =>
      rows ← add_rows all_proposals;
      mret {| active_proposals := length all_proposals;
              senate_size := length senate_members;
              rows := rows |}
  end.

End View.

End Proposals.

Module DelegateCommand.

Section Flow.
(** [from_tao_of_Balance] as in [Delegate]; [amount] is the decimal amount
    given on the command line. *)
Context (from_tao_of_Balance : Balance → Balance).
Context (delegate_ss58key : string) (amount : Q) (w : Delegate.World).

(** The arguments both commands call [delegate_extrinsic] with. *)
Definition extrinsic_args (delegate : bool) : Delegate.Args := {|
  Delegate.delegate_ss58 := delegate_ss58key;
  Delegate.amount := Some (from_tao amount);
  Delegate.wait_for_inclusion := true;
  Delegate.wait_for_finalization := false;
  Delegate.prompt := true;
  Delegate.delegate := delegate;
|}.

Definition delegate_stake : Flow unit :=
  Delegate.delegate_extrinsic from_tao_of_Balance (extrinsic_args true) w;;
  mret ().

Definition delegate_unstake : Flow unit :=
  Delegate.delegate_extrinsic from_tao_of_Balance (extrinsic_args false) w;;
  mret ().

End Flow.

End DelegateCommand.

(** ** Sample libraries and runs

    A small stand-in for the key library, and concrete runs of the flows. *)

Definition sample_library : KeyLibrary := {|
  SS58_FORMAT := 42;
  ss58_is_valid_ss58_address address fmt :=
    if (String.length address =? 0)%nat then Raise IndexError
    else Ok (String.length address =? 48)%nat;
  Keypair_ss58_address pk fmt :=
    match pk with
    | PyBytes _ => Ok (Some "5C4hrfjw9DjXZTzV3MwzrrAr9P1MJhSrvWGWqi1eSuyUpnhM")
    | PyStr s =>
        if (String.length s =? 66)%nat
        then Ok (Some "5C4hrfjw9DjXZTzV3MwzrrAr9P1MJhSrvWGWqi1eSuyUpnhM")
        else Raise ValueError
    | _ => Raise ValueError
    end;
|}.

Definition sample_destination : string :=
  "5C4hrfjw9DjXZTzV3MwzrrAr9P1MJhSrvWGWqi1eSuyUpnhM".

(** The transfer of the spec's example: amount 30, fee 1, existential
    deposit 1, keep_alive set. *)
Definition sample_transfer : Transfer.Args := {|
  Transfer.destination := sample_destination;
  Transfer.amount := from_rao 30;
  Transfer.wait_for_inclusion := true;
  Transfer.wait_for_finalization := false;
  Transfer.keep_alive := true;
  Transfer.prompt := true;
|}.

Definition sample_transfer_world (balance : Z) : Transfer.World := {|
  Transfer.chain_balance := from_rao balance;
  Transfer.chain_existential_deposit := from_rao 1;
  Transfer.payment_info := Ok 1;
  Transfer.confirmed := true;
  Transfer.response_is_success := true;
  Transfer.response_block_hash := "0xabc";
  Transfer.response_error_message := "";
  Transfer.has_explorer_urls := false;
|}.

Definition sample_hotkey : string :=
  "5F3sa2TJAWMqDhXG6jhV4N8ko9SxwGy8TpaNS1repo5EYjQX".

(** A senate vote by a member whose vote shows up among the ayes. *)
Definition sample_vote_world : Senate.World := {|
  Senate.members := Some [sample_destination; sample_hotkey];
  Senate.voting_before := Some {|
    Senate.index := 3; Senate.threshold := 2;
    Senate.ayes := [sample_destination]; Senate.nays := []; Senate.end_ := 100 |};
  Senate.desired_vote := true;
  Senate.cast_confirmed := true;
  Senate.send_success := true;
  Senate.send_err_msg := "";
  Senate.voting_after := Some {|
    Senate.index := 3; Senate.threshold := 2;
    Senate.ayes := [sample_destination; sample_hotkey]; Senate.nays := [];
    Senate.end_ := 100 |};
|}.

(** A burned registration for a hotkey that already has a neuron. *)
Definition sample_register : Register.Args := {|
  Register.hotkey_ss58 := sample_hotkey;
  Register.netuid := 1;
  Register.recycle_amount := from_rao 1000000000;
  Register.old_balance := from_rao 5000000000;
  Register.wait_for_inclusion := false;
  Register.wait_for_finalization := true;
  Register.prompt := true;
|}.

Definition sample_registered_world : Register.World := {|
  Register.neuron_is_null := false;
  Register.confirmed := true;
  Register.new_balance := from_rao 5000000000;
  Register.netuids_for_hotkey := [1];
|}.

(** Setting a take against a delegate whose take is 0.10. *)
Definition sample_take (requested : Q) : Take.Args := {|
  Take.delegate_ss58 := sample_hotkey;
  Take.take := requested;
  Take.wait_for_inclusion := true;
  Take.wait_for_finalization := false;
|}.

Definition sample_take_world : Take.World := {|
  Take.delegate_take := Some (1 # 10);
  Take.response_is_success := true;
  Take.response_error_message := "";
|}.

(** Adding stake to a delegate from a coldkey holding 10000 rao. *)
Definition sample_delegate (requested : option Balance) : Delegate.Args := {|
  Delegate.delegate_ss58 := sample_hotkey;
  Delegate.amount := requested;
  Delegate.wait_for_inclusion := true;
  Delegate.wait_for_finalization := false;
  Delegate.prompt := true;
  Delegate.delegate := true;
|}.

Definition sample_delegate_world : Delegate.World := {|
  Delegate.my_prev_coldkey_balance := from_rao 10000;
  Delegate.confirmed := true;
  Delegate.send_success := true;
  Delegate.send_err_msg := "";
  Delegate.new_balance := from_rao 5000;
|}.

(** The weights of the spec's example, for uid 7, and a uid without any. *)
Definition sample_weights : list Weights.matrix :=
  [(7, [(1, 3); (2, 1)]); (8, [])].

(** A transfer to a hex string that is too short to be a key. *)
Definition sample_transfer_short_hex : Transfer.Args := {|
  Transfer.destination := "0x1234";
  Transfer.amount := from_rao 30;
  Transfer.wait_for_inclusion := true;
  Transfer.wait_for_finalization := false;
  Transfer.keep_alive := true;
  Transfer.prompt := false;
|}.

(** The same vote when the submission fails, and when the senate members
    cannot be read. *)
Definition sample_vote_world_failed : Senate.World := {|
  Senate.members := Senate.members sample_vote_world;
  Senate.voting_before := Senate.voting_before sample_vote_world;
  Senate.desired_vote := true;
  Senate.cast_confirmed := true;
  Senate.send_success := false;
  Senate.send_err_msg := "Inability to pay some fees";
  Senate.voting_after := Senate.voting_before sample_vote_world;
|}.

Definition sample_vote_world_unreadable : Senate.World := {|
  Senate.members := None;
  Senate.voting_before := Senate.voting_before sample_vote_world;
  Senate.desired_vote := true;
  Senate.cast_confirmed := true;
  Senate.send_success := true;
  Senate.send_err_msg := "";
  Senate.voting_after := Senate.voting_after sample_vote_world;
|}.

(** The same registration for a hotkey that has no neuron yet. *)
Definition sample_unregistered_world : Register.World := {|
  Register.neuron_is_null := true;
  Register.confirmed := true;
  Register.new_balance := from_rao 4000000000;
  Register.netuids_for_hotkey := [1];
|}.

(** Removing 20000 rao of stake with a coldkey that holds 10000 rao. *)
Definition sample_undelegate : Delegate.Args := {|
  Delegate.delegate_ss58 := sample_hotkey;
  Delegate.amount := Some (from_rao 20000);
  Delegate.wait_for_inclusion := true;
  Delegate.wait_for_finalization := false;
  Delegate.prompt := true;
  Delegate.delegate := false;
|}.

(** Registering from the command line for a hotkey without a neuron, with
    5 tokens at hand and a burn of 1 token. *)
Definition sample_register_command_world : RegisterCommand.World := {|
  RegisterCommand.subnet_exists := true;
  RegisterCommand.recycle_call := Some 1000000000;
  RegisterCommand.balance_of_coldkey := Some (from_rao 5000000000);
  RegisterCommand.confirmed := true;
  RegisterCommand.extrinsic_world := sample_unregistered_world;
|}.

(** The same with only half a token at hand. *)
Definition sample_register_command_poor : RegisterCommand.World := {|
  RegisterCommand.subnet_exists := true;
  RegisterCommand.recycle_call := Some 1000000000;
  RegisterCommand.balance_of_coldkey := Some (from_rao 500000000);
  RegisterCommand.confirmed := true;
  RegisterCommand.extrinsic_world := sample_unregistered_world;
|}.

Definition sample_take_command_world : TakeCommand.World := {|
  TakeCommand.is_delegate := true;
  TakeCommand.is_delegate_afterwards := true;
|}.

Definition sample_nominate_world : Nominate.World := {|
  Nominate.already_delegate := false;
  Nominate.send_success := true;
  Nominate.send_err_msg := "";
  Nominate.do_set_identity := false;
|}.

(** Two proposals with their calls and votes. *)
Definition sample_proposals_world : Proposals.World := {|
  Proposals.members := Some [sample_destination; sample_hotkey];
  Proposals.proposal_hashes := Some ["0xaa"; "0xbb"];
  Proposals.call_data_of h :=
    Some ("sudo",
          [("call", Proposals.NestedCall "set_take"
                      [("take", Proposals.Plain "11796")])]);
  Proposals.vote_data_of h := Some {|
    Senate.index := 3; Senate.threshold := 2;
    Senate.ayes := [sample_hotkey]; Senate.nays := []; Senate.end_ := 100 |};
  Proposals.registered_delegate_info := {[sample_hotkey := "Validator One"]};
|}.

(** A hotkeys directory with a usable key, an encrypted one and a stray
    file. *)
Definition sample_hotkeys : list (string * Wallets.probe) :=
  [("default", Wallets.Usable); ("locked", Wallets.Unusable);
   (".DS_Store", Wallets.UnicodeDecodeError)].

(** The same vote when the proposal's vote data is gone by the time the
    tallies are read again, and a member's vote on a proposal that is not
    on chain. *)
Definition sample_vote_world_data_gone : Senate.World := {|
  Senate.members := Senate.members sample_vote_world;
  Senate.voting_before := Senate.voting_before sample_vote_world;
  Senate.desired_vote := true;
  Senate.cast_confirmed := true;
  Senate.send_success := true;
  Senate.send_err_msg := "";
  Senate.voting_after := None;
|}.

Definition sample_vote_world_no_proposal : Senate.World := {|
  Senate.members := Senate.members sample_vote_world;
  Senate.voting_before := None;
  Senate.desired_vote := true;
  Senate.cast_confirmed := true;
  Senate.send_success := true;
  Senate.send_err_msg := "";
  Senate.voting_after := None;
|}.

(** Adding stake from a coldkey that holds 10¹³ rao. *)
Definition sample_delegate_world_rich : Delegate.World := {|
  Delegate.my_prev_coldkey_balance := from_rao 10000000000000;
  Delegate.confirmed := true;
  Delegate.send_success := true;
  Delegate.send_err_msg := "";
  Delegate.new_balance := from_rao 9999999995000;
|}.

(** The binary64 value nearest to 11796/65535: the take of a delegate
    whose take is stored on chain as 11796. *)
Definition sample_stored_take : Q := 6485018534152727 # 36028797018963968.

(** A nomination after which the user asks to set an identity, with a
    stand-in for the identity prompts and the identity flow. *)
Definition sample_nominate_world_identity : Nominate.World := {|
  Nominate.already_delegate := false;
  Nominate.send_success := true;
  Nominate.send_err_msg := "";
  Nominate.do_set_identity := true;
|}.

Definition sample_set_id_prompts : Flow string :=
  emit (ConfirmAsk "Display name" []);;
  mret "Validator One".

Definition sample_set_id (display : string) : Flow bool :=
  let call := compose_call "Registry" "set_identity"
                [("display", PString display)] in
  emit (ChainRead "Registry.IdentityOf");;
  emit (Composed call);;
  emit (SignedAndSent call);;
  mret true.

(** * Properties *)

(** ** The destination validator *)

Section ValidatorFacts.
Context `{KeyLibrary}.

Lemma ed25519_str_wrong_length (s : string) :
  String.length s ≠ 64%nat → String.length s ≠ 66%nat →
  is_valid_ed25519_pubkey (PyStr s) = Ok false.
Proof.
  intros H64 H66. unfold is_valid_ed25519_pubkey.
  apply Nat.eqb_neq in H64, H66. rewrite H64, H66. reflexivity.
Qed.

Lemma ed25519_bytes_wrong_length (b : list Byte.byte) :
  length b ≠ 32%nat → is_valid_ed25519_pubkey (PyBytes b) = Ok false.
Proof.
  intros H32. unfold is_valid_ed25519_pubkey.
  apply Nat.eqb_neq in H32. rewrite H32. reflexivity.
Qed.

Lemma ss58_rejected (s : string) :
  ss58_rejects s SS58_FORMAT → ss58_rejects s 42 →
  is_valid_ss58_address s = Ok false.
Proof.
  unfold is_valid_ss58_address, ss58_rejects.
  intros [-> | ->] [-> | ->]; reflexivity.
Qed.

Lemma ed25519_returns (pk : pyobj) :
  (∀ pk fmt e, Keypair_ss58_address pk fmt = Raise e →
               e = ValueError ∨ e = IndexError) →
  ∃ b : bool, is_valid_ed25519_pubkey pk = Ok b.
Proof.
  intros Hkey. unfold is_valid_ed25519_pubkey.
  assert (Hcall : ∃ b : bool,
    try_except (ss58_addr ← Keypair_ss58_address pk SS58_FORMAT;
                mret (bool_decide (ss58_addr ≠ None)))
      [ValueError; IndexError] (mret false) = Ok b).
  { destruct (Keypair_ss58_address pk SS58_FORMAT) as [addr | e] eqn:Hk.
    - eexists. reflexivity.
    - destruct (Hkey _ _ _ Hk) as [-> | ->]; eexists; reflexivity. }
  destruct pk as [s | b | | z]; try (eexists; reflexivity).
  - destruct (negb (String.length s =? 64)%nat && negb (String.length s =? 66)%nat);
      [eexists; reflexivity | exact Hcall].
  - destruct (negb (length b =? 32)%nat);
      [eexists; reflexivity | exact Hcall].
Qed.

Lemma ss58_returns (s : string) :
  (∀ address fmt e, ss58_is_valid_ss58_address address fmt = Raise e →
                    e = IndexError) →
  ∃ b : bool, is_valid_ss58_address s = Ok b.
Proof.
  intros Hlib. unfold is_valid_ss58_address.
  destruct (ss58_is_valid_ss58_address s SS58_FORMAT) as [[|] | e] eqn:H1.
  - eexists. reflexivity.
  - destruct (ss58_is_valid_ss58_address s 42) as [b | e] eqn:H2.
    + eexists. cbn. reflexivity.
    + rewrite (Hlib _ _ _ H2). eexists. reflexivity.
  - rewrite (Hlib _ _ _ H1). eexists. reflexivity.
Qed.

(** An exception of the ss58 check other than [IndexError] is not caught. *)
Lemma ss58_other_error_propagates (s : string) (e : pyexn) :
  e ≠ IndexError →
  ss58_is_valid_ss58_address s SS58_FORMAT = Raise e →
  is_valid_ss58_address s = Raise e.
Proof.
  intros Hne Hraise. unfold is_valid_ss58_address. rewrite Hraise. cbn.
  rewrite bool_decide_eq_false_2; [reflexivity |].
  intros Hin. apply list_elem_of_singleton in Hin. contradiction.
Qed.

(** C9. Provided the two library calls fail only with the exceptions the
    validator catches ([IndexError] for the ss58 check, [ValueError] or
    [IndexError] for the key pair), the destination validator returns a
    boolean on every input and never raises; it returns false for a
    "0x" string whose length is neither 64 nor 66, for bytes whose length
    is not 32, for a string the ss58 check rejects for both formats, and
    for an input that is neither a string nor bytes. *)
Theorem validator_returns_bool_and_rejects_malformed (address : pyobj) :
  (∀ address fmt e, ss58_is_valid_ss58_address address fmt = Raise e →
                    e = IndexError) →
  (∀ pk fmt e, Keypair_ss58_address pk fmt = Raise e →
               e = ValueError ∨ e = IndexError) →
  (∃ b : bool, is_valid_bittensor_address_or_public_key address = Ok b)
  ∧ (∀ s, address = PyStr s → String.prefix "0x" s = true →
          String.length s ≠ 64%nat → String.length s ≠ 66%nat →
          is_valid_bittensor_address_or_public_key address = Ok false)
  ∧ (∀ b, address = PyBytes b → length b ≠ 32%nat →
          is_valid_bittensor_address_or_public_key address = Ok false)
  ∧ (∀ s, address = PyStr s → String.prefix "0x" s = false →
          ss58_rejects s SS58_FORMAT → ss58_rejects s 42 →
          is_valid_bittensor_address_or_public_key address = Ok false)
  ∧ ((∀ s, address ≠ PyStr s) → (∀ b, address ≠ PyBytes b) →
          is_valid_bittensor_address_or_public_key address = Ok false).
Proof.
  intros Hlib Hkey. repeat split.
  - destruct address as [s | b | | z]; cbn.
    + destruct (String.prefix "0x" s);
        [apply ed25519_returns | apply ss58_returns]; assumption.
    + apply ed25519_returns; assumption.
    + eexists; reflexivity.
    + eexists; reflexivity.
  - intros s -> Hpre H64 H66. cbn. rewrite Hpre.
    apply ed25519_str_wrong_length; assumption.
  - intros b -> H32. cbn. apply ed25519_bytes_wrong_length; assumption.
  - intros s -> Hpre R1 R2. cbn. rewrite Hpre.
    apply ss58_rejected; assumption.
  - intros Hs Hb. destruct address as [s | b | | z]; try reflexivity.
    + destruct (Hs s); reflexivity.
    + destruct (Hb b); reflexivity.
Qed.

End ValidatorFacts.

Lemma validator_returns_bool_witness :
  (∃ b : bool,
     @is_valid_bittensor_address_or_public_key sample_library (PyStr "0x1234")
     = Ok b)
  ∧ @is_valid_bittensor_address_or_public_key sample_library (PyStr "0x1234")
    = Ok false.
Proof.
  assert (Hlib : ∀ address fmt e,
    @ss58_is_valid_ss58_address sample_library address fmt = Raise e →
    e = IndexError).
  { intros address fmt e. cbn.
    destruct (String.length address =? 0)%nat; intros [=]; congruence. }
  assert (Hkey : ∀ pk fmt e,
    @Keypair_ss58_address sample_library pk fmt = Raise e →
    e = ValueError ∨ e = IndexError).
  { intros pk fmt e. cbn. destruct pk as [s | b | | z];
      try destruct (String.length s =? 66)%nat; intros [=]; auto. }
  pose proof (@validator_returns_bool_and_rejects_malformed sample_library
                (PyStr "0x1234") Hlib Hkey) as (Hbool & Hhex & _).
  split; [exact Hbool |].
  apply (Hhex "0x1234"); [reflexivity | reflexivity | cbn; lia | cbn; lia].
Defined.

(** ** The transfer flow *)

Section TransferFacts.
Context `{KeyLibrary}.
Import Transfer.

Lemma get_transfer_fee_ok (a : Args) (w : World) (f : Z) :
  payment_info w = Ok f →
  get_transfer_fee a w
  = ([Composed (transfer_call a); PaymentInfo (transfer_call a) Coldkeypub],
     Ok (from_rao f)).
Proof. intros Hp. unfold get_transfer_fee. cbn. rewrite Hp. reflexivity. Qed.

Lemma get_transfer_fee_fallback (a : Args) (w : World) (e : pyexn) :
  payment_info w = Raise e →
  get_transfer_fee a w
  = ([Composed (transfer_call a); PaymentInfo (transfer_call a) Coldkeypub;
      PrintErr "Failed to get payment info. Defaulting to default transfer fee"
        [from_rao DEFAULT_FEE]],
     Ok (from_rao DEFAULT_FEE)).
Proof. intros Hp. unfold get_transfer_fee. cbn. rewrite Hp. reflexivity. Qed.

Lemma get_transfer_fee_returns (a : Args) (w : World) :
  ∃ fee, outcome (get_transfer_fee a w) = Ok fee
         ∧ submits (trace (get_transfer_fee a w)) = false.
Proof.
  destruct (payment_info w) as [f | e] eqn:Hp.
  - rewrite (get_transfer_fee_ok a w f Hp). eexists; split; reflexivity.
  - rewrite (get_transfer_fee_fallback a w e Hp). eexists; split; reflexivity.
Qed.

(** The balance the transfer needs, as line 126 adds it up. *)
Lemma transfer_run (a : Args) (w : World) (fee : Balance) (t : list event) :
  is_valid_bittensor_address_or_public_key (PyStr (destination a)) = Ok true →
  get_transfer_fee a w = (t, Ok fee) →
  submits t = false →
  let existential_deposit :=
    if keep_alive a then chain_existential_deposit w else from_rao 0 in
  let required := rao (amount a) + rao fee + rao existential_deposit in
  (rao (chain_balance w) < required →
     outcome (transfer_extrinsic a w) = Ok false
     ∧ submits (trace (transfer_extrinsic a w)) = false)
  ∧ (required ≤ rao (chain_balance w) →
     submits (trace (transfer_extrinsic a w))
     = negb (prompt a) || confirmed w).
Proof.
  intros Hvalid Hfee Ht. cbn zeta.
  unfold transfer_extrinsic. rewrite Hvalid. cbn -[get_transfer_fee].
  rewrite Hfee. cbn.
  unfold Balance_lt. cbn.
  split; intros Hcmp.
  - assert (Hlt : (rao (chain_balance w)
                   <? rao (amount a) + rao fee
                      + rao (if negb (keep_alive a) then from_rao 0
                             else chain_existential_deposit w)) = true).
    { apply Z.ltb_lt. destruct (keep_alive a); cbn in *; lia. }
    rewrite Hlt. cbn. split; [reflexivity |].
    unfold submits in *. rewrite existsb_app, Ht. reflexivity.
  - assert (Hge : (rao (chain_balance w)
                   <? rao (amount a) + rao fee
                      + rao (if negb (keep_alive a) then from_rao 0
                             else chain_existential_deposit w)) = false).
    { apply Z.ltb_ge. destruct (keep_alive a); cbn in *; lia. }
    rewrite Hge.
    unfold submits in *.
    destruct (prompt a), (confirmed w), (wait_for_finalization a),
      (wait_for_inclusion a), (response_is_success w), (has_explorer_urls w);
      cbn; rewrite ?existsb_app, ?Ht; cbn; reflexivity.
Qed.

(** C1. For a valid destination and a user who does not decline the
    confirmation, the transfer flow submits the extrinsic if and only if
    balance >= amount + fee + existential deposit, where the fee is the
    one the estimation step returns and the existential deposit counts as
    zero when keep_alive is false; when the balance is lower the flow
    returns False and submits nothing. *)
Theorem transfer_submits_iff_balance_covers (a : Args) (w : World) :
  is_valid_bittensor_address_or_public_key (PyStr (destination a)) = Ok true →
  (prompt a = true → confirmed w = true) →
  ∃ fee : Balance,
    outcome (get_transfer_fee a w) = Ok fee
    ∧ let existential_deposit :=
        if keep_alive a then chain_existential_deposit w else from_rao 0 in
      let required := rao (amount a) + rao fee + rao existential_deposit in
      (submits (trace (transfer_extrinsic a w)) = true
         ↔ required ≤ rao (chain_balance w))
      ∧ (rao (chain_balance w) < required →
           outcome (transfer_extrinsic a w) = Ok false
           ∧ submits (trace (transfer_extrinsic a w)) = false)
      ∧ (keep_alive a = false →
           (submits (trace (transfer_extrinsic a w)) = true
              ↔ rao (amount a) + rao fee ≤ rao (chain_balance w))).
Proof.
  intros Hvalid Hconfirm.
  destruct (get_transfer_fee_returns a w) as (fee & Hfee & Ht).
  exists fee. split; [exact Hfee |].
  destruct (get_transfer_fee a w) as [t r] eqn:Hrun. cbn in Hfee, Ht.
  subst r.
  pose proof (transfer_run a w fee t Hvalid Hrun Ht) as [Hlow Hhigh].
  cbn zeta in *.
  assert (Hiff : submits (trace (transfer_extrinsic a w)) = true
    ↔ rao (amount a) + rao fee
      + rao (if keep_alive a then chain_existential_deposit w else from_rao 0)
      ≤ rao (chain_balance w)).
  { split.
    - intros Hs.
      destruct (Z.le_gt_cases
        (rao (amount a) + rao fee
         + rao (if keep_alive a then chain_existential_deposit w
                else from_rao 0)) (rao (chain_balance w))) as [Hle | Hgt];
        [exact Hle |].
      destruct (Hlow Hgt) as [_ Hno]. congruence.
    - intros Hle. rewrite (Hhigh Hle).
      destruct (prompt a); [rewrite Hconfirm; reflexivity | reflexivity]. }
  split; [exact Hiff |]. split; [exact Hlow |].
  intros Hka. rewrite Hka in Hiff. cbn in Hiff. rewrite Hiff. lia.
Qed.

(** C5. The fee estimation never raises: it returns a fee in every run;
    when the payment-info query raises, whatever the exception, it
    returns the default of 20000000 rao (0.02 token) and prints a warning,
    and the transfer flow goes on exactly as if the query had answered
    20000000. *)
Theorem fee_estimation_falls_back_to_default
    (a : Args) (w : World) (e : pyexn) :
  (∃ fee, outcome (get_transfer_fee a w) = Ok fee)
  ∧ outcome (get_transfer_fee a (with_payment_info w (Raise e)))
    = Ok (from_rao 20000000)
  ∧ (tao (from_rao 20000000) == 2 # 100)%Q
  ∧ PrintErr "Failed to get payment info. Defaulting to default transfer fee"
      [from_rao 20000000]
    ∈ trace (get_transfer_fee a (with_payment_info w (Raise e)))
  ∧ outcome (transfer_extrinsic a (with_payment_info w (Raise e)))
    = outcome (transfer_extrinsic a (with_payment_info w (Ok 20000000)))
  ∧ submits (trace (transfer_extrinsic a (with_payment_info w (Raise e))))
    = submits (trace (transfer_extrinsic a (with_payment_info w (Ok 20000000)))).
Proof.
  split.
  { destruct (get_transfer_fee_returns a w) as (fee & Hfee & _). eauto. }
  rewrite (get_transfer_fee_fallback a (with_payment_info w (Raise e)) e)
    by reflexivity.
  split; [reflexivity |]. split; [reflexivity |].
  split; [cbn; set_solver |].
  unfold transfer_extrinsic.
  destruct (is_valid_bittensor_address_or_public_key (PyStr (destination a)))
    as [[|] | e']; cbn -[get_transfer_fee]; try (split; reflexivity).
  rewrite (get_transfer_fee_fallback a (with_payment_info w (Raise e)) e)
    by reflexivity.
  rewrite (get_transfer_fee_ok a (with_payment_info w (Ok 20000000)) 20000000)
    by reflexivity.
  cbn.
  destruct (chain_balance w <? _)%bal; [split; reflexivity |].
  destruct (prompt a), (confirmed w), (wait_for_finalization a),
    (wait_for_inclusion a), (response_is_success w), (has_explorer_urls w);
    split; reflexivity.
Qed.

End TransferFacts.

Lemma transfer_submits_iff_balance_covers_witness :
  ∃ fee : Balance,
    outcome (@Transfer.get_transfer_fee sample_transfer
               (sample_transfer_world 100)) = Ok fee
    ∧ (submits (trace (@Transfer.transfer_extrinsic sample_library
                         sample_transfer (sample_transfer_world 100))) = true
       ↔ 30 + rao fee + 1 ≤ 100).
Proof.
  destruct (@transfer_submits_iff_balance_covers sample_library
              sample_transfer (sample_transfer_world 100))
    as (fee & Hfee & Hiff & _).
  - reflexivity.
  - reflexivity.
  - exists fee. split; [exact Hfee | exact Hiff].
Defined.

(** The spec's transfer example: balance 100 covers the required 32 and the
    extrinsic is submitted; balance 31 does not, and nothing is. *)
Example transfer_balance_100_proceeds :
  submits (trace (@Transfer.transfer_extrinsic sample_library
                    sample_transfer (sample_transfer_world 100))) = true.
Proof. reflexivity. Qed.

Example transfer_balance_31_aborts :
  @Transfer.transfer_extrinsic sample_library
    sample_transfer (sample_transfer_world 31)
  = ([UnlockColdkey; ChainRead "chain_head"; ChainRead "balance";
      ChainRead "existential_deposit";
      Composed (Transfer.transfer_call sample_transfer);
      PaymentInfo (Transfer.transfer_call sample_transfer) Coldkeypub;
      PrintErr "Not enough balance" [from_rao 31; from_rao 30; from_rao 1]],
     Ok false).
Proof. reflexivity. Qed.

(** ** The senate vote *)

Section SenateFacts.
Import Senate.

Lemma count_pos (x : string) (l : list string) :
  (0 < count x l)%nat ↔ x ∈ l.
Proof.
  unfold count. induction l as [| y l IH].
  - cbn. split; [lia | intros Hin; inversion Hin].
  - rewrite filter_cons. destruct (decide (y = x)) as [-> | Hne].
    + cbn. split; [intros _; left | lia].
    + rewrite IH. split; [intros Hin; right; exact Hin |].
      intros Hin. inversion Hin; subst; [congruence | assumption].
Qed.

Lemma count_pos_bool (x : string) (l : list string) :
  bool_decide (0 < count x l)%nat = bool_decide (x ∈ l).
Proof. apply bool_decide_ext, count_pos. Qed.

(** What [vote_senate_extrinsic] does once the vote is not declined and
    the submission reports success. *)
Lemma vote_after_success (hotkey proposal : string) (w : World)
    (idx : Z) (vote wi wf prompt : bool) (vd : ProposalVoteData) :
  (prompt = true → cast_confirmed w = true) →
  send_success w = true →
  voting_after w = Some vd →
  vote_senate_extrinsic hotkey proposal w idx vote wi wf prompt
  = ((if prompt then [ConfirmAsk "Cast a vote?" []] else [])
     ++ [Composed (vote_call hotkey proposal idx vote);
         SignedAndSent (vote_call hotkey proposal idx vote);
         ChainRead "Triumvirate.Voting";
         if bool_decide (hotkey ∈ ayes vd ∨ hotkey ∈ nays vd)
         then Print "Vote cast." []
         else PrintErr "Unknown error. Couldn't find vote." []],
     Ok (bool_decide (hotkey ∈ ayes vd ∨ hotkey ∈ nays vd))).
Proof.
  intros Hconfirm Hsend Hafter. unfold vote_senate_extrinsic.
  assert (Hor : bool_decide (hotkey ∈ ayes vd ∨ hotkey ∈ nays vd)
                = bool_decide (0 < count hotkey (ayes vd))%nat
                  || bool_decide (0 < count hotkey (nays vd))%nat).
  { rewrite !count_pos_bool.
    destruct (decide (hotkey ∈ ayes vd)), (decide (hotkey ∈ nays vd));
      repeat first [rewrite bool_decide_eq_true_2 by tauto
                   | rewrite bool_decide_eq_false_2 by tauto]; reflexivity. }
  rewrite Hor.
  destruct prompt; [rewrite (Hconfirm eq_refl) |];
    cbn; rewrite Hsend, Hafter; cbn;
    destruct (bool_decide (0 < count hotkey (ayes vd))%nat
              || bool_decide (0 < count hotkey (nays vd))%nat);
    reflexivity.
Qed.

(** A submission appears in the trace of [senate_vote] only on the path
    through [vote_senate_extrinsic] with the vote confirmed. *)
Lemma senate_vote_submitted (hotkey proposal : string) (w : World) :
  submits (trace (senate_vote hotkey proposal w)) = true →
  ∃ vd0, voting_before w = Some vd0
         ∧ cast_confirmed w = true
         ∧ senate_vote hotkey proposal w
           = let '(t, r) := vote_senate_extrinsic hotkey proposal w
                              (index vd0) (desired_vote w) true false true in
             ([ChainRead "SenateMembers.Members"; UnlockHotkey; UnlockColdkey;
               ChainRead "Triumvirate.Voting";
               ConfirmAsk "Desired vote for proposal" []] ++ t, r).
Proof.
  unfold senate_vote, _is_senate_member, _get_senate_members.
  destruct (bool_decide (proposal = "")); [cbn; discriminate |].
  destruct (members w) as [l |]; [| cbn; discriminate].
  cbn -[vote_senate_extrinsic].
  destruct (bool_decide (0 < count hotkey l)%nat);
    cbn -[vote_senate_extrinsic]; [| discriminate].
  destruct (voting_before w) as [vd0 |]; [| cbn; discriminate].
  cbn -[vote_senate_extrinsic]. intros Hs. exists vd0.
  split; [reflexivity |].
  destruct (cast_confirmed w) eqn:Hc.
  - split; [reflexivity |].
    destruct (vote_senate_extrinsic _ _ _ _ _ _ _ _) as [t r]. reflexivity.
  - exfalso. revert Hs. unfold vote_senate_extrinsic. rewrite Hc. cbn.
    discriminate.
Qed.

(** The vote is submitted exactly when the hash is given, the hotkey is a
    senate member, the proposal is found and the vote is confirmed. *)
Lemma senate_vote_submits_iff (hotkey proposal : string) (w : World) :
  submits (trace (senate_vote hotkey proposal w)) = true ↔
  proposal ≠ ""
  ∧ (∃ l, members w = Some l ∧ hotkey ∈ l)
  ∧ is_Some (voting_before w)
  ∧ cast_confirmed w = true.
Proof.
  unfold senate_vote, _is_senate_member, _get_senate_members.
  destruct (decide (proposal = "")) as [-> | Hne].
  { cbn. split; [discriminate | intros (Hne & _); congruence]. }
  rewrite bool_decide_eq_false_2 by exact Hne.
  destruct (members w) as [l |]; cbn -[vote_senate_extrinsic].
  2: { split; [discriminate | intros (_ & (l & [=] & _) & _)]. }
  rewrite count_pos_bool.
  destruct (decide (hotkey ∈ l)) as [Hin | Hnot].
  - rewrite bool_decide_eq_true_2 by exact Hin.
    cbn -[vote_senate_extrinsic].
    destruct (voting_before w) as [vd0 |]; cbn -[vote_senate_extrinsic].
    + unfold vote_senate_extrinsic.
      destruct (cast_confirmed w); cbn.
      * destruct (send_success w); cbn;
          [destruct (voting_after w) as [vd |]; cbn;
             [destruct (bool_decide (0 < count hotkey (ayes vd))%nat
                        || bool_decide (0 < count hotkey (nays vd))%nat) |]
          |];
          cbn; (split; [intros _ | reflexivity]); eauto 8.
      * split; [discriminate | intros (_ & _ & _ & [=])].
    + split; [discriminate |].
      intros (_ & _ & Hsome & _). destruct Hsome as [vd [=]].
  - rewrite bool_decide_eq_false_2 by exact Hnot. cbn.
    split; [discriminate |].
    intros (_ & (l' & [= <-] & Hin) & _). contradiction.
Qed.

(** C6. A senate vote by a hotkey that is not among the senate members
    returns False with no question, no passphrase and no submission; the
    vote of a member is submitted exactly when the proposal is found and
    the vote confirmed. After a submission that reported success the
    tallies are read again. With the vote data of the proposal still on
    chain, the flow returns True if and only if the hotkey is among the
    ayes or the nays, and when it is absent it prints the unknown-error
    message and returns False. With the vote data gone, the flow raises
    TypeError at the lookup of the ayes: it returns neither True nor
    False, and the unknown-error message is not printed. *)
Theorem senate_vote_checks_member_and_tallies
    (hotkey proposal : string) (w : World) :
  (∀ l, members w = Some l → hotkey ∉ l →
     outcome (senate_vote hotkey proposal w) = Ok false
     ∧ prompts (trace (senate_vote hotkey proposal w)) = false
     ∧ unlocks (trace (senate_vote hotkey proposal w)) = false
     ∧ submits (trace (senate_vote hotkey proposal w)) = false)
  ∧ (submits (trace (senate_vote hotkey proposal w)) = true ↔
       proposal ≠ ""
       ∧ (∃ l, members w = Some l ∧ hotkey ∈ l)
       ∧ is_Some (voting_before w)
       ∧ cast_confirmed w = true)
  ∧ (∀ vd, submits (trace (senate_vote hotkey proposal w)) = true →
       send_success w = true →
       voting_after w = Some vd →
       (∃ t1 c t2, trace (senate_vote hotkey proposal w)
                   = t1 ++ SignedAndSent c :: t2
                   ∧ ChainRead "Triumvirate.Voting" ∈ t2)
       ∧ (outcome (senate_vote hotkey proposal w) = Ok true
            ↔ hotkey ∈ ayes vd ∨ hotkey ∈ nays vd)
       ∧ (¬ (hotkey ∈ ayes vd ∨ hotkey ∈ nays vd) →
            outcome (senate_vote hotkey proposal w) = Ok false
            ∧ PrintErr "Unknown error. Couldn't find vote." []
              ∈ trace (senate_vote hotkey proposal w)))
  ∧ (submits (trace (senate_vote hotkey proposal w)) = true →
     send_success w = true →
     voting_after w = None →
       outcome (senate_vote hotkey proposal w) = Raise TypeError
       ∧ (∃ t1 c, trace (senate_vote hotkey proposal w)
                  = t1 ++ [SignedAndSent c; ChainRead "Triumvirate.Voting"])
       ∧ PrintErr "Unknown error. Couldn't find vote." []
         ∉ trace (senate_vote hotkey proposal w)).
Proof.
  split; [| split; [| split]].
  - intros l Hl Hnot.
    unfold senate_vote, _is_senate_member, _get_senate_members.
    destruct (bool_decide (proposal = "")); [cbn; auto |].
    rewrite Hl. cbn.
    rewrite count_pos_bool, bool_decide_eq_false_2 by exact Hnot.
    cbn. auto.
  - apply senate_vote_submits_iff.
  - intros vd Hsub Hsend Hafter.
    destruct (senate_vote_submitted hotkey proposal w Hsub)
      as (vd0 & Hbefore & Hconf & Hrun).
    rewrite (vote_after_success hotkey proposal w (index vd0)
               (desired_vote w) true false true vd
               (fun _ => Hconf) Hsend Hafter) in Hrun.
    rewrite Hrun. cbn. split; [| split].
    + eexists [_; _; _; _; _; _; _], _, _. split; [reflexivity |].
      apply list_elem_of_In. left. reflexivity.
    + split.
      * intros [= Hb]. apply bool_decide_eq_true_1 in Hb. exact Hb.
      * intros Hin. rewrite bool_decide_eq_true_2 by exact Hin. reflexivity.
    + intros Hnot. rewrite bool_decide_eq_false_2 by exact Hnot.
      split; [reflexivity |].
      apply list_elem_of_In. cbn. auto 12.
  - intros Hsub Hsend Hafter.
    destruct (senate_vote_submitted hotkey proposal w Hsub)
      as (vd0 & Hbefore & Hconf & Hrun).
    rewrite Hrun. unfold vote_senate_extrinsic.
    rewrite Hconf, Hsend, Hafter. cbn.
    split; [reflexivity |]. split.
    + eexists [_; _; _; _; _; _; _], _. reflexivity.
    + intros Hin. apply list_elem_of_In in Hin. cbn in Hin.
      repeat (destruct Hin as [Hin | Hin]; [discriminate Hin |]).
      exact Hin.
Qed.

End SenateFacts.

Lemma senate_vote_checks_member_and_tallies_witness :
  outcome (Senate.senate_vote sample_hotkey "0x1f" sample_vote_world) = Ok true
  ∧ outcome (Senate.senate_vote "5Outsider" "0x1f" sample_vote_world) = Ok false
  ∧ outcome (Senate.senate_vote sample_hotkey "0x1f"
               sample_vote_world_data_gone) = Raise TypeError.
Proof.
  split; [| split].
  - destruct (senate_vote_checks_member_and_tallies
                sample_hotkey "0x1f" sample_vote_world)
      as (_ & _ & Hafter & _).
    destruct (Hafter _ eq_refl eq_refl eq_refl) as (_ & Hiff & _).
    apply Hiff. left. apply list_elem_of_In. cbn. auto.
  - destruct (senate_vote_checks_member_and_tallies
                "5Outsider" "0x1f" sample_vote_world) as (Hout & _).
    destruct (Hout _ eq_refl) as (Hret & _); [| exact Hret].
    cbn. intros Hin. apply list_elem_of_In in Hin. cbn in Hin.
    unfold sample_destination, sample_hotkey in Hin.
    destruct Hin as [[=] | [[=] | []]].
  - destruct (senate_vote_checks_member_and_tallies
                sample_hotkey "0x1f" sample_vote_world_data_gone)
      as (_ & _ & _ & Hgone).
    destruct (Hgone eq_refl eq_refl eq_refl) as (Hraise & _).
    exact Hraise.
Defined.

(** The run in which a member votes, the send reports success, and the
    vote data is gone when the tallies are read again. *)
Example senate_vote_data_gone_run :
  Senate.senate_vote sample_hotkey "0x1f" sample_vote_world_data_gone
  = ([ChainRead "SenateMembers.Members"; UnlockHotkey; UnlockColdkey;
      ChainRead "Triumvirate.Voting";
      ConfirmAsk "Desired vote for proposal" [];
      ConfirmAsk "Cast a vote?" [];
      Composed (Senate.vote_call sample_hotkey "0x1f" 3 true);
      SignedAndSent (Senate.vote_call sample_hotkey "0x1f" 3 true);
      ChainRead "Triumvirate.Voting"],
     Raise TypeError).
Proof. reflexivity. Qed.

(** When the vote data is gone at the second query, the lookup of the ayes
    fails. *)
Lemma vote_data_gone_raises (hotkey proposal : string) (w : Senate.World)
    (idx : Z) (vote wi wf : bool) :
  Senate.send_success w = true →
  Senate.voting_after w = None →
  outcome (Senate.vote_senate_extrinsic hotkey proposal w idx vote wi wf false)
  = Raise TypeError.
Proof.
  intros Hsend Hafter. unfold Senate.vote_senate_extrinsic.
  cbn. rewrite Hsend, Hafter. reflexivity.
Qed.

(** ** Burned registration *)

Section RegisterFacts.
Import Register.

Lemma already_registered_run (a : Args) (w : World) :
  neuron_is_null w = false →
  burned_register_extrinsic a w
  = ([UnlockColdkey; ChainRead "SubtensorModule.Uids";
      ChainRead "neuron_for_uid"; Print "Already Registered" []],
     Ok true).
Proof.
  intros Hreg. unfold burned_register_extrinsic. cbn. rewrite Hreg.
  reflexivity.
Qed.

(** C7. For an account whose neuron on the subnet is not null, the
    burned-register flow returns True and neither composes nor submits an
    extrinsic; running it again on the still-registered account does the
    same, so two runs in a row submit nothing. *)
Theorem burned_register_idempotent_when_registered
    (a : Args) (w w' : World) :
  neuron_is_null w = false →
  neuron_is_null w' = false →
  outcome (burned_register_extrinsic a w) = Ok true
  ∧ composes (trace (burned_register_extrinsic a w)) = false
  ∧ submits (trace (burned_register_extrinsic a w)) = false
  ∧ outcome (burned_register_extrinsic a w;; burned_register_extrinsic a w')
    = Ok true
  ∧ submits (trace (burned_register_extrinsic a w;;
                    burned_register_extrinsic a w')) = false.
Proof.
  intros Hw Hw'.
  rewrite (already_registered_run a w Hw), (already_registered_run a w' Hw').
  repeat split.
Qed.

End RegisterFacts.

Lemma burned_register_idempotent_when_registered_witness :
  outcome (Register.burned_register_extrinsic sample_register
             sample_registered_world) = Ok true
  ∧ submits (trace (Register.burned_register_extrinsic sample_register
                      sample_registered_world)) = false.
Proof.
  destruct (burned_register_idempotent_when_registered sample_register
              sample_registered_world sample_registered_world
              eq_refl eq_refl) as (Hret & _ & Hsub & _).
  split; [exact Hret | exact Hsub].
Defined.

(** ** Binary64 rounding *)

From Stdlib Require Import Lqa.

Lemma pow2_pos (e : Z) : (0 < pow2 e)%Q.
Proof. apply Qpower_0_lt. reflexivity. Qed.

Lemma pow2_plus (a b : Z) : (pow2 (a + b) == pow2 a * pow2 b)%Q.
Proof. apply Qpower_plus. discriminate. Qed.

Lemma pow2_le (a b : Z) : a ≤ b → (pow2 a <= pow2 b)%Q.
Proof. intros H. apply Qpower_le_compat_l; [exact H | discriminate]. Qed.

Lemma pow2_Z (a : Z) : 0 ≤ a → (pow2 a == inject_Z (2 ^ a))%Q.
Proof.
  intros H. unfold pow2. rewrite Zpower_Qpower by exact H. reflexivity.
Qed.

Lemma pow2_succ (a : Z) : (pow2 (a + 1) == 2 * pow2 a)%Q.
Proof. rewrite pow2_plus. change (pow2 1) with 2%Q. ring. Qed.

(** [round] moves its argument by at most one half. *)
Lemma py_round_error (y : Q) :
  (inject_Z (py_round y) - y <= 1 # 2)%Q
  ∧ (y - inject_Z (py_round y) <= 1 # 2)%Q.
Proof.
  unfold py_round.
  pose proof (Qfloor_le y) as Hlo. pose proof (Qlt_floor y) as Hhi.
  rewrite inject_Z_plus in Hhi. change (inject_Z 1) with 1%Q in Hhi.
  destruct (y - inject_Z (Qfloor y) ?= 1 # 2)%Q eqn:Hc.
  - apply Qeq_alt in Hc.
    destruct (Z.even (Qfloor y));
      [| rewrite inject_Z_plus; change (inject_Z 1) with 1%Q]; split; lra.
  - apply Qlt_alt in Hc. split; lra.
  - apply Qgt_alt in Hc. rewrite inject_Z_plus. change (inject_Z 1) with 1%Q.
    split; lra.
Qed.

Lemma py_round_nonneg (y : Q) : (0 <= y)%Q → 0 ≤ py_round y.
Proof.
  intros Hy. unfold py_round.
  assert (Hf : 0 <= Qfloor y).
  { change 0 with (Qfloor 0). apply Qfloor_resp_le. exact Hy. }
  destruct (y - inject_Z (Qfloor y) ?= 1 # 2)%Q; [destruct (Z.even _) | |]; lia.
Qed.

(** [Qlog2 x] is the exponent of the power of two at or just below [x]. *)
Lemma Qlog2_spec (x : Q) :
  (0 < x)%Q → (pow2 (Qlog2 x) <= x)%Q ∧ (x < pow2 (Qlog2 x + 1))%Q.
Proof.
  intros Hx. unfold Qlog2.
  destruct x as [n d]. cbn [Qnum Qden].
  assert (Hn : 0 < n) by (unfold Qlt in Hx; cbn in Hx; lia).
  set (a := Z.log2 n). set (b := Z.log2 (Z.pos d)).
  assert (Ha : 0 <= a) by apply Z.log2_nonneg.
  assert (Hb : 0 <= b) by apply Z.log2_nonneg.
  destruct (Z.log2_spec n Hn) as [Ha1 Ha2]. fold a in Ha1, Ha2.
  destruct (Z.log2_spec (Z.pos d) eq_refl) as [Hb1 Hb2]. fold b in Hb1, Hb2.
  assert (HA : (pow2 (a - b) * pow2 b == pow2 a)%Q).
  { rewrite <- pow2_plus. replace (a - b + b) with a by lia. reflexivity. }
  pose proof (pow2_pos (a - b)) as Hl0. pose proof (pow2_pos b) as Hb0.
  pose proof (pow2_succ (a - b)) as Hs.
  assert (Hs' : (2 * pow2 (a - b - 1) == pow2 (a - b))%Q).
  { rewrite <- pow2_succ. replace (a - b - 1 + 1) with (a - b) by lia.
    reflexivity. }
  rewrite (pow2_Z a Ha) in HA. rewrite (pow2_Z b Hb) in HA, Hb0.
  assert (Hx' : (n # d == inject_Z n / inject_Z (Z.pos d))%Q)
    by apply Qmake_Qdiv.
  assert (HN1 : (inject_Z (2 ^ a) <= inject_Z n)%Q)
    by (rewrite <- Zle_Qle; exact Ha1).
  assert (HN2 : (inject_Z n < 2 * inject_Z (2 ^ a))%Q).
  { change 2%Q with (inject_Z 2). rewrite <- inject_Z_mult, <- Zlt_Qlt.
    rewrite Z.pow_succ_r in Ha2 by exact Ha. exact Ha2. }
  assert (HD1 : (inject_Z (2 ^ b) <= inject_Z (Z.pos d))%Q)
    by (rewrite <- Zle_Qle; exact Hb1).
  assert (HD2 : (inject_Z (Z.pos d) < 2 * inject_Z (2 ^ b))%Q).
  { change 2%Q with (inject_Z 2). rewrite <- inject_Z_mult, <- Zlt_Qlt.
    rewrite Z.pow_succ_r in Hb2 by exact Hb. exact Hb2. }
  assert (HD0 : (0 < inject_Z (Z.pos d))%Q) by reflexivity.
  set (N := inject_Z n) in *. set (D := inject_Z (Z.pos d)) in *.
  set (A := inject_Z (2 ^ a)) in *. set (B := inject_Z (2 ^ b)) in *.
  set (P := pow2 (a - b)) in *. set (P' := pow2 (a - b - 1)) in *.
  destruct (Qle_bool P (n # d)) eqn:Hle.
  - apply Qle_bool_iff in Hle. split; [exact Hle |].
    fold P. rewrite Hs, Hx'. apply Qlt_shift_div_r; [exact HD0 |].
    assert (H1 : (P * B <= P * D)%Q).
    { apply Qmult_le_l; [exact Hl0 | exact HD1]. }
    lra.
  - assert (Hnle : ~ (P <= n # d)%Q).
    { intros H. apply Qle_bool_iff in H. congruence. }
    apply Qnot_le_lt in Hnle. split.
    + fold P'. rewrite Hx'. apply Qle_shift_div_l; [exact HD0 |].
      assert (H1 : (P' * D <= P' * (2 * B))%Q).
      { apply Qmult_le_l; [| lra].
        unfold P'. apply pow2_pos. }
      assert (H2 : (P' * (2 * B) == A)%Q)
        by (rewrite <- HA, <- Hs'; ring).
      lra.
    + replace (a - b - 1 + 1) with (a - b) by lia. exact Hnle.
Qed.

Lemma pow2_pred (a : Z) : (2 * pow2 (a - 1) == pow2 a)%Q.
Proof.
  rewrite <- pow2_succ. replace (a - 1 + 1) with a by lia. reflexivity.
Qed.

Lemma b64_unfold (x : Q) :
  ¬ (x == 0)%Q →
  b64 x = (inject_Z (py_round (x / pow2 (b64_exponent x)))
           * pow2 (b64_exponent x))%Q.
Proof.
  intros Hx. unfold b64.
  destruct (Qeq_bool x 0) eqn:H0; [| reflexivity].
  apply Qeq_bool_iff in H0. contradiction.
Qed.

(** The unit in the last place at [x], against the size of [x]. *)
Lemma b64_ulp (x : Q) :
  ¬ (x == 0)%Q →
  (pow2 (b64_exponent x) <= 2 * (Qabs x * pow2 (-53) + pow2 (-1075)))%Q.
Proof.
  intros Hx. unfold b64_exponent, b64_emin.
  assert (Hpos : (0 < Qabs x)%Q).
  { destruct (Qle_lt_or_eq _ _ (Qabs_nonneg x)) as [H | H]; [exact H |].
    exfalso. apply Hx. revert H. apply Qabs_case; intros Hs Hq; lra. }
  destruct (Qlog2_spec (Qabs x) Hpos) as [Hlo _].
  pose proof (pow2_pos (-53)) as H53. pose proof (pow2_pos (-1075)) as H1075.
  destruct (Z.max_spec (Qlog2 (Qabs x) - 52) (-1074)) as [[_ ->] | [_ ->]].
  - rewrite <- (pow2_pred (-1074)). change (-1074 - 1) with (-1075).
    assert (0 <= Qabs x * pow2 (-53))%Q by (apply Qmult_le_0_compat; lra).
    lra.
  - replace (Qlog2 (Qabs x) - 52) with (Qlog2 (Qabs x) + (-53) + 1) by lia.
    rewrite pow2_succ, pow2_plus.
    assert (pow2 (Qlog2 (Qabs x)) * pow2 (-53) <= Qabs x * pow2 (-53))%Q.
    { apply Qmult_le_compat_r; lra. }
    lra.
Qed.

(** Rounding moves a value by at most half a unit in the last place: by
    the relative error 2⁻⁵³, or by 2⁻¹⁰⁷⁵ among the subnormal values. *)
Lemma b64_error (x : Q) :
  (Qabs (b64 x - x) <= Qabs x * pow2 (-53) + pow2 (-1075))%Q.
Proof.
  destruct (Qeq_dec x 0) as [H0 | Hx].
  - unfold b64. destruct (Qeq_bool x 0) eqn:Hb.
    + pose proof (pow2_pos (-53)). pose proof (pow2_pos (-1075)).
      assert (Qabs (0 - x) == 0)%Q as ->.
      { rewrite H0. reflexivity. }
      assert (Qabs x == 0)%Q as -> by (rewrite H0; reflexivity).
      lra.
    + apply Qeq_bool_neq in Hb. contradiction.
  - rewrite (b64_unfold x Hx).
    pose proof (b64_ulp x Hx) as Hulp.
    pose proof (pow2_pos (b64_exponent x)) as He.
    set (p := pow2 (b64_exponent x)) in *.
    destruct (py_round_error (x / p)) as [Hup Hdown].
    set (m := inject_Z (py_round (x / p))) in *.
    assert (Hy : (x == (x / p) * p)%Q) by (field; lra).
    set (y := (x / p)%Q) in *.
    assert (H1 : ((m - y) * p <= (1 # 2) * p)%Q)
      by (apply Qmult_le_compat_r; lra).
    assert (H2 : ((y - m) * p <= (1 # 2) * p)%Q)
      by (apply Qmult_le_compat_r; lra).
    assert (Hdiff : (m * p - x == (m - y) * p)%Q)
      by (rewrite Hy at 1; ring).
    apply Qabs_Qle_condition. split; lra.
Qed.

Lemma b64_nonneg (x : Q) : (0 <= x)%Q → (0 <= b64 x)%Q.
Proof.
  intros Hx. destruct (Qeq_dec x 0) as [H0 | Hne].
  - unfold b64. destruct (Qeq_bool x 0) eqn:Hb; [lra |].
    apply Qeq_bool_neq in Hb. contradiction.
  - rewrite (b64_unfold x Hne).
    pose proof (pow2_pos (b64_exponent x)) as He.
    apply Qmult_le_0_compat; [| lra].
    change 0%Q with (inject_Z 0). rewrite <- Zle_Qle.
    apply py_round_nonneg. apply Qle_shift_div_l; [exact He | lra].
Qed.

(** The value [b64] gives is on the binary64 grid: a significand of at
    most 53 bits times a power of two not below the smallest one. *)
Lemma b64_on_grid (x : Q) :
  ∃ m e, (b64 x == inject_Z m * pow2 e)%Q
         ∧ Z.abs m ≤ 2 ^ 53 ∧ b64_emin ≤ e.
Proof.
  destruct (Qeq_dec x 0) as [H0 | Hx].
  - exists 0, 0. unfold b64. destruct (Qeq_bool x 0) eqn:Hb.
    + split; [reflexivity | split; [discriminate | discriminate]].
    + apply Qeq_bool_neq in Hb. contradiction.
  - exists (py_round (x / pow2 (b64_exponent x))), (b64_exponent x).
    rewrite (b64_unfold x Hx). split; [reflexivity |].
    split; [| apply Z.le_max_r].
    assert (Hpos : (0 < Qabs x)%Q).
    { destruct (Qle_lt_or_eq _ _ (Qabs_nonneg x)) as [H | H]; [exact H |].
      exfalso. apply Hx. revert H. apply Qabs_case; intros Hs Hq; lra. }
    destruct (Qlog2_spec (Qabs x) Hpos) as [_ Hhi].
    pose proof (pow2_pos (b64_exponent x)) as He.
    assert (Hle : (pow2 (Qlog2 (Qabs x) + 1)
                   <= pow2 53 * pow2 (b64_exponent x))%Q).
    { rewrite <- pow2_plus. apply pow2_le. unfold b64_exponent. lia. }
    set (p := pow2 (b64_exponent x)) in *.
    destruct (py_round_error (x / p)) as [Hup Hdown].
    set (m := py_round (x / p)) in *.
    assert (Hy : (Qabs (x / p) < pow2 53)%Q).
    { unfold Qdiv. rewrite Qabs_Qmult.
      rewrite (Qabs_pos (/ p))
        by (apply Qlt_le_weak, Qinv_lt_0_compat; exact He).
      apply Qlt_shift_div_r; [exact He | lra]. }
    change (pow2 53) with (inject_Z (2 ^ 53)) in Hy.
    assert (Hm : (Qabs (inject_Z m) < inject_Z (2 ^ 53) + 1)%Q).
    { revert Hy. apply Qabs_case; apply Qabs_case; intros; lra. }
    change (inject_Z m) with (m # 1) in Hm. rewrite <- Zabs_Qabs in Hm.
    change (Z.abs m # 1) with (inject_Z (Z.abs m)) in Hm.
    change 1%Q with (inject_Z 1) in Hm.
    rewrite <- inject_Z_plus, <- Zlt_Qlt in Hm. lia.
Qed.

(** On the inputs that decide the conversion of a take, [b64] and
    [float_mul] give what the Standard Library's specification of binary64
    division and multiplication gives: for the quotient 11796/65535, for
    its product with 65535, and for 0.125 × 65535. *)
Example float_mul_agrees_with_SpecFloat :
  let float_of_Z z := SpecFloat.binary_normalize 53 1024 z 0 false in
  let stored :=
    SpecFloat.SFdiv 53 1024 (float_of_Z 11796) (float_of_Z 65535) in
  let eighth := SpecFloat.S754_finite false 1 (-3) in
  (SF2Q stored == b64 (11796 # 65535))%Q
  ∧ (SF2Q stored == sample_stored_take)%Q
  ∧ (SF2Q (SpecFloat.SFmul 53 1024 stored (float_of_Z 65535%Z))
     == float_mul sample_stored_take (inject_Z 65535))%Q
  ∧ (SF2Q (SpecFloat.SFmul 53 1024 eighth (float_of_Z 65535%Z))
     == float_mul (1 # 8) (inject_Z 65535))%Q.
Proof. vm_compute. repeat split. Qed.

(** ** Setting the take *)

Section TakeFacts.
Import Take.






(** On a non-negative rational, [int] is the floor. *)
Lemma py_int_floor (x : Q) : (0 <= x)%Q → py_int x = Qfloor x.
Proof.
  destruct x as [n d]. unfold Qle, py_int, Qfloor. cbn. intros Hn.
  apply Z.quot_div_nonneg; lia.
Qed.

(** C4, as the code has it. The conversion to u16 scale is
    [int(take * 65535)]: the product is formed in binary64 and then
    truncated, not rounded. For a take that is not negative, and whose
    product with 65535 is within the finite range of binary64, the result
    is the largest integer not above the float product, and the float
    product is a binary64 value that is the exact product up to one
    rounding error (a relative 2⁻⁵³, or 2⁻¹⁰⁷⁵ among the subnormal values).
    The requested take and the currently-observed take go through the same
    conversion. *)
Theorem take_u16_truncates (take : Q) :
  (0 <= take)%Q →
  (take * inject_Z 65535 <= b64_max)%Q →
  let product := float_mul take (inject_Z 65535) in
  (inject_Z (take_u16_of take) <= product)%Q
  ∧ (product < inject_Z (take_u16_of take + 1))%Q
  ∧ (Qabs (product - take * inject_Z 65535)
     <= take * inject_Z 65535 * pow2 (-53) + pow2 (-1075))%Q
  ∧ (∃ m e, (product == inject_Z m * pow2 e)%Q
            ∧ Z.abs m ≤ 2 ^ 53 ∧ b64_emin ≤ e)
  ∧ current_take_of take = take_u16_of take.
Proof.
  intros Hpos _. cbn zeta.
  assert (Hprod : (0 <= take * inject_Z 65535)%Q).
  { apply Qmult_le_0_compat; [exact Hpos | discriminate]. }
  assert (Hfloat : (0 <= float_mul take (inject_Z 65535))%Q)
    by (apply b64_nonneg; exact Hprod).
  assert (Hfloor : take_u16_of take
                   = Qfloor (float_mul take (inject_Z 65535)))
    by exact (py_int_floor _ Hfloat).
  split; [rewrite Hfloor; apply Qfloor_le |].
  split; [rewrite Hfloor; apply Qlt_floor |].
  split; [| split; [apply b64_on_grid | reflexivity]].
  pose proof (b64_error (take * inject_Z 65535)) as Herr.
  rewrite (Qabs_pos (take * inject_Z 65535)) in Herr by exact Hprod.
  exact Herr.
Qed.

End TakeFacts.


(** The spec's set-take example: the current take 0.10 is 6553 in u16 scale;
    a requested 0.15 is above it, 0.05 below it, 0.10 equal to it. *)
Example take_u16_of_example :
  Take.current_take_of (1 # 10) = 6553
  ∧ Take.take_u16_of (15 # 100) = 9830
  ∧ Take.take_u16_of (5 # 100) = 3276
  ∧ Take.take_u16_of (1 # 10) = 6553.
Proof. vm_compute. repeat split. Qed.

Example set_take_lower_request_decreases :
  trace (Take.set_take_extrinsic (sample_take (5 # 100)) sample_take_world)
  = [ChainRead "delegateInfo_getDelegate";
     Print "Current take is higher than the new one. Will use decrease_take" [];
     Composed (Take.take_call (sample_take (5 # 100)) "decrease_take");
     Signed (Take.take_call (sample_take (5 # 100)) "decrease_take") Coldkey;
     Submitted (Take.take_call (sample_take (5 # 100)) "decrease_take");
     Print "Finalized" []].
Proof. reflexivity. Qed.

(** C4 fails as stated: at a take of 0.125 the product with 65535 is
    8191.875, a binary64 value; the flow's conversion gives 8191 for the
    requested and for the current take, where rounding gives 8192. *)
Lemma take_u16_is_not_rounded :
  Take.take_u16_of (1 # 8) = 8191
  ∧ Take.current_take_of (1 # 8) = 8191
  ∧ py_round (float_mul (1 # 8) (inject_Z 65535)) = 8192
  ∧ Take.take_u16_of (1 # 8)
    ≠ py_round (float_mul (1 # 8) (inject_Z 65535)).
Proof. vm_compute. repeat split; discriminate. Qed.

Lemma take_u16_truncates_witness :
  (inject_Z (Take.take_u16_of sample_stored_take)
   <= float_mul sample_stored_take (inject_Z 65535))%Q
  ∧ (float_mul sample_stored_take (inject_Z 65535)
     < inject_Z (Take.take_u16_of sample_stored_take + 1))%Q
  ∧ Take.current_take_of sample_stored_take
    = Take.take_u16_of sample_stored_take.
Proof.
  destruct (take_u16_truncates sample_stored_take)
    as (Hle & Hlt & _ & _ & Hsame).
  - discriminate.
  - vm_compute. discriminate.
  - split; [exact Hle |]. split; [exact Hlt | exact Hsame].
Defined.

(** The take of a delegate stored on chain as 11796 reads back as 11796:
    the float product with 65535 is 11796 exactly, where the exact product
    of the stored float lies just below it. *)
Example take_u16_of_stored_take :
  Take.current_take_of sample_stored_take = 11796
  ∧ (float_mul sample_stored_take (inject_Z 65535) == inject_Z 11796)%Q
  ∧ Qfloor (sample_stored_take * inject_Z 65535) = 11795
  ∧ (b64 (11796 # 65535) == sample_stored_take)%Q.
Proof. vm_compute. repeat split. Qed.

(** ** Delegation *)

Lemma py_round_integer (x : Q) (z : Z) : (x == inject_Z z)%Q → py_round x = z.
Proof.
  intros Hx. unfold py_round.
  assert (Hfloor : Qfloor x = z) by (rewrite Hx; apply Qfloor_Z).
  rewrite Hfloor.
  assert (Hlt : (x - inject_Z z < 1 # 2)%Q).
  { rewrite Hx. unfold Qminus. rewrite Qplus_opp_r. reflexivity. }
  assert (Hcmp : (x - inject_Z z ?= 1 # 2)%Q = Lt)
    by (apply Qlt_alt; exact Hlt).
  rewrite Hcmp. reflexivity.
Qed.

(** Converting a balance to tokens and back gives the balance again. *)
Lemma from_tao_tao (b : Balance) : from_tao (tao b) = b.
Proof.
  destruct b as [r]. unfold from_tao, tao. cbn [rao]. f_equal.
  apply py_round_integer. apply Qdiv_mult_l. discriminate.
Qed.

Section DelegateFacts.
Import Delegate.
Context (from_tao_of_Balance : Balance → Balance).

Local Abbreviation staking_balance := (staking_balance from_tao_of_Balance).
Local Abbreviation delegate_extrinsic := (delegate_extrinsic from_tao_of_Balance).

Lemma withhold_spec (a : Args) (b : Balance) :
  delegate a = true →
  withhold a b = if 1000 <? rao b then from_rao (rao b - 1000) else b.
Proof. intros Hd. unfold withhold. rewrite Hd. reflexivity. Qed.

Lemma withhold_le (a : Args) (b : Balance) : rao (withhold a b) ≤ rao b.
Proof.
  unfold withhold, Balance_gt. destruct (delegate a); [| lia].
  cbn. destruct (1000 <? rao b); cbn; lia.
Qed.

(** The run up to the confirmation, when the staking balance is covered. *)
Lemma delegate_asks_with_staking_balance (a : Args) (w : World) :
  rao (staking_balance a w) ≤ rao (my_prev_coldkey_balance w) →
  prompt a = true →
  ∃ t, trace (delegate_extrinsic a w)
       = [UnlockColdkey; ChainRead "chain_head"; ChainRead "balance";
          ChainRead "hotkey_owner";
          ConfirmAsk "Do you want to delegate/undelegate"
            [staking_balance a w]] ++ t.
Proof.
  intros Hle Hp. unfold Delegate.delegate_extrinsic.
  cbn -[Delegate.staking_balance _do_delegation].
  assert (Hgt : (staking_balance a w >? my_prev_coldkey_balance w)%bal = false)
    by (apply Z.ltb_ge; exact Hle).
  rewrite Hgt, Hp. cbn -[Delegate.staking_balance _do_delegation].
  destruct (confirmed w); cbn -[Delegate.staking_balance _do_delegation];
    [| eexists; reflexivity].
  destruct (_do_delegation a w) as [t [[[|] err] | e]];
    cbn -[Delegate.staking_balance];
    [destruct (negb (wait_for_finalization a) && negb (wait_for_inclusion a)) | |];
    eexists; reflexivity.
Qed.

Lemma delegate_not_enough_balance (a : Args) (w : World) :
  rao (my_prev_coldkey_balance w) < rao (staking_balance a w) →
  delegate_extrinsic a w
  = ([UnlockColdkey; ChainRead "chain_head"; ChainRead "balance";
      ChainRead "hotkey_owner";
      PrintErr "Not enough balance"
        [my_prev_coldkey_balance w; staking_balance a w]],
     Ok false).
Proof.
  intros Hlt. unfold Delegate.delegate_extrinsic.
  cbn -[Delegate.staking_balance _do_delegation].
  assert (Hgt : (staking_balance a w >? my_prev_coldkey_balance w)%bal = true)
    by (apply Z.ltb_lt; exact Hlt).
  rewrite Hgt. reflexivity.
Qed.

(** C2. When adding stake, the flow does compute the requested amount
    (the amount argument as [Balance.from_tao] converts it) less 1000 rao,
    or the full requested amount when that is 1000 rao or less. It sends
    an extrinsic exactly when this staking balance is covered by the
    coldkey balance and the confirmation is not declined, having shown the
    staking balance when it asked. The one extrinsic it then sends is
    [add_stake] with [amount.rao], the amount argument as it was passed:
    nothing is withheld from what is staked. This holds whatever the
    conversion of the amount argument is. *)
Theorem delegate_stakes_the_amount_as_passed
    (a : Args) (w : World) (amount_given : Balance) :
  delegate a = true →
  amount a = Some amount_given →
  let requested := from_tao_of_Balance amount_given in
  let call := compose_call "SubtensorModule" "add_stake"
                [("hotkey", PString (delegate_ss58 a));
                 ("amount_staked", PInt (rao amount_given))] in
  staking_balance a w
  = (if 1000 <? rao requested then from_rao (rao requested - 1000)
     else requested)
  ∧ (submits (trace (delegate_extrinsic a w)) = true ↔
       rao (staking_balance a w) ≤ rao (my_prev_coldkey_balance w)
       ∧ (prompt a = true → confirmed w = true))
  ∧ (submits (trace (delegate_extrinsic a w)) = true →
       (prompt a = true →
          ConfirmAsk "Do you want to delegate/undelegate"
            [staking_balance a w]
          ∈ trace (delegate_extrinsic a w))
       ∧ List.filter is_submission (trace (delegate_extrinsic a w))
         = [SignedAndSent call]).
Proof.
  intros Hd Ham. cbn zeta.
  assert (Hstake : staking_balance a w
                   = (if 1000 <? rao (from_tao_of_Balance amount_given)
                      then from_rao (rao (from_tao_of_Balance amount_given)
                                     - 1000)
                      else from_tao_of_Balance amount_given)).
  { unfold Delegate.staking_balance, requested_balance. rewrite Ham.
    apply withhold_spec, Hd. }
  split; [exact Hstake |].
  destruct (Z.le_gt_cases (rao (staking_balance a w))
              (rao (my_prev_coldkey_balance w))) as [Hle | Hlt].
  2: { rewrite (delegate_not_enough_balance a w Hlt). cbn.
       split; [split; [discriminate | intros [Hle _]; lia] | discriminate]. }
  assert (Hgt : (staking_balance a w >? my_prev_coldkey_balance w)%bal
                = false) by (apply Z.ltb_ge; exact Hle).
  split.
  - unfold Delegate.delegate_extrinsic.
    cbn -[Delegate.staking_balance _do_delegation].
    rewrite Hgt. unfold _do_delegation. rewrite Ham, Hd.
    destruct (prompt a), (confirmed w); cbn -[Delegate.staking_balance];
      try (split; [discriminate | intros [_ Hc]; discriminate (Hc eq_refl)]);
      destruct (send_success w), (wait_for_finalization a),
        (wait_for_inclusion a); cbn;
      (split; [intros _; split; [exact Hle | auto] | reflexivity]).
  - intros Hsub. split.
    + intros Hp.
      destruct (delegate_asks_with_staking_balance a w Hle Hp) as (t & ->).
      apply list_elem_of_In. cbn. auto 8.
    + revert Hsub. unfold Delegate.delegate_extrinsic.
      cbn -[Delegate.staking_balance _do_delegation].
      rewrite Hgt. unfold _do_delegation. rewrite Ham, Hd.
      destruct (prompt a), (confirmed w); cbn -[Delegate.staking_balance];
        try discriminate;
        destruct (send_success w), (wait_for_finalization a),
          (wait_for_inclusion a); cbn; reflexivity.
Qed.

(** C10. With no amount given, the amount to stake is first set to the
    whole coldkey balance fetched at the start of the flow, and only then
    goes through the 1000-rao withholding; the result is the amount shown
    when the flow asks for confirmation. *)
Theorem delegate_without_amount_stakes_all (a : Args) (w : World) :
  amount a = None →
  requested_balance from_tao_of_Balance a w = my_prev_coldkey_balance w
  ∧ staking_balance a w = withhold a (my_prev_coldkey_balance w)
  ∧ (delegate a = true →
       staking_balance a w
       = if 1000 <? rao (my_prev_coldkey_balance w)
         then from_rao (rao (my_prev_coldkey_balance w) - 1000)
         else my_prev_coldkey_balance w)
  ∧ (prompt a = true →
       ConfirmAsk "Do you want to delegate/undelegate"
         [withhold a (my_prev_coldkey_balance w)]
       ∈ trace (delegate_extrinsic a w)).
Proof.
  intros Hnone.
  assert (Hreq : requested_balance from_tao_of_Balance a w
                 = my_prev_coldkey_balance w).
  { unfold requested_balance. rewrite Hnone. apply from_tao_tao. }
  assert (Hstake : staking_balance a w = withhold a (my_prev_coldkey_balance w)).
  { unfold Delegate.staking_balance. rewrite Hreq. reflexivity. }
  split; [exact Hreq |]. split; [exact Hstake |]. split.
  - intros Hd. rewrite Hstake. apply withhold_spec, Hd.
  - intros Hp.
    destruct (delegate_asks_with_staking_balance a w) as (t & Ht);
      [rewrite Hstake; apply withhold_le | exact Hp |].
    rewrite Ht, Hstake. set_solver.
Qed.

(** The call that is sent carries the amount argument itself. *)
Lemma delegation_call_carries_amount_argument
    (a : Args) (w : World) (requested : Balance) :
  delegate a = true →
  amount a = Some requested →
  _do_delegation a w
  = (let call := compose_call "SubtensorModule" "add_stake"
                   [("hotkey", PString (delegate_ss58 a));
                    ("amount_staked", PInt (rao requested))] in
     [Composed call; SignedAndSent call],
     Ok (send_success w, send_err_msg w)).
Proof.
  intros Hd Ham. unfold _do_delegation. rewrite Ham, Hd. reflexivity.
Qed.

(** With no amount given there is no [amount.rao] to build the call from. *)
Lemma delegation_without_amount_raises (a : Args) (w : World) :
  amount a = None → _do_delegation a w = ([], Raise AttributeError).
Proof. intros Hnone. unfold _do_delegation. rewrite Hnone. reflexivity. Qed.

End DelegateFacts.

Lemma delegate_stakes_the_amount_as_passed_witness :
  Delegate.staking_balance from_tao_of_rao_amount
    (sample_delegate (Some (from_rao 5000))) sample_delegate_world_rich
  = from_rao 4999999999000
  ∧ List.filter is_submission
      (trace (Delegate.delegate_extrinsic from_tao_of_rao_amount
                (sample_delegate (Some (from_rao 5000)))
                sample_delegate_world_rich))
    = [SignedAndSent
         (compose_call "SubtensorModule" "add_stake"
            [("hotkey", PString sample_hotkey); ("amount_staked", PInt 5000)])].
Proof.
  destruct (delegate_stakes_the_amount_as_passed from_tao_of_rao_amount
              (sample_delegate (Some (from_rao 5000)))
              sample_delegate_world_rich (from_rao 5000)
              eq_refl eq_refl) as (Hstake & Hwhen & Hsends).
  split; [exact Hstake |].
  apply Hsends, Hwhen. split; [vm_compute; discriminate | reflexivity].
Defined.

(** A request to stake 5000 rao from a coldkey that holds 10¹³ rao, with
    the amount argument converted as the spec gives [from_tao]: the
    [add_stake] call that is sent carries 5000, not 4000. *)
Example delegate_5000_run :
  Delegate.delegate_extrinsic from_tao_of_rao_amount
    (sample_delegate (Some (from_rao 5000))) sample_delegate_world_rich
  = (let call := compose_call "SubtensorModule" "add_stake"
                   [("hotkey", PString sample_hotkey);
                    ("amount_staked", PInt 5000)] in
     [UnlockColdkey; ChainRead "chain_head"; ChainRead "balance";
      ChainRead "hotkey_owner";
      ConfirmAsk "Do you want to delegate/undelegate"
        [from_rao 4999999999000];
      Composed call; SignedAndSent call;
      Print "Finalized" []; ChainRead "chain_head"; ChainRead "balance";
      Print "Balance" [from_rao 10000000000000; from_rao 9999999995000]],
     Ok true).
Proof. reflexivity. Qed.

(** The same request when the conversion leaves a Balance as it is, from
    a coldkey that holds 10000 rao: the confirmation shows 4000 rao, and
    the call that is sent carries 5000 all the same. *)
Example delegate_5000_run_unscaled :
  Delegate.delegate_extrinsic (fun b => b)
    (sample_delegate (Some (from_rao 5000))) sample_delegate_world
  = (let call := compose_call "SubtensorModule" "add_stake"
                   [("hotkey", PString sample_hotkey);
                    ("amount_staked", PInt 5000)] in
     [UnlockColdkey; ChainRead "chain_head"; ChainRead "balance";
      ChainRead "hotkey_owner";
      ConfirmAsk "Do you want to delegate/undelegate" [from_rao 4000];
      Composed call; SignedAndSent call;
      Print "Finalized" []; ChainRead "chain_head"; ChainRead "balance";
      Print "Balance" [from_rao 10000; from_rao 5000]],
     Ok true).
Proof. reflexivity. Qed.

Lemma delegate_without_amount_stakes_all_witness :
  Delegate.requested_balance (fun b => b) (sample_delegate None)
    sample_delegate_world = from_rao 10000
  ∧ Delegate.staking_balance (fun b => b) (sample_delegate None)
      sample_delegate_world = from_rao 9000.
Proof.
  destruct (delegate_without_amount_stakes_all (fun b => b)
              (sample_delegate None) sample_delegate_world eq_refl)
    as (Hreq & _ & Hstake & _).
  split; [exact Hreq | exact (Hstake eq_refl)].
Defined.

(** With no amount given and the confirmation accepted, the run ends when
    the call is built. *)
Example delegate_without_amount_run :
  Delegate.delegate_extrinsic (fun b => b) (sample_delegate None)
    sample_delegate_world
  = ([UnlockColdkey; ChainRead "chain_head"; ChainRead "balance";
      ChainRead "hotkey_owner";
      ConfirmAsk "Do you want to delegate/undelegate" [from_rao 9000]],
     Raise AttributeError).
Proof. reflexivity. Qed.

(** ** The weight view *)

Section WeightsFacts.
Import Weights.

Lemma record_weight_lookup (uid : Z) (st : state) (netuid value : Z) (q : Q) :
  uid_to_weights (record_weight uid st ((netuid, value), q))
  = <[uid := <[netuid := q]> (default ∅ (uid_to_weights st !! uid))]>
      (uid_to_weights st).
Proof.
  unfold record_weight. cbn.
  destruct (uid_to_weights st !! uid) as [m |] eqn:Hm; cbn.
  - rewrite Hm. reflexivity.
  - rewrite lookup_insert_eq. cbn. apply insert_insert_eq.
Qed.

Lemma record_weight_divisions (uid : Z) (st : state) (p : (Z * Z) * Q) :
  divisions (record_weight uid st p) = divisions st.
Proof. destruct p as [[netuid value] q]. reflexivity. Qed.

Lemma inner_loop_lookup (uid : Z) (entries : list ((Z * Z) * Q)) :
  ∀ (st : state) (p : (Z * Z) * Q),
    uid_to_weights (foldl (record_weight uid) st (p :: entries))
    = <[uid := assigned (default ∅ (uid_to_weights st !! uid)) (p :: entries)]>
        (uid_to_weights st).
Proof.
  induction entries as [| p' entries IH]; intros st [[netuid value] q].
  - cbn [foldl]. apply record_weight_lookup.
  - change (foldl (record_weight uid) st (((netuid, value), q) :: p' :: entries))
      with (foldl (record_weight uid)
              (record_weight uid st ((netuid, value), q)) (p' :: entries)).
    rewrite IH, record_weight_lookup, lookup_insert_eq, insert_insert_eq.
    reflexivity.
Qed.

Lemma inner_loop_divisions (uid : Z) (entries : list ((Z * Z) * Q)) :
  ∀ st, divisions (foldl (record_weight uid) st entries) = divisions st.
Proof.
  induction entries as [| p entries IH]; intros st; [reflexivity |].
  cbn [foldl]. rewrite IH. apply record_weight_divisions.
Qed.

(** One row of the outer loop. *)
Lemma step_lookup (st : state) (uid : Z) (weights_data : list (Z * Z)) :
  uid_to_weights (step st (uid, weights_data)) !! uid
  = Some (assigned (if nonempty (uid, weights_data)
                    then default ∅ (uid_to_weights st !! uid) else ∅)
            (zip weights_data (normalize weights_data))).
Proof.
  destruct weights_data as [| wd weights_data].
  - cbn. apply lookup_insert_eq.
  - unfold step, nonempty. cbn [length Nat.eqb negb snd].
    unfold normalize. cbn [map zip zip_with].
    rewrite inner_loop_lookup. cbn [uid_to_weights].
    apply lookup_insert_eq.
Qed.

Lemma step_lookup_other (st : state) (uid uid' : Z) (weights_data : list (Z * Z)) :
  uid ≠ uid' →
  uid_to_weights (step st (uid, weights_data)) !! uid'
  = uid_to_weights st !! uid'.
Proof.
  intros Hne. destruct weights_data as [| wd weights_data].
  - cbn. apply lookup_insert_ne, Hne.
  - unfold step. cbn [length Nat.eqb].
    unfold normalize. cbn [map zip zip_with].
    rewrite inner_loop_lookup. cbn [uid_to_weights].
    apply lookup_insert_ne, Hne.
Qed.

Lemma step_divisions (st : state) (m : matrix) :
  divisions (step st m)
  = (divisions st + if nonempty m then 1 else 0)%nat.
Proof.
  destruct m as [uid [| wd weights_data]].
  - cbn. lia.
  - unfold step, nonempty. cbn [length Nat.eqb negb snd].
    rewrite inner_loop_divisions. cbn. lia.
Qed.

Lemma outer_loop_lookup_other (uid : Z) (weights : list matrix) :
  ∀ st, uid ∉ weights.*1 →
    uid_to_weights (foldl step st weights) !! uid = uid_to_weights st !! uid.
Proof.
  induction weights as [| [uid' wd] weights IH]; intros st Hnot;
    [reflexivity |].
  cbn in Hnot. apply not_elem_of_cons in Hnot as [Hne Hnot].
  cbn [foldl]. rewrite IH by exact Hnot.
  apply step_lookup_other. congruence.
Qed.

Lemma outer_loop_lookup (uid : Z) (weights_data : list (Z * Z))
    (weights : list matrix) :
  ∀ st, NoDup weights.*1 →
    (uid, weights_data) ∈ weights →
    uid_to_weights st !! uid = None →
    uid_to_weights (foldl step st weights) !! uid
    = Some (assigned ∅ (zip weights_data (normalize weights_data))).
Proof.
  induction weights as [| [uid' wd] weights IH]; intros st Hnodup Hin Hfresh.
  - inversion Hin.
  - cbn in Hnodup. apply NoDup_cons in Hnodup as [Hhead Hnodup].
    cbn [foldl]. apply elem_of_cons in Hin as [[= <- <-] | Hin].
    + rewrite outer_loop_lookup_other by exact Hhead.
      rewrite step_lookup, Hfresh. cbn [default].
      destruct (nonempty (uid, weights_data)); reflexivity.
    + assert (Hne : uid' ≠ uid).
      { intros ->. apply Hhead.
        apply (list_elem_of_fmap_2 fst) in Hin. exact Hin. }
      apply IH; [exact Hnodup | exact Hin |].
      rewrite step_lookup_other by exact Hne. exact Hfresh.
Qed.

Lemma outer_loop_divisions (weights : list matrix) :
  ∀ st, divisions (foldl step st weights)
        = (divisions st + length (filter (fun m => nonempty m = true) weights))%nat.
Proof.
  induction weights as [| m weights IH]; intros st; [cbn; lia |].
  cbn [foldl]. rewrite IH, step_divisions, filter_cons.
  destruct (decide (nonempty m = true)) as [-> | Hn].
  - cbn. lia.
  - apply not_true_is_false in Hn. rewrite Hn. lia.
Qed.

(** The entries of the inner loop pair every tuple with its value over the
    clamped sum. *)
Lemma zip_normalize (weights_data : list (Z * Z)) :
  zip weights_data (normalize weights_data)
  = (fun wd => (wd, (inject_Z wd.2
                     / inject_Z (Z.max (sum_values weights_data) 1))%Q))
    <$> weights_data.
Proof.
  unfold normalize. generalize (Z.max (sum_values weights_data) 1) as d.
  intros d. induction weights_data as [| wd l IH]; [reflexivity |].
  cbn. f_equal. exact IH.
Qed.

Lemma paired_keys (g : Z * Z → Q) (l : list (Z * Z)) :
  ((fun wd => (wd, g wd)) <$> l).*1.*1 = l.*1.
Proof. induction l as [| wd l IH]; cbn; congruence. Qed.

Lemma assigned_lookup_inv (entries : list ((Z * Z) * Q)) :
  ∀ (m : gmap Z Q) (netuid : Z) (q : Q),
    assigned m entries !! netuid = Some q →
    (∃ value, ((netuid, value), q) ∈ entries) ∨ m !! netuid = Some q.
Proof.
  induction entries as [| [[n v] q'] entries IH]; intros m netuid q Hlook.
  - right. exact Hlook.
  - cbn in Hlook. apply IH in Hlook as [(value & Hin) | Hlook].
    + left. exists value. right. exact Hin.
    + destruct (decide (n = netuid)) as [-> | Hne].
      * rewrite lookup_insert_eq in Hlook. injection Hlook as ->.
        left. exists v. left.
      * rewrite lookup_insert_ne in Hlook by exact Hne. right. exact Hlook.
Qed.

Lemma assigned_lookup_fresh (entries : list ((Z * Z) * Q)) :
  ∀ (m : gmap Z Q) (netuid : Z),
    netuid ∉ entries.*1.*1 → assigned m entries !! netuid = m !! netuid.
Proof.
  induction entries as [| [[n v] q'] entries IH]; intros m netuid Hnot;
    [reflexivity |].
  cbn in Hnot. apply not_elem_of_cons in Hnot as [Hne Hnot].
  cbn. rewrite IH by exact Hnot. apply lookup_insert_ne. congruence.
Qed.

Lemma assigned_lookup (entries : list ((Z * Z) * Q)) :
  ∀ (m : gmap Z Q) (netuid value : Z) (q : Q),
    NoDup entries.*1.*1 →
    ((netuid, value), q) ∈ entries →
    assigned m entries !! netuid = Some q.
Proof.
  induction entries as [| [[n v] q'] entries IH];
    intros m netuid value q Hnodup Hin.
  - inversion Hin.
  - cbn in Hnodup. apply NoDup_cons in Hnodup as [Hhead Hnodup].
    cbn. apply elem_of_cons in Hin as [[= <- <- <-] | Hin].
    + rewrite assigned_lookup_fresh by exact Hhead. apply lookup_insert_eq.
    + apply (IH _ _ value); assumption.
Qed.

(** C8. When every uid has one row, the mapping the weight view builds for
    a uid holds, for each of its (netuid, value) tuples, the value divided
    by max(sum of the row's values, 1): every entry of the mapping has that
    form, and with distinct netuids every tuple has its entry. For an empty
    row the mapping is empty. The array division is evaluated once per
    non-empty row and never for an empty one. *)
Theorem get_weights_normalizes
    (weights : list matrix) (uid : Z) (weights_data : list (Z * Z)) :
  NoDup weights.*1 →
  (uid, weights_data) ∈ weights →
  ∃ normalized : gmap Z Q,
    uid_to_weights (get_weights weights) !! uid = Some normalized
    ∧ (weights_data = [] → normalized = ∅)
    ∧ (∀ netuid q, normalized !! netuid = Some q →
         ∃ value, (netuid, value) ∈ weights_data
                  ∧ q = (inject_Z value
                         / inject_Z (Z.max (sum_values weights_data) 1))%Q)
    ∧ (NoDup weights_data.*1 →
       ∀ netuid value, (netuid, value) ∈ weights_data →
         normalized !! netuid
         = Some (inject_Z value
                 / inject_Z (Z.max (sum_values weights_data) 1))%Q)
    ∧ divisions (get_weights weights)
      = length (filter (fun m => nonempty m = true) weights).
Proof.
  intros Hnodup Hin.
  exists (assigned ∅ (zip weights_data (normalize weights_data))).
  split; [| split; [| split; [| split]]].
  - apply outer_loop_lookup; [exact Hnodup | exact Hin | apply lookup_empty].
  - intros ->. reflexivity.
  - intros netuid q Hlook. rewrite zip_normalize in Hlook.
    apply assigned_lookup_inv in Hlook as [(value & Hentry) | Hempty].
    + apply list_elem_of_fmap in Hentry as ([n v] & [= -> -> ->] & Hwd).
      exists v. split; [exact Hwd | reflexivity].
    + rewrite lookup_empty in Hempty. discriminate.
  - intros Hkeys netuid value Hwd. rewrite zip_normalize.
    apply (assigned_lookup _ _ netuid value).
    + rewrite paired_keys. exact Hkeys.
    + apply (list_elem_of_fmap_2
               (fun wd => (wd, (inject_Z wd.2
                 / inject_Z (Z.max (sum_values weights_data) 1))%Q))) in Hwd.
      exact Hwd.
  - unfold get_weights. rewrite outer_loop_divisions. reflexivity.
Qed.

End WeightsFacts.

Lemma get_weights_normalizes_witness :
  ∃ normalized : gmap Z Q,
    Weights.uid_to_weights (Weights.get_weights sample_weights) !! 7
    = Some normalized
    ∧ normalized !! 1 = Some (3 # 4)
    ∧ normalized !! 2 = Some (1 # 4).
Proof.
  destruct (get_weights_normalizes sample_weights 7 [(1, 3); (2, 1)])
    as (normalized & Hlook & _ & _ & Hall & _).
  - refine (bool_decide_unpack _ _). vm_compute. exact I.
  - apply list_elem_of_In. cbn. auto.
  - exists normalized. split; [exact Hlook |].
    assert (Hkeys : NoDup [(1, 3); (2, 1)].*1)
      by (refine (bool_decide_unpack _ _); vm_compute; exact I).
    split.
    + apply (Hall Hkeys 1 3). apply list_elem_of_In. cbn. auto.
    + apply (Hall Hkeys 2 1). apply list_elem_of_In. cbn. auto.
Defined.

(** The spec's weight example: values 3 and 1 become 0.75 and 0.25; the uid
    with no weights gets the empty mapping; one division in all. *)
Example get_weights_example :
  Weights.uid_to_weights (Weights.get_weights sample_weights) !! 7
  = Some {[1 := 3 # 4; 2 := 1 # 4]}
  ∧ Weights.uid_to_weights (Weights.get_weights sample_weights) !! 8 = Some ∅
  ∧ Weights.divisions (Weights.get_weights sample_weights) = 1%nat
  ∧ Weights.divisions (Weights.get_weights [(8, [])]) = 0%nat.
Proof. repeat split; vm_compute; reflexivity. Qed.

(** Values that sum to zero are divided by 1. *)
Example get_weights_zero_sum :
  Weights.normalize [(1, 0); (2, 0)] = [0 # 1; 0 # 1].
Proof. reflexivity. Qed.

(** * Further properties of the flows *)

Set Warnings "-clear-no-such-hyp".

(** ** Transfer: what a run can and cannot do *)

Section TransferRuns.
Context `{KeyLibrary}.
Import Transfer.

(** X1. A destination written as a "0x" string whose length is neither 64
    nor 66 stops the transfer at once, whatever the key library does: the
    flow prints the error and returns False, without unlocking the wallet,
    reading the chain or composing a call. *)
Theorem transfer_rejects_hex_of_wrong_length (a : Args) (w : World) :
  String.prefix "0x" (destination a) = true →
  String.length (destination a) ≠ 64%nat →
  String.length (destination a) ≠ 66%nat →
  transfer_extrinsic a w
  = ([PrintErr "Invalid destination address" []], Ok false).
Proof.
  intros Hpre H64 H66. unfold transfer_extrinsic.
  cbn -[is_valid_ed25519_pubkey get_transfer_fee]. rewrite Hpre.
  rewrite (ed25519_str_wrong_length _ H64 H66). reflexivity.
Qed.

(** X2. No run of the transfer flow submits more than one extrinsic: a
    failed submission is not tried again. *)
Theorem transfer_submits_at_most_once (a : Args) (w : World) :
  (length (List.filter is_submission (trace (transfer_extrinsic a w))) ≤ 1)%nat.
Proof.
  unfold transfer_extrinsic.
  destruct (is_valid_bittensor_address_or_public_key (PyStr (destination a)))
    as [[|] | e]; cbn -[get_transfer_fee]; try lia.
  destruct (payment_info w) as [f | e] eqn:Hp;
    [rewrite (get_transfer_fee_ok a w f Hp)
    | rewrite (get_transfer_fee_fallback a w e Hp)];
    cbn;
    (destruct (chain_balance w <? _)%bal; [cbn; lia |]);
    destruct (prompt a), (confirmed w), (wait_for_finalization a),
      (wait_for_inclusion a), (response_is_success w), (has_explorer_urls w);
    cbn; lia.
Qed.

(** X3. The transfer flow never returns True. A run that submits and is not
    told of a failure goes on to report the balances, where it takes an item
    of [account_balance], a Balance since line 118, and raises TypeError;
    every run that returns, returns False. *)
Theorem transfer_never_returns_true (a : Args) (w : World) :
  outcome (transfer_extrinsic a w) ≠ Ok true
  ∧ (submits (trace (transfer_extrinsic a w)) = true →
     outcome (transfer_extrinsic a w)
     = if negb (wait_for_finalization a) && negb (wait_for_inclusion a)
          || response_is_success w
       then Raise TypeError else Ok false).
Proof.
  unfold transfer_extrinsic.
  destruct (is_valid_bittensor_address_or_public_key (PyStr (destination a)))
    as [[|] | e]; cbn -[get_transfer_fee];
    try (split; [discriminate | discriminate]).
  destruct (payment_info w) as [f | e] eqn:Hp;
    [rewrite (get_transfer_fee_ok a w f Hp)
    | rewrite (get_transfer_fee_fallback a w e Hp)];
    cbn;
    (destruct (chain_balance w <? _)%bal;
       [cbn; split; discriminate |]);
    destruct (prompt a), (confirmed w), (wait_for_finalization a),
      (wait_for_inclusion a), (response_is_success w), (has_explorer_urls w);
    cbn; split; first [discriminate | reflexivity | intros _; reflexivity].
Qed.

End TransferRuns.

Lemma transfer_rejects_hex_of_wrong_length_witness :
  @Transfer.transfer_extrinsic sample_library sample_transfer_short_hex
    (sample_transfer_world 100)
  = ([PrintErr "Invalid destination address" []], Ok false).
Proof.
  apply (@transfer_rejects_hex_of_wrong_length sample_library
           sample_transfer_short_hex (sample_transfer_world 100)).
  - reflexivity.
  - cbn. lia.
  - cbn. lia.
Defined.

Lemma transfer_never_returns_true_witness :
  outcome (@Transfer.transfer_extrinsic sample_library sample_transfer
             (sample_transfer_world 100)) = Raise TypeError.
Proof.
  destruct (@transfer_never_returns_true sample_library sample_transfer
              (sample_transfer_world 100)) as [_ Hsub].
  exact (Hsub eq_refl).
Defined.

(** ** Senate vote: when it asks, what it sends *)

Section SenateRuns.
Import Senate.

(** X4. The senate vote puts a yes/no question to the user exactly when
    the proposal hash is not empty, the hotkey is among the senate members
    and the proposal's vote data was found on chain. It unlocks the hotkey
    and the coldkey, which asks for their passphrases, exactly when the
    hash is not empty and the hotkey is a member: the keys are unlocked
    before the vote data is looked up, so also for a proposal that is then
    not found. *)
Theorem senate_vote_questions_and_passphrases
    (hotkey proposal : string) (w : World) :
  (prompts (trace (senate_vote hotkey proposal w)) = true ↔
     proposal ≠ ""
     ∧ (∃ l, members w = Some l ∧ hotkey ∈ l)
     ∧ is_Some (voting_before w))
  ∧ (unlocks (trace (senate_vote hotkey proposal w)) = true ↔
       proposal ≠ "" ∧ (∃ l, members w = Some l ∧ hotkey ∈ l)).
Proof.
  unfold senate_vote, _is_senate_member, _get_senate_members.
  destruct (decide (proposal = "")) as [-> | Hne].
  { cbn. split; (split; [discriminate | intros (Hne & _); congruence]). }
  rewrite bool_decide_eq_false_2 by exact Hne.
  destruct (members w) as [l |]; cbn -[vote_senate_extrinsic].
  2: { split; (split; [discriminate |]).
       - intros (_ & (l & [=] & _) & _).
       - intros (_ & (l & [=] & _)). }
  rewrite count_pos_bool.
  destruct (decide (hotkey ∈ l)) as [Hin | Hnot].
  - rewrite bool_decide_eq_true_2 by exact Hin.
    cbn -[vote_senate_extrinsic].
    destruct (voting_before w) as [vd0 |]; cbn -[vote_senate_extrinsic].
    + destruct (vote_senate_extrinsic _ _ _ _ _ _ _ _) as [t r]. cbn.
      split; (split; [intros _ | reflexivity]); eauto.
    + split; (split; [try discriminate |]).
      * intros (_ & _ & Hsome). destruct Hsome as [vd [=]].
      * intros _. eauto.
      * reflexivity.
  - rewrite bool_decide_eq_false_2 by exact Hnot. cbn.
    split; (split; [discriminate |]).
    + intros (_ & (l' & [= <-] & Hin) & _). contradiction.
    + intros (_ & (l' & [= <-] & Hin)). contradiction.
Qed.


(** X6. When the submission of the vote reports a failure, the senate vote
    prints the failure, waits and returns False; it does not read the
    tallies again. *)
Theorem senate_vote_failed_submission (hotkey proposal : string) (w : World) :
  submits (trace (senate_vote hotkey proposal w)) = true →
  send_success w = false →
  ∃ t c, senate_vote hotkey proposal w
         = (t ++ [SignedAndSent c; PrintErr "Failed" []; Sleep], Ok false).
Proof.
  intros Hsub Hfail.
  destruct (senate_vote_submitted hotkey proposal w Hsub)
    as (vd0 & Hbefore & Hconf & Hrun).
  rewrite Hrun. unfold vote_senate_extrinsic. rewrite Hconf, Hfail. cbn.
  eexists [_; _; _; _; _; _; _], _. reflexivity.
Qed.

(** X7. The senate vote raises in two situations only, each time with
    TypeError: for a given proposal when the senate members cannot be
    serialized, and after a submission that reported success when the
    proposal's vote data is gone at the second query. *)
Theorem senate_vote_raises_only_on_missing_data
    (hotkey proposal : string) (w : World) (e : pyexn) :
  outcome (senate_vote hotkey proposal w) = Raise e ↔
  e = TypeError
  ∧ proposal ≠ ""
  ∧ (members w = None
     ∨ (submits (trace (senate_vote hotkey proposal w)) = true
        ∧ send_success w = true ∧ voting_after w = None)).
Proof.
  unfold senate_vote, _is_senate_member, _get_senate_members.
  destruct (decide (proposal = "")) as [-> | Hne].
  { cbn. split; [discriminate | intros (_ & Hne & _); congruence]. }
  rewrite bool_decide_eq_false_2 by exact Hne.
  destruct (members w) as [l |]; cbn -[vote_senate_extrinsic].
  2: { split; [intros [= <-]; auto | intros (-> & _); reflexivity]. }
  destruct (bool_decide (0 < count hotkey l)%nat); cbn -[vote_senate_extrinsic].
  2: { split; [discriminate | intros (_ & _ & [Hm | (Hs & _)]); discriminate]. }
  destruct (voting_before w) as [vd0 |]; cbn -[vote_senate_extrinsic].
  2: { split; [discriminate | intros (_ & _ & [Hm | (Hs & _)]); discriminate]. }
  unfold vote_senate_extrinsic.
  destruct (cast_confirmed w); cbn.
  2: { split; [discriminate | intros (_ & _ & [Hm | (Hs & _)]); discriminate]. }
  destruct (send_success w); cbn.
  2: { split; [discriminate
              | intros (_ & _ & [Hm | (_ & Hs & _)]); discriminate]. }
  destruct (voting_after w) as [vd |]; cbn.
  - destruct (bool_decide (0 < count hotkey (ayes vd))%nat
              || bool_decide (0 < count hotkey (nays vd))%nat); cbn;
      (split; [discriminate
              | intros (_ & _ & [Hm | (_ & _ & Hv)]); discriminate]).
  - split; [| intros (-> & _); reflexivity].
    intros [= <-]. split; [reflexivity |]. split; [exact Hne |].
    right. auto.
Qed.

End SenateRuns.

Lemma senate_vote_questions_and_passphrases_witness :
  unlocks (trace (Senate.senate_vote sample_hotkey "0x1f"
                    sample_vote_world_no_proposal)) = true
  ∧ prompts (trace (Senate.senate_vote sample_hotkey "0x1f"
                      sample_vote_world_no_proposal)) = false.
Proof.
  destruct (senate_vote_questions_and_passphrases sample_hotkey "0x1f"
              sample_vote_world_no_proposal) as [Hasks Hunlocks].
  split.
  - apply Hunlocks. split; [discriminate |].
    exists [sample_destination; sample_hotkey]. split; [reflexivity |].
    apply list_elem_of_In. right. left. reflexivity.
  - apply not_true_is_false. intros Hp.
    apply Hasks in Hp. destruct Hp as (_ & _ & [vd Hvd]).
    discriminate Hvd.
Defined.


Lemma senate_vote_failed_submission_witness :
  outcome (Senate.senate_vote sample_hotkey "0x1f" sample_vote_world_failed)
  = Ok false.
Proof.
  destruct (senate_vote_failed_submission sample_hotkey "0x1f"
              sample_vote_world_failed eq_refl eq_refl) as (t & c & Hrun).
  rewrite Hrun. reflexivity.
Defined.

Lemma senate_vote_raises_only_on_missing_data_witness :
  outcome (Senate.senate_vote sample_hotkey "0x1f" sample_vote_world_unreadable)
  = Raise TypeError.
Proof.
  apply (senate_vote_raises_only_on_missing_data sample_hotkey "0x1f"
           sample_vote_world_unreadable TypeError).
  split; [reflexivity |]. split; [discriminate |]. left. reflexivity.
Defined.

(** ** Burned registration: nothing is ever sent *)

Section RegisterRuns.
Import Register.

(** X8. The burned-register flow never submits an extrinsic. It returns
    True exactly when the neuron is already there; for a hotkey without a
    neuron, once the confirmation is not declined, it composes the call and
    raises TypeError where it unpacks the coroutine of the send that was not
    awaited. *)
Theorem burned_register_never_submits (a : Args) (w : World) :
  submits (trace (burned_register_extrinsic a w)) = false
  ∧ (outcome (burned_register_extrinsic a w) = Ok true
       ↔ neuron_is_null w = false)
  ∧ (neuron_is_null w = true → (prompt a = true → confirmed w = true) →
       ∃ t, burned_register_extrinsic a w
            = (t ++ [Composed (register_call a)], Raise TypeError)).
Proof.
  unfold burned_register_extrinsic. cbn.
  destruct (neuron_is_null w); cbn.
  - destruct (prompt a); cbn.
    + destruct (confirmed w); cbn.
      * split; [reflexivity |]. split; [split; discriminate |].
        intros _ _. eexists [_; _; _; _]. reflexivity.
      * split; [reflexivity |]. split; [split; discriminate |].
        intros _ Hc. discriminate (Hc eq_refl).
    + split; [reflexivity |]. split; [split; discriminate |].
      intros _ _. eexists [_; _; _]. reflexivity.
  - split; [reflexivity |]. split; [split; reflexivity |]. discriminate.
Qed.

End RegisterRuns.

Lemma burned_register_never_submits_witness :
  outcome (Register.burned_register_extrinsic sample_register
             sample_unregistered_world) = Raise TypeError.
Proof.
  destruct (burned_register_never_submits sample_register
              sample_unregistered_world) as (_ & _ & Hraise).
  destruct (Hraise eq_refl (fun _ => eq_refl)) as (t & ->). reflexivity.
Defined.

(** ** Setting the take: the result and the number of submissions *)

Section TakeRuns.
Import Take.

(** X9. [set_take_extrinsic] returns True when the take is unchanged, when
    neither wait flag is set, or when the response reports success, and
    False otherwise; it submits nothing when the take is unchanged and
    exactly one extrinsic otherwise. *)
Theorem set_take_result (a : Args) (w : World) :
  let unchanged :=
    bool_decide (Some (take_u16_of (take a))
                 = current_take_of <$> delegate_take w) in
  outcome (set_take_extrinsic a w)
  = Ok (unchanged
        || negb (wait_for_finalization a) && negb (wait_for_inclusion a)
        || response_is_success w)
  ∧ length (List.filter is_submission (trace (set_take_extrinsic a w)))
    = if unchanged then 0%nat else 1%nat.
Proof.
  cbn zeta. unfold set_take_extrinsic, _get_delegate_by_hotkey.
  destruct (delegate_take w) as [d |];
    cbn -[take_u16_of current_take_of].
  - destruct (bool_decide (Some (take_u16_of (take a))
                           = Some (current_take_of d)));
      cbn -[take_u16_of current_take_of]; [split; reflexivity |].
    unfold _take_extrinsic.
    destruct (current_take_of d <? take_u16_of (take a)),
      (wait_for_finalization a), (wait_for_inclusion a),
      (response_is_success w); cbn; split; reflexivity.
  - rewrite bool_decide_eq_false_2 by discriminate.
    unfold _take_extrinsic.
    destruct (wait_for_finalization a), (wait_for_inclusion a),
      (response_is_success w); cbn; split; reflexivity.
Qed.

End TakeRuns.

(** ** Delegation: what is sent and what is returned *)

Section DelegateRuns.
Import Delegate.
Context (from_tao_of_Balance : Balance → Balance).

Local Abbreviation staking_balance := (staking_balance from_tao_of_Balance).
Local Abbreviation delegate_extrinsic := (delegate_extrinsic from_tao_of_Balance).

(** X10. When an amount is given, the staking balance is covered and the
    confirmation is not declined, the delegate flow sends exactly one
    extrinsic, [add_stake] or [remove_stake], whose amount is [amount.rao],
    the argument as it was passed, and returns what the send reports. *)
Theorem delegate_sends_amount_argument
    (a : Args) (w : World) (amount_given : Balance) :
  amount a = Some amount_given →
  rao (staking_balance a w) ≤ rao (my_prev_coldkey_balance w) →
  (prompt a = true → confirmed w = true) →
  let call :=
    if delegate a then
      compose_call "SubtensorModule" "add_stake"
        [("hotkey", PString (delegate_ss58 a));
         ("amount_staked", PInt (rao amount_given))]
    else
      compose_call "SubtensorModule" "remove_stake"
        [("hotkey", PString (delegate_ss58 a));
         ("amount_unstaked", PInt (rao amount_given))] in
  outcome (delegate_extrinsic a w) = Ok (send_success w)
  ∧ List.filter is_submission (trace (delegate_extrinsic a w))
    = [SignedAndSent call].
Proof.
  intros Ham Hle Hconfirm. cbn zeta.
  unfold Delegate.delegate_extrinsic.
  cbn -[Delegate.staking_balance _do_delegation].
  assert (Hgt : (staking_balance a w >? my_prev_coldkey_balance w)%bal = false)
    by (apply Z.ltb_ge; exact Hle).
  rewrite Hgt. unfold _do_delegation. rewrite Ham.
  destruct (prompt a); [rewrite (Hconfirm eq_refl) |];
    cbn -[Delegate.staking_balance];
    destruct (delegate a), (send_success w), (wait_for_finalization a),
      (wait_for_inclusion a); cbn; split; reflexivity.
Qed.

(** X11. With no amount given the delegate flow never sends an extrinsic:
    the balance check always passes, and the run ends by returning False
    when the confirmation is declined and by raising AttributeError, where
    the call is built from [amount.rao], otherwise. *)
Theorem delegate_without_amount_never_submits (a : Args) (w : World) :
  amount a = None →
  submits (trace (delegate_extrinsic a w)) = false
  ∧ composes (trace (delegate_extrinsic a w)) = false
  ∧ outcome (delegate_extrinsic a w)
    = if prompt a && negb (confirmed w) then Ok false
      else Raise AttributeError.
Proof.
  intros Hnone. unfold Delegate.delegate_extrinsic.
  cbn -[Delegate.staking_balance _do_delegation].
  assert (Hgt : (staking_balance a w >? my_prev_coldkey_balance w)%bal = false).
  { apply Z.ltb_ge.
    unfold Delegate.staking_balance, requested_balance.
    rewrite Hnone, from_tao_tao. apply withhold_le. }
  rewrite Hgt. unfold _do_delegation. rewrite Hnone.
  destruct (prompt a), (confirmed w); cbn -[Delegate.staking_balance];
    repeat split.
Qed.

(** X12. Removing stake goes through the same balance check as adding it,
    without the 1000-rao withholding: a request to undelegate more than the
    coldkey's own balance is refused with "Not enough balance" and nothing
    is sent. *)
Theorem undelegate_is_checked_against_coldkey_balance
    (a : Args) (w : World) (amount_given : Balance) :
  delegate a = false →
  amount a = Some amount_given →
  staking_balance a w = from_tao_of_Balance amount_given
  ∧ (rao (my_prev_coldkey_balance w) < rao (from_tao_of_Balance amount_given) →
       outcome (delegate_extrinsic a w) = Ok false
       ∧ submits (trace (delegate_extrinsic a w)) = false
       ∧ PrintErr "Not enough balance"
           [my_prev_coldkey_balance w; from_tao_of_Balance amount_given]
         ∈ trace (delegate_extrinsic a w)).
Proof.
  intros Hd Ham.
  assert (Hstake : staking_balance a w = from_tao_of_Balance amount_given).
  { unfold Delegate.staking_balance, requested_balance, withhold.
    rewrite Ham, Hd. reflexivity. }
  split; [exact Hstake |]. intros Hlt.
  rewrite (delegate_not_enough_balance from_tao_of_Balance a w)
    by (rewrite Hstake; exact Hlt).
  rewrite Hstake. cbn. repeat split. set_solver.
Qed.

End DelegateRuns.

Lemma delegate_sends_amount_argument_witness :
  List.filter is_submission
    (trace (Delegate.delegate_extrinsic (fun b => b)
              (sample_delegate (Some (from_rao 5000))) sample_delegate_world))
  = [SignedAndSent
       (compose_call "SubtensorModule" "add_stake"
          [("hotkey", PString sample_hotkey); ("amount_staked", PInt 5000)])].
Proof.
  destruct (delegate_sends_amount_argument (fun b => b)
              (sample_delegate (Some (from_rao 5000))) sample_delegate_world
              (from_rao 5000)) as [_ Hsent].
  - reflexivity.
  - cbn. lia.
  - reflexivity.
  - exact Hsent.
Defined.

Lemma delegate_without_amount_never_submits_witness :
  submits (trace (Delegate.delegate_extrinsic (fun b => b)
                    (sample_delegate None) sample_delegate_world)) = false
  ∧ outcome (Delegate.delegate_extrinsic (fun b => b)
               (sample_delegate None) sample_delegate_world)
    = Raise AttributeError.
Proof.
  destruct (delegate_without_amount_never_submits (fun b => b)
              (sample_delegate None) sample_delegate_world eq_refl)
    as (Hsub & _ & Hout).
  split; [exact Hsub | exact Hout].
Defined.

Lemma undelegate_is_checked_against_coldkey_balance_witness :
  outcome (Delegate.delegate_extrinsic (fun b => b) sample_undelegate
             sample_delegate_world) = Ok false
  ∧ submits (trace (Delegate.delegate_extrinsic (fun b => b) sample_undelegate
                      sample_delegate_world)) = false.
Proof.
  destruct (undelegate_is_checked_against_coldkey_balance (fun b => b)
              sample_undelegate sample_delegate_world (from_rao 20000)
              eq_refl eq_refl) as [_ Hrefused].
  destruct Hrefused as (Hout & Hsub & _); [cbn; lia |].
  split; [exact Hout | exact Hsub].
Defined.

(** ** The weight view: rows, columns and sums *)

Section WeightsShape.
Import Weights.

Lemma step_dom (st : state) (uid : Z) (weights_data : list (Z * Z)) :
  dom (uid_to_weights (step st (uid, weights_data)))
  = {[uid]} ∪ dom (uid_to_weights st).
Proof.
  apply set_eq. intros uid'.
  rewrite elem_of_union, elem_of_singleton, !elem_of_dom.
  destruct (decide (uid = uid')) as [<- | Hne].
  - rewrite step_lookup. split; [left; reflexivity | eauto].
  - rewrite (step_lookup_other _ _ _ _ Hne).
    split; [auto | intros [Heq | Hin]; [congruence | exact Hin]].
Qed.

Lemma outer_loop_dom (weights : list matrix) :
  ∀ st, dom (uid_to_weights (foldl step st weights))
        = list_to_set weights.*1 ∪ dom (uid_to_weights st).
Proof.
  induction weights as [| [uid wd] weights IH]; intros st.
  - cbn. set_solver.
  - cbn [foldl]. rewrite IH, step_dom. cbn. set_solver.
Qed.

(** X13. The weight view has a row for every uid the chain returned and for
    no other: the uids of [uid_to_weights] are those of the weights read,
    whether their weight lists are empty or not. *)
Theorem get_weights_has_a_row_per_uid (weights : list matrix) :
  dom (uid_to_weights (get_weights weights)) = list_to_set weights.*1.
Proof.
  unfold get_weights. rewrite outer_loop_dom. cbn. set_solver.
Qed.

Lemma record_weight_netuids (uid : Z) (st : state) (p : (Z * Z) * Q) :
  netuids (record_weight uid st p) = {[p.1.1]} ∪ netuids st.
Proof. destruct p as [[netuid value] q]. reflexivity. Qed.

Lemma inner_loop_netuids (uid : Z) (entries : list ((Z * Z) * Q)) :
  ∀ st, netuids (foldl (record_weight uid) st entries)
        = list_to_set entries.*1.*1 ∪ netuids st.
Proof.
  induction entries as [| p entries IH]; intros st.
  - cbn. set_solver.
  - cbn [foldl]. rewrite IH, record_weight_netuids. cbn. set_solver.
Qed.

Lemma step_netuids (st : state) (uid : Z) (weights_data : list (Z * Z)) :
  netuids (step st (uid, weights_data))
  = list_to_set weights_data.*1 ∪ netuids st.
Proof.
  destruct weights_data as [| wd weights_data].
  - cbn. set_solver.
  - unfold step. cbn [length Nat.eqb].
    rewrite inner_loop_netuids, zip_normalize, paired_keys. reflexivity.
Qed.

Lemma outer_loop_netuids (weights : list matrix) :
  ∀ st (netuid : Z),
    netuid ∈ netuids (foldl step st weights)
    ↔ netuid ∈ netuids st
      ∨ ∃ uid weights_data value,
          (uid, weights_data) ∈ weights ∧ (netuid, value) ∈ weights_data.
Proof.
  induction weights as [| [uid wd] weights IH]; intros st netuid.
  - cbn. split; [auto |].
    intros [Hin | (u & l & v & Hin & _)]; [exact Hin | inversion Hin].
  - cbn [foldl]. rewrite IH, step_netuids, elem_of_union, elem_of_list_to_set.
    split.
    + intros [[Hrow | Hst] | (u & l & v & Hin & Hv)].
      * apply list_elem_of_fmap in Hrow as ([n v] & -> & Hv).
        right. exists uid, wd, v. split; [left | exact Hv].
      * left. exact Hst.
      * right. exists u, l, v. split; [right; exact Hin | exact Hv].
    + intros [Hst | (u & l & v & Hin & Hv)]; [left; right; exact Hst |].
      apply elem_of_cons in Hin as [[= -> ->] | Hin].
      * left. left. apply (list_elem_of_fmap_2 fst) in Hv. exact Hv.
      * right. exists u, l, v. split; [exact Hin | exact Hv].
Qed.

(** X14. The columns of the weight view are the netuids that occur in some
    row: a netuid is in [netuids] exactly when some uid has a weight tuple
    for it. *)
Theorem get_weights_has_a_column_per_netuid
    (weights : list matrix) (netuid : Z) :
  netuid ∈ netuids (get_weights weights)
  ↔ ∃ uid weights_data value,
      (uid, weights_data) ∈ weights ∧ (netuid, value) ∈ weights_data.
Proof.
  unfold get_weights. rewrite outer_loop_netuids. cbn.
  split; [intros [Hin | Hex]; [set_solver | exact Hex] | auto].
Qed.

End WeightsShape.

Section WeightsSums.
Import Weights.

Lemma sum_of_quotients (d : Z) (l : list (Z * Z)) :
  (foldr Qplus 0 (map (fun wd => inject_Z wd.2 / inject_Z d) l)
   == inject_Z (sum_values l) / inject_Z d)%Q.
Proof.
  induction l as [| wd l IH]; cbn.
  - unfold Qdiv. rewrite Qmult_0_l. reflexivity.
  - rewrite IH, inject_Z_plus. unfold Qdiv.
    rewrite Qmult_plus_distr_l. reflexivity.
Qed.

Lemma sum_values_nonneg (l : list (Z * Z)) :
  (∀ p, p ∈ l → 0 ≤ p.2) → 0 ≤ sum_values l.
Proof.
  induction l as [| p l IH]; intros Hpos; [cbn; lia |].
  change (sum_values (p :: l)) with (p.2 + sum_values l).
  assert (0 ≤ p.2) by (apply Hpos; left).
  assert (0 ≤ sum_values l); [| lia].
  apply IH. intros p0 Hp0. apply Hpos. right. exact Hp0.
Qed.

Lemma value_le_sum (l : list (Z * Z)) (wd : Z * Z) :
  (∀ p, p ∈ l → 0 ≤ p.2) → wd ∈ l → wd.2 ≤ sum_values l.
Proof.
  induction l as [| p l IH]; intros Hpos Hin; [inversion Hin |].
  change (sum_values (p :: l)) with (p.2 + sum_values l).
  assert (Hp : 0 ≤ p.2) by (apply Hpos; left).
  assert (Hrest : ∀ p0, p0 ∈ l → 0 ≤ p0.2)
    by (intros p0 Hp0; apply Hpos; right; exact Hp0).
  pose proof (sum_values_nonneg l Hrest) as Hsum.
  apply elem_of_cons in Hin as [-> | Hin]; [lia |].
  pose proof (IH Hrest Hin). lia.
Qed.

(** X15. For a row whose values sum to at least 1, the normalized weights
    the view computes add up to exactly one (100%), and when no value is
    negative each of them lies between 0 and 1. *)
Theorem normalized_weights_sum_to_one (weights_data : list (Z * Z)) :
  1 ≤ sum_values weights_data →
  (foldr Qplus 0 (normalize weights_data) == 1)%Q
  ∧ ((∀ p, p ∈ weights_data → 0 ≤ p.2) →
     ∀ q, q ∈ normalize weights_data → (0 <= q)%Q ∧ (q <= 1)%Q).
Proof.
  intros Hsum. unfold normalize.
  rewrite Z.max_l by lia.
  assert (Hd : (0 < inject_Z (sum_values weights_data))%Q).
  { change 0%Q with (inject_Z 0). rewrite <- Zlt_Qlt. lia. }
  split.
  - rewrite sum_of_quotients. apply Qmult_inv_r.
    intros Hzero. rewrite Hzero in Hd. discriminate.
  - intros Hpos q Hq. apply list_elem_of_In, in_map_iff in Hq as (wd & <- & Hwd).
    apply list_elem_of_In in Hwd. split.
    + apply Qle_shift_div_l; [exact Hd |]. rewrite Qmult_0_l.
      change 0%Q with (inject_Z 0). rewrite <- Zle_Qle. apply Hpos, Hwd.
    + apply Qle_shift_div_r; [exact Hd |]. rewrite Qmult_1_l.
      rewrite <- Zle_Qle. apply value_le_sum; assumption.
Qed.

End WeightsSums.

Lemma normalized_weights_sum_to_one_witness :
  (foldr Qplus 0 (Weights.normalize [(1%Z, 3%Z); (2%Z, 1%Z)]) == 1)%Q.
Proof.
  destruct (normalized_weights_sum_to_one [(1, 3); (2, 1)]) as [Hsum _].
  - cbn. lia.
  - exact Hsum.
Defined.

(** ** [u16_normalized_float] *)

(** X16. [u16_normalized_float] maps the u16 range into the unit interval
    and keeps the order: for 0 <= x < y <= 65535 it gives
    0 <= f(x) < f(y) <= 1. *)
Theorem u16_normalized_float_in_unit_interval (x y : Z) :
  0 ≤ x → x < y → y ≤ U16_MAX →
  (0 <= u16_normalized_float x)%Q
  ∧ (u16_normalized_float x < u16_normalized_float y)%Q
  ∧ (u16_normalized_float y <= 1)%Q.
Proof.
  intros Hx Hxy Hy. unfold u16_normalized_float.
  assert (Hd : (0 < inject_Z U16_MAX)%Q) by reflexivity.
  split; [| split].
  - apply Qle_shift_div_l; [exact Hd |]. rewrite Qmult_0_l.
    change 0%Q with (inject_Z 0). rewrite <- Zle_Qle. exact Hx.
  - unfold Qdiv. apply Qmult_lt_compat_r; [reflexivity |].
    rewrite <- Zlt_Qlt. exact Hxy.
  - apply Qle_shift_div_r; [exact Hd |]. rewrite Qmult_1_l.
    rewrite <- Zle_Qle. exact Hy.
Qed.

Lemma u16_normalized_float_in_unit_interval_witness :
  (0 <= u16_normalized_float 6553)%Q
  ∧ (u16_normalized_float 6553 < u16_normalized_float 65535)%Q
  ∧ (u16_normalized_float 65535 <= 1)%Q.
Proof.
  apply (u16_normalized_float_in_unit_interval 6553 65535);
    [lia | lia | unfold U16_MAX; lia].
Defined.

(** ** The commands around the flows *)

Section Commands.

(** X17. The [set_take] command never composes or submits an extrinsic,
    because it does not await [set_take_extrinsic]. It returns True exactly
    when the hotkey is a delegate, the take is not above 0.18 and the hotkey
    is still a delegate at the final check. *)
Theorem set_take_command_sends_nothing (take : Q) (w : TakeCommand.World) :
  composes (trace (TakeCommand.set_take take w)) = false
  ∧ submits (trace (TakeCommand.set_take take w)) = false
  ∧ (outcome (TakeCommand.set_take take w) = Ok true
       ↔ TakeCommand.is_delegate w = true
         ∧ (take <= TakeCommand.TAKE_CEILING)%Q
         ∧ TakeCommand.is_delegate_afterwards w = true)
  ∧ (∃ b, outcome (TakeCommand.set_take take w) = Ok b).
Proof.
  unfold TakeCommand.set_take, TakeCommand._do_set_take.
  rewrite <- Qle_bool_iff.
  destruct (TakeCommand.is_delegate w), (Qle_bool take TakeCommand.TAKE_CEILING),
    (TakeCommand.is_delegate_afterwards w); cbn;
    (split; [reflexivity |]); (split; [reflexivity |]);
    (split; [| eexists; reflexivity]);
    (split; [try discriminate; intros _; repeat split
            | try reflexivity; intros (? & ? & ?); discriminate]).
Qed.

(** X18. The [register] command gives up with False before asking anything
    when the subnet does not exist, when the burn or the balance cannot be
    read, or when the balance is below the burn; nothing is composed. *)
Theorem register_gives_up_before_asking
    (hotkey : string) (netuid : Z) (w : RegisterCommand.World) :
  RegisterCommand.subnet_exists w = false
  ∨ RegisterCommand.recycle_call w = None
  ∨ RegisterCommand.balance_of_coldkey w = None
  ∨ (∃ recycle balance,
       RegisterCommand.recycle_call w = Some recycle
       ∧ RegisterCommand.balance_of_coldkey w = Some balance
       ∧ rao balance < recycle) →
  outcome (RegisterCommand.register hotkey netuid w) = Ok (Some false)
  ∧ prompts (trace (RegisterCommand.register hotkey netuid w)) = false
  ∧ composes (trace (RegisterCommand.register hotkey netuid w)) = false.
Proof.
  unfold RegisterCommand.register.
  destruct (RegisterCommand.subnet_exists w);
    cbn -[Register.burned_register_extrinsic]; [| auto].
  destruct (RegisterCommand.recycle_call w) as [recycle |];
    cbn -[Register.burned_register_extrinsic]; [| auto].
  destruct (RegisterCommand.balance_of_coldkey w) as [balance |];
    cbn -[Register.burned_register_extrinsic]; [| auto].
  intros [H | [H | [H | (r & b & [= <-] & [= <-] & Hlt)]]]; try discriminate.
  unfold Balance_lt. cbn -[Register.burned_register_extrinsic].
  apply Z.ltb_lt in Hlt. rewrite Hlt. cbn. auto.
Qed.

(** X19. The [register] command never submits an extrinsic and never returns
    True. With the burn covered and both confirmations given, a hotkey that
    has no neuron yet ends the command with TypeError right after the call
    is composed. *)
Theorem register_command_never_submits
    (hotkey : string) (netuid : Z) (w : RegisterCommand.World) :
  submits (trace (RegisterCommand.register hotkey netuid w)) = false
  ∧ outcome (RegisterCommand.register hotkey netuid w) ≠ Ok (Some true)
  ∧ (∀ recycle balance,
       RegisterCommand.subnet_exists w = true →
       RegisterCommand.recycle_call w = Some recycle →
       RegisterCommand.balance_of_coldkey w = Some balance →
       recycle ≤ rao balance →
       RegisterCommand.confirmed w = true →
       Register.neuron_is_null (RegisterCommand.extrinsic_world w) = true →
       Register.confirmed (RegisterCommand.extrinsic_world w) = true →
       outcome (RegisterCommand.register hotkey netuid w) = Raise TypeError
       ∧ composes (trace (RegisterCommand.register hotkey netuid w)) = true).
Proof.
  unfold RegisterCommand.register, Register.burned_register_extrinsic.
  destruct (RegisterCommand.subnet_exists w); cbn.
  2: { split; [reflexivity |]. split; [discriminate |].
       intros ? ? [=]. }
  destruct (RegisterCommand.recycle_call w) as [recycle |]; cbn.
  2: { split; [reflexivity |]. split; [discriminate |].
       intros ? ? _ [=]. }
  destruct (RegisterCommand.balance_of_coldkey w) as [balance |]; cbn.
  2: { split; [reflexivity |]. split; [discriminate |].
       intros ? ? _ _ [=]. }
  unfold Balance_lt. cbn.
  destruct (rao balance <? recycle) eqn:Hcmp; cbn.
  { split; [reflexivity |]. split; [discriminate |].
    intros r b _ [= <-] [= <-] Hle. apply Z.ltb_lt in Hcmp. lia. }
  destruct (RegisterCommand.confirmed w); cbn.
  2: { split; [reflexivity |]. split; [discriminate |].
       intros ? ? _ _ _ _ [=]. }
  destruct (Register.neuron_is_null (RegisterCommand.extrinsic_world w)); cbn.
  2: { split; [reflexivity |]. split; [discriminate |].
       intros ? ? _ _ _ _ _ [=]. }
  destruct (Register.confirmed (RegisterCommand.extrinsic_world w)); cbn.
  2: { split; [reflexivity |]. split; [discriminate |].
       intros ? ? _ _ _ _ _ _ [=]. }
  split; [reflexivity |]. split; [discriminate |].
  intros ? ? _ _ _ _ _ _ _. split; reflexivity.
Qed.

(** X20. [nominate] announces success without checking it on chain: the
    success message is printed exactly when the hotkey was not a delegate
    before and the send reported success, and from the send to the
    identity question nothing is read from the chain, the second
    [is_hotkey_delegate] not being awaited. [set_id_prompts] and [set_id]
    run after that question and only when it is answered yes; whatever
    they do, the run ends as they end. A run that does not announce
    success reads nothing after sending, asks no question and returns;
    a hotkey that is already a delegate sends nothing. *)
Theorem nominate_announces_without_checking
    {Prompts Identity : Type} (set_id_prompts : Flow Prompts)
    (set_id : Prompts → Flow Identity) (hotkey : string)
    (w : Nominate.World) :
  let run := Nominate.nominate set_id_prompts set_id hotkey w in
  let set_identity : Flow unit :=
    id_prompts ← set_id_prompts; set_id id_prompts;; mret () in
  let call := Nominate.nominate_call hotkey in
  (Print "Successfully became a delegate" [] ∈ trace run
     ↔ Nominate.already_delegate w = false ∧ Nominate.send_success w = true)
  ∧ (Nominate.already_delegate w = false → Nominate.send_success w = true →
       run = ([UnlockHotkey; UnlockColdkey; ChainRead "is_hotkey_delegate";
               Composed call; SignedAndSent call; Print "Finalized" [];
               Print "Successfully became a delegate" [];
               ConfirmAsk "Subnetwork registered successfully. Would you like to set your identity? [y/n]" []]
              ++ trace (if Nominate.do_set_identity w
                        then set_identity else skip),
              outcome (if Nominate.do_set_identity w
                       then set_identity else skip)))
  ∧ (Nominate.already_delegate w = true ∨ Nominate.send_success w = false →
       existsb is_chain_read (after_submission (trace run)) = false
       ∧ prompts (trace run) = false
       ∧ outcome run = Ok ())
  ∧ (Nominate.already_delegate w = true → submits (trace run) = false).
Proof.
  cbn zeta. unfold Nominate.nominate, Nominate.nominate_extrinsic.
  destruct (Nominate.already_delegate w), (Nominate.send_success w).
  1, 2, 4: cbn; split;
    [split;
       [intros Hin; exfalso; apply list_elem_of_In in Hin; cbn in Hin;
        repeat (destruct Hin as [Hin | Hin]; [discriminate Hin |]);
        exact Hin
       | intros [? ?]; discriminate]
    |];
    (split; [intros ? ?; discriminate |]);
    (split; [intros _; repeat split | intros; try reflexivity; discriminate]).
  unfold skip.
  destruct (if Nominate.do_set_identity w then _ else _) as [t r]. cbn.
  split; [| split; [| split]].
  - split; [intros _; split; reflexivity |]. intros _.
    apply list_elem_of_In. cbn. auto 10.
  - intros _ _. reflexivity.
  - intros [[=] | [=]].
  - intros [=].
Qed.

End Commands.

Lemma set_take_command_sends_nothing_witness :
  outcome (TakeCommand.set_take (15 # 100) sample_take_command_world) = Ok true
  ∧ composes (trace (TakeCommand.set_take (15 # 100) sample_take_command_world))
    = false.
Proof.
  destruct (set_take_command_sends_nothing (15 # 100) sample_take_command_world)
    as (Hc & _ & Hiff & _).
  split; [| exact Hc].
  apply Hiff. repeat split. discriminate.
Defined.

Lemma register_gives_up_before_asking_witness :
  outcome (RegisterCommand.register sample_hotkey 1 sample_register_command_poor)
  = Ok (Some false).
Proof.
  destruct (register_gives_up_before_asking sample_hotkey 1
              sample_register_command_poor) as (Hout & _).
  - right. right. right. exists 1000000000, (from_rao 500000000).
    repeat split.
  - exact Hout.
Defined.

Lemma register_command_never_submits_witness :
  outcome (RegisterCommand.register sample_hotkey 1 sample_register_command_world)
  = Raise TypeError.
Proof.
  destruct (register_command_never_submits sample_hotkey 1
              sample_register_command_world) as (_ & _ & Hraise).
  assert (Hle : 1000000000 ≤ rao (from_rao 5000000000)) by (cbn; lia).
  exact (proj1 (Hraise 1000000000 (from_rao 5000000000)
                  eq_refl eq_refl eq_refl Hle eq_refl eq_refl eq_refl)).
Defined.

Lemma nominate_announces_without_checking_witness :
  trace (Nominate.nominate sample_set_id_prompts sample_set_id sample_hotkey
           sample_nominate_world_identity)
  = [UnlockHotkey; UnlockColdkey; ChainRead "is_hotkey_delegate";
     Composed (Nominate.nominate_call sample_hotkey);
     SignedAndSent (Nominate.nominate_call sample_hotkey);
     Print "Finalized" [];
     Print "Successfully became a delegate" [];
     ConfirmAsk "Subnetwork registered successfully. Would you like to set your identity? [y/n]" [];
     ConfirmAsk "Display name" [];
     ChainRead "Registry.IdentityOf";
     Composed (compose_call "Registry" "set_identity"
                 [("display", PString "Validator One")]);
     SignedAndSent (compose_call "Registry" "set_identity"
                      [("display", PString "Validator One")])].
Proof.
  destruct (nominate_announces_without_checking sample_set_id_prompts
              sample_set_id sample_hotkey sample_nominate_world_identity)
    as (_ & Hrun & _).
  rewrite (Hrun eq_refl eq_refl). reflexivity.
Defined.

(** Without the wish to set an identity the run ends at the question. *)
Example nominate_run :
  Nominate.nominate sample_set_id_prompts sample_set_id sample_hotkey
    sample_nominate_world
  = ([UnlockHotkey; UnlockColdkey; ChainRead "is_hotkey_delegate";
      Composed (Nominate.nominate_call sample_hotkey);
      SignedAndSent (Nominate.nominate_call sample_hotkey);
      Print "Finalized" [];
      Print "Successfully became a delegate" [];
      ConfirmAsk "Subnetwork registered successfully. Would you like to set your identity? [y/n]" []],
     Ok ()).
Proof. reflexivity. Qed.

(** ** The delegate list: the change of stake *)

Section DelegateListFacts.
Import DelegateList.

Lemma tao_lt (a b : Balance) : rao a < rao b → (tao a < tao b)%Q.
Proof.
  intros Hlt. unfold tao, Qdiv. apply Qmult_lt_compat_r; [reflexivity |].
  rewrite <- Zlt_Qlt. exact Hlt.
Qed.

(** X21. For a delegate that was in the earlier list with stake [prev_stake]
    (not negative), the CHANGE cell is "100%" exactly when the earlier stake
    was zero, whatever the stake is now; otherwise it is green when the
    stake has grown, red when it has shrunk and "0%" when it is the same.
    The division by the earlier stake is never a division by zero. *)
Theorem rate_change_follows_stake (total_stake prev_stake : Balance) :
  0 ≤ rao prev_stake →
  match rate_change_in_stake total_stake (Some prev_stake) with
  | NA => False
  | Hundred => rao prev_stake = 0
  | Up _ => 0 < rao prev_stake ∧ rao prev_stake < rao total_stake
  | Down _ => 0 < rao prev_stake ∧ rao total_stake < rao prev_stake
  | Unchanged => 0 < rao prev_stake ∧ rao total_stake = rao prev_stake
  end.
Proof.
  intros Hnonneg. unfold rate_change_in_stake.
  destruct (rao prev_stake =? 0) eqn:Hz; [apply Z.eqb_eq, Hz |].
  apply Z.eqb_neq in Hz.
  assert (Hpos : 0 < rao prev_stake) by lia.
  assert (Hc : (0 < tao prev_stake)%Q).
  { unfold tao. apply Qlt_shift_div_l; [reflexivity |]. rewrite Qmult_0_l.
    change 0%Q with (inject_Z 0). rewrite <- Zlt_Qlt. exact Hpos. }
  set (rate := (inject_Z 100 * (tao total_stake - tao prev_stake)
                / tao prev_stake)%Q).
  destruct (Z.lt_trichotomy (rao total_stake) (rao prev_stake))
    as [Hlt | [Heq | Hgt]].
  - assert (Hrate : (rate < 0)%Q).
    { apply Qlt_shift_div_r; [exact Hc |]. apply tao_lt in Hlt.
      change (inject_Z 100) with 100%Q. lra. }
    destruct (Qle_bool rate 0) eqn:H1; cbn.
    + destruct (Qle_bool 0 rate) eqn:H2; cbn; [| split; assumption].
      apply Qle_bool_iff in H2. lra.
    + assert (rate <= 0)%Q as Hle by lra.
      apply Qle_bool_iff in Hle. congruence.
  - assert (Htao : tao total_stake = tao prev_stake)
      by (unfold tao; rewrite Heq; reflexivity).
    assert (Hle : (rate <= 0)%Q).
    { apply Qle_shift_div_r; [exact Hc |]. rewrite Htao.
      change (inject_Z 100) with 100%Q. lra. }
    assert (Hge : (0 <= rate)%Q).
    { apply Qle_shift_div_l; [exact Hc |]. rewrite Htao.
      change (inject_Z 100) with 100%Q. lra. }
    apply Qle_bool_iff in Hle, Hge. rewrite Hle, Hge. cbn.
    split; assumption.
  - assert (Hrate : (0 < rate)%Q).
    { apply Qlt_shift_div_l; [exact Hc |]. apply tao_lt in Hgt.
      change (inject_Z 100) with 100%Q. lra. }
    destruct (Qle_bool rate 0) eqn:H1; cbn; [| split; assumption].
    apply Qle_bool_iff in H1. lra.
Qed.

(** X22. A delegate that is not in the earlier list, or any delegate when
    the earlier list could not be fetched, gets "NA"; for a hotkey listed
    more than once in the earlier list, the last entry is the one
    compared with. *)
Theorem change_cell_uses_the_history
    (before after : list (string * Balance)) (hotkey : string)
    (prev_stake total_stake : Balance) :
  hotkey ∉ after.*1 →
  change_cell None hotkey total_stake = NA
  ∧ change_cell (Some after) hotkey total_stake = NA
  ∧ change_cell (Some (before ++ (hotkey, prev_stake) :: after))
      hotkey total_stake
    = rate_change_in_stake total_stake (Some prev_stake).
Proof.
  intros Hnot.
  assert (Hfresh : ∀ (l : list (string * Balance)) (d : gmap string Balance),
    hotkey ∉ l.*1 →
    foldl (fun d p => <[p.1 := p.2]> d) d l !! hotkey = d !! hotkey).
  { induction l as [| [h b] l IH]; intros d Hl; [reflexivity |].
    cbn in Hl. apply not_elem_of_cons in Hl as [Hne Hl].
    cbn. rewrite IH by exact Hl. apply lookup_insert_ne. congruence. }
  split; [reflexivity |]. split.
  - unfold change_cell, prev_delegates_dict.
    rewrite Hfresh by exact Hnot. reflexivity.
  - unfold change_cell, prev_delegates_dict.
    rewrite foldl_app. cbn [foldl]. rewrite Hfresh by exact Hnot.
    cbn. rewrite lookup_insert_eq. reflexivity.
Qed.

End DelegateListFacts.

Lemma rate_change_follows_stake_witness :
  0 < rao (from_rao 100) ∧ rao (from_rao 100) < rao (from_rao 150).
Proof.
  assert (Hnonneg : 0 ≤ rao (from_rao 100)) by (cbn; lia).
  exact (rate_change_follows_stake (from_rao 150) (from_rao 100) Hnonneg).
Defined.

Lemma change_cell_uses_the_history_witness :
  DelegateList.change_cell
    (Some [(sample_hotkey, from_rao 50); (sample_hotkey, from_rao 100)])
    sample_hotkey (from_rao 150)
  = DelegateList.rate_change_in_stake (from_rao 150) (Some (from_rao 100)).
Proof.
  destruct (change_cell_uses_the_history [(sample_hotkey, from_rao 50)] []
              sample_hotkey (from_rao 100) (from_rao 150)) as (_ & _ & Hlast).
  - cbn. intros Hin. inversion Hin.
  - exact Hlast.
Defined.

(** ** Boosting and slashing root weights *)

Section RootWeightsFacts.
Import RootWeights.


Lemma position_out_of_range (len : nat) (netuid : Z) :
  position len netuid = None ↔
  netuid < - Z.of_nat len ∨ Z.of_nat len ≤ netuid.
Proof.
  unfold position.
  destruct (0 <=? netuid) eqn:H0, (netuid <? Z.of_nat len) eqn:H1,
    (- Z.of_nat len <=? netuid) eqn:H2, (netuid <? 0) eqn:H3; cbn;
    rewrite ?Z.leb_le, ?Z.leb_gt, ?Z.ltb_lt, ?Z.ltb_ge in *;
    split; first [discriminate | lia | reflexivity | intros _; lia].
Qed.

(** X23. [set_slash] never hands a negative weight on: after the slash every
    weight is at least 0, there are as many weights as before, numbered
    0, 1, ..., and a weight other than the slashed one that was not
    negative is unchanged. A netuid outside the array, counting from either
    end, is an IndexError. *)
Theorem set_slash_leaves_no_negative_weight
    (my_weights : list Q) (netuid : Z) (amount : Q) :
  match set_slash my_weights netuid amount with
  | Ok (all_netuids, weights) =>
      all_netuids = arange (length my_weights)
      ∧ length weights = length my_weights
      ∧ (∀ q, q ∈ weights → (0 <= q)%Q)
      ∧ ∃ i, position (length my_weights) netuid = Some i
             ∧ ∀ j x, j ≠ i → my_weights !! j = Some x → (0 <= x)%Q →
                      weights !! j = Some x
  | Raise e =>
      e = IndexError
      ∧ (netuid < - Z.of_nat (length my_weights)
         ∨ Z.of_nat (length my_weights) ≤ netuid)
  end.
Proof.
  unfold set_slash.
  destruct (position (length my_weights) netuid) as [i |] eqn:Hpos.
  - rewrite length_fmap, length_alter.
    split; [reflexivity |]. split; [reflexivity |]. split.
    + intros q Hq. apply list_elem_of_fmap in Hq as (x & -> & _).
      destruct (Qle_bool 0 x) eqn:Hx; [apply Qle_bool_iff, Hx | apply Qle_refl].
    + exists i. split; [reflexivity |]. intros j x Hne Hj Hx.
      rewrite list_lookup_fmap, list_lookup_alter_ne by congruence.
      rewrite Hj. cbn. apply Qle_bool_iff in Hx. rewrite Hx. reflexivity.
  - split; [reflexivity |]. apply position_out_of_range, Hpos.
Qed.


End RootWeightsFacts.

(** A slash of the last weight, counted from the end, below zero. *)
Example set_slash_clamps_at_zero :
  RootWeights.set_slash [1 # 2; 1 # 4; 1 # 4]%Q (-1) (1 # 2)
  = Ok ([0; 1; 2], [1 # 2; 1 # 4; 0]%Q).
Proof. reflexivity. Qed.

(** ** The proposals view *)

Section ProposalsFacts.
Import Proposals.

Section Dict.
Context {V : Type}.
Implicit Types (d items : list (string * V)).

Lemma dict_set_keys k v d (k' : string) :
  k' ∈ (dict_set k v d).*1 ↔ k' = k ∨ k' ∈ d.*1.
Proof.
  induction d as [| [k0 v0] d IH]; cbn.
  - rewrite list_elem_of_singleton. split; [auto | intros [-> | H]; [done |]].
    inversion H.
  - destruct (decide (k = k0)) as [-> | Hne]; cbn.
    + rewrite !elem_of_cons. tauto.
    + rewrite !elem_of_cons, IH. tauto.
Qed.

Lemma dict_set_values (g : string → V) k d :
  (∀ p, p ∈ d → p.2 = g p.1) →
  ∀ p, p ∈ dict_set k (g k) d → p.2 = g p.1.
Proof.
  induction d as [| [k0 v0] d IH]; cbn; intros Hd p Hp.
  - apply list_elem_of_singleton in Hp as ->. reflexivity.
  - destruct (decide (k = k0)) as [-> | Hne].
    + apply elem_of_cons in Hp as [-> | Hp]; [reflexivity |].
      apply Hd. right. exact Hp.
    + apply elem_of_cons in Hp as [-> | Hp]; [apply Hd; left |].
      apply IH; [| exact Hp]. intros p0 Hp0. apply Hd. right. exact Hp0.
Qed.

Lemma dict_set_fresh k v d : k ∉ d.*1 → dict_set k v d = d ++ [(k, v)].
Proof.
  induction d as [| [k0 v0] d IH]; cbn; intros Hnot; [reflexivity |].
  apply not_elem_of_cons in Hnot as [Hne Hnot].
  destruct (decide (k = k0)); [congruence |]. rewrite IH by exact Hnot.
  reflexivity.
Qed.

Lemma dict_fold_keys items :
  ∀ d (k : string),
    k ∈ (foldl (fun d p => dict_set p.1 p.2 d) d items).*1
    ↔ k ∈ d.*1 ∨ k ∈ items.*1.
Proof.
  induction items as [| [k0 v0] items IH]; intros d k; cbn.
  - split; [auto | intros [H | H]; [exact H | inversion H]].
  - rewrite IH, dict_set_keys, elem_of_cons. tauto.
Qed.

Lemma dict_fold_values (g : string → V) (hs : list string) :
  ∀ d, (∀ p, p ∈ d → p.2 = g p.1) →
    ∀ p, p ∈ foldl (fun d p => dict_set p.1 p.2 d) d
               ((fun h => (h, g h)) <$> hs) →
         p.2 = g p.1.
Proof.
  induction hs as [| h hs IH]; intros d Hd p Hp; cbn in Hp; [auto |].
  apply (IH (dict_set h (g h) d)); [| exact Hp].
  apply dict_set_values, Hd.
Qed.

(** A dict built from its keys holds one item per key. *)
Lemma dict_of_keys_elem (g : string → V) (hs : list string) (p : string * V) :
  p ∈ dict_of ((fun h => (h, g h)) <$> hs) ↔ p.1 ∈ hs ∧ p.2 = g p.1.
Proof.
  unfold dict_of. split.
  - intros Hp. split.
    + apply (list_elem_of_fmap_2 fst) in Hp.
      apply dict_fold_keys in Hp as [Hp | Hp]; [inversion Hp |].
      rewrite <- list_fmap_compose in Hp.
      apply list_elem_of_fmap in Hp as (h & -> & Hh). exact Hh.
    + apply (dict_fold_values g hs []); [| exact Hp].
      intros p0 Hp0. inversion Hp0.
  - intros [Hkey Hval].
    assert (Hin : p.1 ∈ (foldl (fun d p => dict_set p.1 p.2 d) []
                           ((fun h => (h, g h)) <$> hs)).*1).
    { apply dict_fold_keys. right. rewrite <- list_fmap_compose.
      apply list_elem_of_fmap. exists p.1. split; [reflexivity | exact Hkey]. }
    apply list_elem_of_fmap in Hin as (p' & Hfst & Hp').
    assert (Hval' : p'.2 = g p'.1).
    { apply (dict_fold_values g hs []); [| exact Hp'].
      intros p0 Hp0. inversion Hp0. }
    destruct p as [k v], p' as [k' v']. cbn in *. subst. exact Hp'.
Qed.

Lemma dict_of_distinct items : NoDup items.*1 → dict_of items = items.
Proof.
  unfold dict_of.
  assert (Hgen : ∀ d, NoDup (d.*1 ++ items.*1) →
    foldl (fun d p => dict_set p.1 p.2 d) d items = d ++ items).
  { induction items as [| [k v] items IH]; intros d Hnodup; cbn.
    - rewrite app_nil_r. reflexivity.
    - cbn in Hnodup. apply NoDup_app in Hnodup as (Hd & Hdisj & Hitems).
      apply NoDup_cons in Hitems as [Hk Hitems].
      rewrite dict_set_fresh by (intros Hin; apply (Hdisj k Hin); left).
      rewrite IH; [rewrite <- app_assoc; reflexivity |].
      rewrite fmap_app. cbn. rewrite <- app_assoc. cbn.
      apply NoDup_app. split; [exact Hd |]. split.
      + intros x Hx Hin. exact (Hdisj x Hx Hin).
      + apply NoDup_cons. split; assumption. }
  intros Hnodup. apply (Hgen []). exact Hnodup.
Qed.

End Dict.

Lemma add_rows_ok (w : World) ps :
  (∃ rs, add_rows w ps = Ok rs) ↔ ∀ p, p ∈ ps → ∃ r, add_row w p = Ok r.
Proof.
  induction ps as [| p ps IH]; cbn.
  - split; [intros _ p Hp; inversion Hp | eauto].
  - destruct (add_row w p) as [r | e] eqn:Hr; cbn.
    + destruct (add_rows w ps) as [rs | e] eqn:Hrs; cbn.
      * split; [| eauto]. intros _ p0 Hp0.
        apply elem_of_cons in Hp0 as [-> | Hp0]; [eauto |].
        apply (proj1 IH); eauto.
      * split; [intros [rs [=]] |]. intros Hall.
        destruct (proj2 IH) as [rs [=]].
        intros p0 Hp0. apply Hall. right. exact Hp0.
    + split; [intros [rs [=]] |]. intros Hall.
      destruct (Hall p) as [r Hok]; [left |]. congruence.
Qed.

Lemma add_row_raises (w : World) p e : add_row w p = Raise e → e = TypeError.
Proof.
  destruct p as [h [[[f args] |] [vd |]]]; cbn; intros [=]; congruence.
Qed.

Lemma add_rows_raises (w : World) ps e :
  add_rows w ps = Raise e → e = TypeError.
Proof.
  induction ps as [| p ps IH]; cbn; [discriminate |].
  destruct (add_row w p) as [r | e0] eqn:Hr; cbn.
  - destruct (add_rows w ps) as [rs | e1]; cbn; [discriminate |].
    intros [= <-]. apply IH. reflexivity.
  - intros [= <-]. apply (add_row_raises w p). exact Hr.
Qed.

(** X25. The proposals view prints its table exactly when the senate
    members and the list of proposal hashes can be read and every proposal
    in the list has both its call and its vote data; in every other case it
    ends with TypeError, and never with another exception. *)
Theorem proposals_needs_every_piece (w : World) :
  ((∃ t, proposals w = Ok t)
   ↔ is_Some (members w)
     ∧ ∃ hashes, proposal_hashes w = Some hashes
                 ∧ ∀ h, h ∈ hashes →
                        is_Some (call_data_of w h) ∧ is_Some (vote_data_of w h))
  ∧ (∀ e, proposals w = Raise e → e = TypeError).
Proof.
  unfold proposals, _get_senate_members, _get_proposals.
  destruct (members w) as [senate |]; cbn.
  2: { split; [| intros e [= <-]; reflexivity].
       split; [intros [t [=]] | intros [[l [=]] _]]. }
  destruct (proposal_hashes w) as [hashes |]; cbn.
  2: { split; [| intros e [= <-]; reflexivity].
       split; [intros [t [=]] | intros [_ (hs & [=] & _)]]. }
  set (g := fun h => (call_data_of w h, vote_data_of w h)).
  change (dict_of ((fun h => (h, (call_data_of w h, vote_data_of w h)))
                   <$> hashes))
    with (dict_of ((fun h => (h, g h)) <$> hashes)).
  assert (Hrows : (∃ rs, add_rows w (dict_of ((fun h => (h, g h)) <$> hashes))
                         = Ok rs)
                  ↔ ∀ h, h ∈ hashes →
                         is_Some (call_data_of w h) ∧ is_Some (vote_data_of w h)).
  { rewrite add_rows_ok. split.
    - intros Hall h Hh.
      destruct (Hall (h, g h)) as [r Hr];
        [apply dict_of_keys_elem; split; [exact Hh | reflexivity] |].
      unfold g in Hr. cbn in Hr.
      destruct (vote_data_of w h); [| discriminate].
      destruct (call_data_of w h) as [[f args] |]; [| discriminate].
      split; eauto.
    - intros Hall [h [cd vd]] Hp.
      apply dict_of_keys_elem in Hp as [Hh Hval]. cbn in Hh, Hval.
      injection Hval as -> ->.
      destruct (Hall h Hh) as [[[f args] ->] [vd' ->]]. cbn. eauto. }
  destruct (add_rows w (dict_of ((fun h => (h, g h)) <$> hashes)))
    as [rs | e] eqn:Hadd; cbn.
  - split; [| discriminate].
    split; [| eauto]. intros _. split; [eauto |].
    exists hashes. split; [reflexivity |]. apply Hrows. eauto.
  - split; [| intros e0 [= <-]; exact (add_rows_raises _ _ _ Hadd)].
    split; [intros [t [=]] |]. intros [_ (hs & [= <-] & Hall)].
    apply Hrows in Hall as [rs [=]].
Qed.

Lemma add_rows_hashes (w : World) ps rs :
  add_rows w ps = Ok rs → hash_ <$> rs = ps.*1.
Proof.
  revert rs. induction ps as [| [h [cd vd]] ps IH]; intros rs; cbn.
  - intros [= <-]. reflexivity.
  - destruct vd as [vd |]; [| discriminate].
    destruct cd as [[f args] |]; [| discriminate]. cbn.
    destruct (add_rows w ps) as [rs' |]; [| discriminate]. cbn.
    intros [= <-]. cbn. f_equal. apply IH. reflexivity.
Qed.

Lemma add_rows_counts (w : World) ps rs :
  add_rows w ps = Ok rs →
  ∀ r, r ∈ rs →
    ∃ vd, (∃ cd, (hash_ r, (cd, Some vd)) ∈ ps)
          ∧ ayes_cell r = length (Senate.ayes vd)
          ∧ nays_cell r = length (Senate.nays vd)
          ∧ votes_cell r = display_votes vd (registered_delegate_info w).
Proof.
  revert rs. induction ps as [| [h [cd vd]] ps IH]; intros rs; cbn.
  - intros [= <-] r Hr. inversion Hr.
  - destruct vd as [vd |]; [| discriminate].
    destruct cd as [[f args] |]; [| discriminate]. cbn.
    destruct (add_rows w ps) as [rs' |]; [| discriminate]. cbn.
    intros [= <-] r Hr. apply elem_of_cons in Hr as [-> | Hr].
    + exists vd. cbn. split; [eexists; left |]. auto.
    + destruct (IH rs' eq_refl r Hr) as (vd' & (cd' & Hin) & Hrest).
      exists vd'. split; [exists cd'; right; exact Hin | exact Hrest].
Qed.

(** X26. When the table is printed for hashes that are all different, it
    has one row per hash, in the order of the hashes, the title counts the
    hashes and the senate members, and in every row the AYES and NAYS cells
    are the lengths of the ayes and nays of that proposal's vote data. *)
Theorem proposals_has_a_row_per_hash (w : World) (t : table)
    (hashes senate : list string) :
  proposal_hashes w = Some hashes →
  members w = Some senate →
  NoDup hashes →
  proposals w = Ok t →
  hash_ <$> rows t = hashes
  ∧ active_proposals t = length hashes
  ∧ senate_size t = length senate
  ∧ ∀ r, r ∈ rows t →
      ∃ vd, vote_data_of w (hash_ r) = Some vd
            ∧ ayes_cell r = length (Senate.ayes vd)
            ∧ nays_cell r = length (Senate.nays vd)
            ∧ votes_cell r = display_votes vd (registered_delegate_info w).
Proof.
  intros Hhashes Hsenate Hnodup.
  unfold proposals, _get_senate_members, _get_proposals.
  rewrite Hsenate, Hhashes. cbn.
  rewrite dict_of_distinct
    by (rewrite <- list_fmap_compose, list_fmap_id; exact Hnodup).
  destruct (add_rows w _) as [rs |] eqn:Hadd; cbn; [| discriminate].
  intros [= <-]. cbn. rewrite length_fmap.
  split; [| split; [reflexivity | split; [reflexivity |]]].
  - rewrite (add_rows_hashes _ _ _ Hadd), <- list_fmap_compose.
    apply list_fmap_id.
  - intros r Hr.
    destruct (add_rows_counts _ _ _ Hadd r Hr) as (vd & (cd & Hin) & Hrest).
    apply list_elem_of_fmap in Hin as (h & [= -> -> Hvd] & _).
    exists vd. split; [symmetry; exact Hvd | exact Hrest].
Qed.

End ProposalsFacts.

Lemma proposals_needs_every_piece_witness :
  ∃ t, Proposals.proposals sample_proposals_world = Ok t.
Proof.
  apply (proj1 (proposals_needs_every_piece sample_proposals_world)).
  split; [eexists; reflexivity |].
  exists ["0xaa"; "0xbb"]. split; [reflexivity |].
  intros h _. split; eexists; reflexivity.
Defined.

Lemma proposals_has_a_row_per_hash_witness :
  ∃ t, Proposals.proposals sample_proposals_world = Ok t
       ∧ Proposals.hash_ <$> Proposals.rows t = ["0xaa"; "0xbb"]
       ∧ Proposals.active_proposals t = 2%nat.
Proof.
  destruct (Proposals.proposals sample_proposals_world) as [t | e] eqn:Ht;
    [| vm_compute in Ht; discriminate Ht].
  exists t. split; [reflexivity |].
  assert (Hnodup : NoDup ["0xaa"; "0xbb"])
    by (refine (bool_decide_unpack _ _); vm_compute; exact I).
  destruct (proposals_has_a_row_per_hash sample_proposals_world t
              ["0xaa"; "0xbb"] [sample_destination; sample_hotkey]
              eq_refl eq_refl Hnodup Ht) as (Hrows & Hcount & _).
  split; [exact Hrows | exact Hcount].
Defined.

(** A nested call is written inside the call that carries it, and a known
    delegate is shown by its name. *)
Example proposals_cells :
  Proposals.format_call_data "sudo"
    [("call", Proposals.NestedCall "set_take" [("take", Proposals.Plain "11796")])]
  = "sudo(call: set_take(take: 11796))"
  ∧ Proposals.display_votes
      {| Senate.index := 3; Senate.threshold := 2;
         Senate.ayes := [sample_hotkey]; Senate.nays := ["5Unknown"];
         Senate.end_ := 100 |}
      {[sample_hotkey := "Validator One"]}
    = "Validator One: [bold green]Aye[/bold green]
5Unknown: [bold red]Nay[/bold red]".
Proof. split; vm_compute; reflexivity. Qed.

(** ** The validator: one library call per input *)

(** X27. Which library call judges an address depends on its form alone. A
    string that does not start with "0x" is judged by the ss58 check and
    the key pair is never built, so a bare hex key of 64 characters is
    treated as an ss58 address; a "0x" string or bytes are judged by the key
    pair and the ss58 check is never made. *)
Theorem validator_consults_one_library_call
    (L1 L2 : KeyLibrary) (address : pyobj) :
  @SS58_FORMAT L1 = @SS58_FORMAT L2 →
  (match address with
   | PyStr s =>
       if String.prefix "0x" s
       then ∀ fmt, @Keypair_ss58_address L1 address fmt
                   = @Keypair_ss58_address L2 address fmt
       else ∀ fmt, @ss58_is_valid_ss58_address L1 s fmt
                   = @ss58_is_valid_ss58_address L2 s fmt
   | PyBytes _ => ∀ fmt, @Keypair_ss58_address L1 address fmt
                         = @Keypair_ss58_address L2 address fmt
   | _ => True
   end) →
  @is_valid_bittensor_address_or_public_key L1 address
  = @is_valid_bittensor_address_or_public_key L2 address.
Proof.
  intros Hfmt Hsame. destruct address as [s | b | | z]; cbn; try reflexivity.
  - destruct (String.prefix "0x" s).
    + unfold is_valid_ed25519_pubkey. rewrite Hfmt, Hsame. reflexivity.
    + unfold is_valid_ss58_address. rewrite Hfmt, !Hsame. reflexivity.
  - unfold is_valid_ed25519_pubkey. rewrite Hfmt, Hsame. reflexivity.
Qed.

(** A library that builds a key pair from anything. *)
Lemma validator_consults_one_library_call_witness :
  @is_valid_bittensor_address_or_public_key
    {| SS58_FORMAT := 42;
       ss58_is_valid_ss58_address := @ss58_is_valid_ss58_address sample_library;
       Keypair_ss58_address _ _ := Ok (Some sample_hotkey) |}
    (PyStr "d43593c715fdd31c61141abd04a99fd6822c8558854ccde39a5684e7a56da27d")
  = @is_valid_bittensor_address_or_public_key sample_library
      (PyStr "d43593c715fdd31c61141abd04a99fd6822c8558854ccde39a5684e7a56da27d").
Proof.
  apply validator_consults_one_library_call.
  - reflexivity.
  - cbn. intros fmt. reflexivity.
Defined.

(** ** Hotkey wallets of a wallet *)

Section WalletsFacts.
Import Wallets.

Lemma collect_wallets (show_nulls : bool) (hotkeys : list (string * probe)) :
  ∀ wallets, collect show_nulls hotkeys = Ok wallets →
    omap id wallets = (List.filter (fun p => usable p.2) hotkeys).*1
    ∧ length wallets
      = (length (List.filter (fun p => usable p.2) hotkeys)
         + if show_nulls
           then length (List.filter (fun p => unusable p.2) hotkeys)
           else 0)%nat.
Proof.
  induction hotkeys as [| [h_name p] hotkeys IH]; intros wallets; cbn.
  - intros [= <-]. destruct show_nulls; split; reflexivity.
  - destruct p as [| | | e]; cbn.
    + destruct (collect show_nulls hotkeys) as [ws |]; [| discriminate].
      cbn. intros [= <-]. destruct (IH ws eq_refl) as [Hw Hl].
      cbn. rewrite Hw, Hl. split; reflexivity.
    + destruct (collect show_nulls hotkeys) as [ws |]; [| discriminate].
      cbn. intros [= <-]. destruct (IH ws eq_refl) as [Hw Hl].
      destruct show_nulls; cbn; rewrite ?Hw, Hl; split; try reflexivity; lia.
    + apply IH.
    + destruct (bool_decide (e = AttributeError)); [apply IH | discriminate].
Qed.

(** X28. When [get_hotkey_wallets_for_wallet] returns, the wallets in its
    result are those of the usable hotkey files, in the order of the
    directory listing; with [show_nulls] there is one more placeholder per
    unusable file, and none for a file that raised UnicodeDecodeError or
    AttributeError. A missing hotkeys directory gives the empty list. *)
Theorem hotkey_wallets_are_the_usable_ones
    (listing : option (list (string * probe))) (show_nulls : bool)
    (wallets : list (option string)) :
  get_hotkey_wallets_for_wallet listing show_nulls = Ok wallets →
  omap id wallets
  = (List.filter (fun p => usable p.2) (default [] listing)).*1
  ∧ length wallets
    = (length (List.filter (fun p => usable p.2) (default [] listing))
       + if show_nulls
         then length (List.filter (fun p => unusable p.2) (default [] listing))
         else 0)%nat
  ∧ (listing = None → wallets = []).
Proof.
  unfold get_hotkey_wallets_for_wallet. intros Hok.
  destruct (collect_wallets show_nulls _ wallets Hok) as [Hw Hl].
  split; [exact Hw |]. split; [exact Hl |].
  intros ->. cbn in Hok. injection Hok as <-. reflexivity.
Qed.

End WalletsFacts.

Lemma hotkey_wallets_are_the_usable_ones_witness :
  Wallets.get_hotkey_wallets_for_wallet (Some sample_hotkeys) true
  = Ok [Some "default"; None]
  ∧ omap id [Some "default"; None] = ["default"].
Proof.
  split; [reflexivity |].
  destruct (hotkey_wallets_are_the_usable_ones (Some sample_hotkeys) true
              [Some "default"; None] eq_refl) as (Hw & _).
  exact Hw.
Defined.

(** ** The delegate commands *)

(** X29. [delegate_stake] and [delegate_unstake] never send an extrinsic the
    user has not confirmed: whenever one of them submits, the confirmation
    was asked with the staking balance and answered yes, and the staking
    balance was covered by the coldkey balance. *)
Theorem delegate_commands_send_only_when_confirmed
    (from_tao_of_Balance : Balance → Balance) (delegate_ss58key : string)
    (amount : Q) (w : Delegate.World) (delegate : bool) :
  let a := DelegateCommand.extrinsic_args delegate_ss58key amount delegate in
  let run :=
    if delegate
    then DelegateCommand.delegate_stake from_tao_of_Balance delegate_ss58key
           amount w
    else DelegateCommand.delegate_unstake from_tao_of_Balance delegate_ss58key
           amount w in
  submits (trace run) = true →
  Delegate.confirmed w = true
  ∧ rao (Delegate.staking_balance from_tao_of_Balance a w)
    ≤ rao (Delegate.my_prev_coldkey_balance w)
  ∧ ConfirmAsk "Do you want to delegate/undelegate"
      [Delegate.staking_balance from_tao_of_Balance a w]
    ∈ trace run.
Proof.
  cbn zeta.
  assert (Hrun : ∀ d,
    submits (trace (Delegate.delegate_extrinsic from_tao_of_Balance
                      (DelegateCommand.extrinsic_args delegate_ss58key amount d)
                      w;; mret ())) = true →
    Delegate.confirmed w = true
    ∧ rao (Delegate.staking_balance from_tao_of_Balance
             (DelegateCommand.extrinsic_args delegate_ss58key amount d) w)
      ≤ rao (Delegate.my_prev_coldkey_balance w)
    ∧ ConfirmAsk "Do you want to delegate/undelegate"
        [Delegate.staking_balance from_tao_of_Balance
           (DelegateCommand.extrinsic_args delegate_ss58key amount d) w]
      ∈ trace (Delegate.delegate_extrinsic from_tao_of_Balance
                 (DelegateCommand.extrinsic_args delegate_ss58key amount d) w;;
               mret ())).
  { intros d. unfold Delegate.delegate_extrinsic.
    cbn -[Delegate.staking_balance from_tao].
    unfold Balance_gt.
    destruct (rao (Delegate.my_prev_coldkey_balance w)
              <? rao (Delegate.staking_balance from_tao_of_Balance
                        (DelegateCommand.extrinsic_args delegate_ss58key amount d)
                        w)) eqn:Hcmp;
      cbn -[Delegate.staking_balance from_tao]; [discriminate |].
    apply Z.ltb_ge in Hcmp.
    destruct (Delegate.confirmed w);
      cbn -[Delegate.staking_balance from_tao]; [| discriminate].
    intros _. split; [reflexivity |]. split; [exact Hcmp |].
    destruct d, (Delegate.send_success w);
      cbn -[Delegate.staking_balance from_tao]; set_solver. }
  destruct delegate; apply Hrun.
Qed.

Lemma delegate_commands_send_only_when_confirmed_witness :
  Delegate.confirmed sample_delegate_world = true
  ∧ ConfirmAsk "Do you want to delegate/undelegate" [from_rao 4000]
    ∈ trace (DelegateCommand.delegate_stake (fun b => b) sample_hotkey
               (5000 # 1000000000) sample_delegate_world).
Proof.
  destruct (delegate_commands_send_only_when_confirmed (fun b => b)
              sample_hotkey (5000 # 1000000000) sample_delegate_world true
              eq_refl) as (Hc & _ & Hask).
  split; [exact Hc | exact Hask].
Defined.

Lemma get_weights_has_a_column_per_netuid_witness :
  2 ∈ Weights.netuids (Weights.get_weights sample_weights).
Proof.
  apply (get_weights_has_a_column_per_netuid sample_weights 2).
  exists 7, [(1, 3); (2, 1)], 1. split; apply list_elem_of_In; cbn; auto.
Defined.

Lemma set_slash_leaves_no_negative_weight_witness :
  length [1 # 2; 1 # 4; 0]%Q = 3%nat ∧ (0 <= 1 # 4)%Q.
Proof.
  pose proof (set_slash_leaves_no_negative_weight
                [1 # 2; 1 # 4; 1 # 4]%Q (-1) (1 # 2)) as H.
  cbn in H. destruct H as (_ & Hlen & Hpos & _).
  split; [exact Hlen |].
  apply Hpos. apply list_elem_of_In. right. left. reflexivity.
Defined.

